(** * Cart, checkout and request layer of the storefront

    A shallow embedding of the client-side cart/checkout orchestration:

    - [APIService]      (request layer: handleResponse, fetchWithTimeout,
                         retryRequest, get/post, login, mergeCart, getCart);
    - [CartService]     (js/cart.js);
    - [CheckoutService] (js/checkout.js);
    - [LoginPage]       (js/login.js, handleRegister of js/reviews.js);
    - [CheckoutPage]    (handleCheckoutSubmit, redirectToPayFast);
    - [Security]        (js/security.js: sanitizeInput, the password rules);
    - [Validation]      (js/security.js: the form validators and the card
                         number check).

    JavaScript methods that mutate [this], touch browser storage, talk to the
    network or throw are functions in a state-and-exception monad [M] over a
    [World].  The network is a script of answers consumed by [fetch]; every
    observable effect (requests, back-off waits, notifications, form
    submissions, navigations) is appended to the world's [trace].

    Numbers: quantities, stock counts, HTTP statuses and delays are integers
    ([Z]); prices and totals are exact rationals ([Q]). *)

From Stdlib Require Import ZArith QArith String Ascii List Lia.
From stdpp Require Import base option list strings gmap pretty.

Local Open Scope string_scope.
Local Open Scope list_scope.
Local Open Scope Z_scope.

(** ** JavaScript values and helpers *)

Module JS.

(** [a || b] on an optional string: [undefined] and [''] are falsy. *)
Definition truthy_str (o : option string) : bool :=
  match o with
  | Some s => negb (String.eqb s "")
  | None => false
  end.

Definition or_str (a b : option string) : option string :=
  if truthy_str a then a else b.

(** [a || 'default'] where the right operand is a string literal. *)
Definition or_default (a : option string) (d : string) : string :=
  match a with
  | Some s => if String.eqb s "" then d else s
  | None => d
  end.

(** [a === b] on optional strings ([undefined === undefined] holds). *)
Definition strict_eq (a b : option string) : bool := bool_decide (a = b).

(** [String.prototype.includes]. *)
Fixpoint includes (s sub : string) : bool :=
  String.prefix sub s ||
  match s with
  | EmptyString => false
  | String _ s' => includes s' sub
  end.

(** [Array.prototype.join]. *)
Fixpoint join (sep : string) (l : list string) : string :=
  match l with
  | [] => ""
  | [x] => x
  | x :: rest => x +:+ sep +:+ join sep rest
  end.

(** Template-literal rendering of an integer, and of a possibly
    [undefined] string. *)
Definition show_Z (z : Z) : string := pretty z.

Definition show_opt (o : option string) : string :=
  match o with
  | Some s => s
  | None => "undefined"
  end.

(** Values that may sit in a JSON object field. *)
Inductive Val :=
| VNull
| VBool (b : bool)
| VNum (n : Z)
| VStr (s : string).

Definition truthy (v : Val) : bool :=
  match v with
  | VNull => false
  | VBool b => b
  | VNum n => negb (n =? 0)
  | VStr s => negb (String.eqb s "")
  end.

(** The string an input holds after [input.value = v]: the setter
    converts [v] as [String(v)] does, except that [null] gives the empty
    string. *)
Definition to_string (v : Val) : string :=
  match v with
  | VNull => ""
  | VBool true => "true"
  | VBool false => "false"
  | VNum n => show_Z n
  | VStr s => s
  end.

(** A plain object: own enumerable keys in insertion order. *)
Definition Obj := list (string * Val).

Definition keys (o : Obj) : list string := map fst o.

Fixpoint get (o : Obj) (k : string) : option Val :=
  match o with
  | [] => None
  | (k', v) :: rest => if String.eqb k' k then Some v else get rest k
  end.

(** Truthiness of [o.k]; a missing property reads [undefined]. *)
Definition truthy_prop (o : Obj) (k : string) : bool :=
  match get o k with
  | Some v => truthy v
  | None => false
  end.

(** The string an input holds after [input.value = o[k]]; a missing
    property reads [undefined]. *)
Definition prop_string (o : Obj) (k : string) : string :=
  match get o k with
  | Some v => to_string v
  | None => "undefined"
  end.

(** What a [throw] can carry: an [Error] with a message, or the value
    [undefined] (see [retryRequest] with no attempt made). *)
Inductive Exn :=
| Error (message : string)
| Undefined.

End JS.

Import JS.

(** ** Data model *)

(** A product as handed to [CartService.addToCart]. *)
Module Product.
Record t := mk {
  id : option string;
  _id : option string;
  name : string;
  price : Q;
  salePrice : option Q;
  image : option string;
  images : list string;
  stock : option Z;
  sku : option string
}.
End Product.

(** A cart line, with the fields [addToCart] writes; a line coming from the
    backend or from storage may also carry an [id]. *)
Module CartItem.
Record t := mk {
  productId : option string;
  id : option string;
  name : string;
  price : Q;
  salePrice : option Q;
  image : option string;
  quantity : Z;
  stock : option Z;
  sku : option string
}.

(** [item.quantity = q] *)
Definition set_quantity (q : Z) (i : t) : t :=
  mk (productId i) (id i) (name i) (price i) (salePrice i) (image i)
     q (stock i) (sku i).
End CartItem.

Record ShippingInfo := mkShippingInfo {
  fullName : string;
  email : string;
  phone : string;
  street : string;
  city : string;
  province : string;
  postalCode : string;
  country : string
}.

Record CheckoutData := mkCheckoutData {
  step : Z;
  shippingInfo : ShippingInfo;
  shippingMethod : string;
  paymentMethod : string;
  orderNotes : string;
  couponCode : string;
  discount : Q;
  agreeToTerms : bool
}.

Record Totals := mkTotals {
  subtotal : Q;
  totals_discount : Q;
  subtotalAfterDiscount : Q;
  vat : Q;
  shipping : Q;
  total : Q
}.

(** The [orderData] object built by [CheckoutService.createOrder]. *)
Module OrderData.
Record t := mk {
  items : list CartItem.t;
  shippingInfo : ShippingInfo;
  shippingMethod : string;
  paymentMethod : string;
  orderNotes : string;
  couponCode : string;
  discount : Q;
  totals : Totals;
  timestamp : Z
}.
End OrderData.

(** The [formData] object built by [handleCheckoutSubmit]; a field is [None]
    when the form element is missing. *)
Module FormData.
Record t := mk {
  name : option string;
  phone : option string;
  line1 : option string;
  line2 : option string;
  city : option string;
  province : option string;
  postalCode : option string;
  guestEmail : option string;
  notes : option string
}.
End FormData.

(** An order as the backend returns it. *)
Module Order.
Record t := mk {
  id : option string;
  _id : option string
}.
End Order.

(** ** Requests and responses *)

Inductive Body :=
| NoBody
| CartBody (items : list CartItem.t)
| MergeBody (sessionId : string)
| LoginBody (email password : string)
| RegisterBody (name email password : string)
| OrderBody (orderData : OrderData.t)
| CheckoutBody (formData : FormData.t).

Module Req.
Record t := mk {
  method : string;
  url : string;
  authorization : option string;
  body : Body
}.
End Req.

(** The [data] member of a response body, itself an object. *)
Module Data.
Record t := mk {
  token : option string;
  order : option Order.t;
  paymentData : option JS.Obj;
  id : option string;
  _id : option string
}.
End Data.

(** A parsed JSON response body, with the members the client reads. *)
Module Resp.
Record t := mk {
  success : bool;
  message : option string;
  token : option string;
  data : option Data.t;
  cart : option (option (list CartItem.t));
  order : option Order.t;
  paymentData : option JS.Obj
}.

(** The object literal [{ success: true }]. *)
Definition success_only : t := mk true None None None None None None.
End Resp.

(** An HTTP response: [ok] is derived from the status; [json] is [None]
    when the body does not parse. *)
Record Response := mkResponse {
  status : Z;
  json : option Resp.t
}.

Definition ok (r : Response) : bool := (200 <=? status r) && (status r <=? 299).

(** What one call of [fetch] comes to. *)
Inductive FetchResult :=
| Responded (r : Response)
| Aborted
| Failed (message : string).

(** ** The browser side *)

Module Html.
Record input := mkInput {
  type : string;
  name : string;
  value : string
}.
Record form := mkForm {
  method : string;
  action : string;
  children : list input
}.
End Html.

(** The closures handed to [setTimeout(callback, ms)]. *)
Inductive Callback :=
| RedirectToPayFast (paymentData : JS.Obj)
| ShowOrderDetails (order : option (option string * option string))
| Redirect (url : string).

Inductive Event :=
| Fetch (req : Req.t)
| Sleep (ms : Z)
| Notify (message kind : string)
| ConsoleError (label : string)
| Loading (shown : bool)
| FormSubmit (f : Html.form)
| Navigate (url : string).

Record World := mkWorld {
  (** [localStorage], apart from its cart entry *)
  localStorage : gmap string string;
  (** the ['cart'] entry of [localStorage], parsed *)
  storedCart : option (list CartItem.t);
  (** the ['checkoutData'] entry of [sessionStorage] *)
  storedCheckout : option CheckoutData;
  (** [APIService.token] *)
  token : option string;
  (** [CartService.cart] *)
  cart : list CartItem.t;
  (** [CartService.syncInProgress] *)
  syncInProgress : bool;
  (** [CheckoutService.checkoutData] *)
  checkoutData : CheckoutData;
  (** what the network answers to the fetches to come *)
  network : list FetchResult;
  (** [Date.now()] *)
  clock : Z;
  (** [Math.random().toString(36).substring(2, 11)] *)
  entropy : string;
  (** callbacks queued by [setTimeout], with their delays *)
  timers : list (Callback * Z);
  (** the effects observed so far, oldest first *)
  trace : list Event
}.

(** Field updates. *)

Definition set_localStorage (x : gmap string string) (w : World) : World :=
  mkWorld x (storedCart w) (storedCheckout w) (token w) (cart w)
    (syncInProgress w) (checkoutData w) (network w) (clock w) (entropy w)
    (timers w) (trace w).

Definition set_storedCart (x : option (list CartItem.t)) (w : World) : World :=
  mkWorld (localStorage w) x (storedCheckout w) (token w) (cart w)
    (syncInProgress w) (checkoutData w) (network w) (clock w) (entropy w)
    (timers w) (trace w).

Definition set_storedCheckout (x : option CheckoutData) (w : World) : World :=
  mkWorld (localStorage w) (storedCart w) x (token w) (cart w)
    (syncInProgress w) (checkoutData w) (network w) (clock w) (entropy w)
    (timers w) (trace w).

Definition set_token (x : option string) (w : World) : World :=
  mkWorld (localStorage w) (storedCart w) (storedCheckout w) x (cart w)
    (syncInProgress w) (checkoutData w) (network w) (clock w) (entropy w)
    (timers w) (trace w).

Definition set_cart (x : list CartItem.t) (w : World) : World :=
  mkWorld (localStorage w) (storedCart w) (storedCheckout w) (token w) x
    (syncInProgress w) (checkoutData w) (network w) (clock w) (entropy w)
    (timers w) (trace w).

Definition set_syncInProgress (x : bool) (w : World) : World :=
  mkWorld (localStorage w) (storedCart w) (storedCheckout w) (token w)
    (cart w) x (checkoutData w) (network w) (clock w) (entropy w) (timers w)
    (trace w).

Definition set_checkoutData (x : CheckoutData) (w : World) : World :=
  mkWorld (localStorage w) (storedCart w) (storedCheckout w) (token w)
    (cart w) (syncInProgress w) x (network w) (clock w) (entropy w)
    (timers w) (trace w).

Definition set_network (x : list FetchResult) (w : World) : World :=
  mkWorld (localStorage w) (storedCart w) (storedCheckout w) (token w)
    (cart w) (syncInProgress w) (checkoutData w) x (clock w) (entropy w)
    (timers w) (trace w).

Definition set_clock (x : Z) (w : World) : World :=
  mkWorld (localStorage w) (storedCart w) (storedCheckout w) (token w)
    (cart w) (syncInProgress w) (checkoutData w) (network w) x (entropy w)
    (timers w) (trace w).

Definition set_entropy (x : string) (w : World) : World :=
  mkWorld (localStorage w) (storedCart w) (storedCheckout w) (token w)
    (cart w) (syncInProgress w) (checkoutData w) (network w) (clock w) x
    (timers w) (trace w).

Definition set_timers (x : list (Callback * Z)) (w : World) : World :=
  mkWorld (localStorage w) (storedCart w) (storedCheckout w) (token w)
    (cart w) (syncInProgress w) (checkoutData w) (network w) (clock w)
    (entropy w) x (trace w).

Definition set_trace (x : list Event) (w : World) : World :=
  mkWorld (localStorage w) (storedCart w) (storedCheckout w) (token w)
    (cart w) (syncInProgress w) (checkoutData w) (network w) (clock w)
    (entropy w) (timers w) x.

(** ** The state-and-exception monad *)

Inductive Outcome (A : Type) :=
| Ok (a : A)
| Throw (e : Exn).
Arguments Ok {A} a.
Arguments Throw {A} e.

Definition M (A : Type) : Type := World -> Outcome A * World.

Definition ret {A} (a : A) : M A := fun w => (Ok a, w).

Definition throw {A} (e : Exn) : M A := fun w => (Throw e, w).

Definition bind {A B} (m : M A) (k : A -> M B) : M B :=
  fun w =>
    match m w with
    | (Ok a, w') => k a w'
    | (Throw e, w') => (Throw e, w')
    end.

(** [try { m } catch (e) { h e }] *)
Definition try_catch {A} (m : M A) (h : Exn -> M A) : M A :=
  fun w =>
    match m w with
    | (Ok a, w') => (Ok a, w')
    | (Throw e, w') => h e w'
    end.

(** [try { m } finally { f }] *)
Definition finally {A} (m : M A) (f : M unit) : M A :=
  fun w =>
    match m w with
    | (r, w') =>
        match f w' with
        | (Ok _, w'') => (r, w'')
        | (Throw e, w'') => (Throw e, w'')
        end
    end.

Definition gets {A} (f : World -> A) : M A := fun w => (Ok (f w), w).

Definition modify (f : World -> World) : M unit := fun w => (Ok tt, f w).

Notation "x <- m ;; k" := (bind m (fun x => k))
  (at level 90, m at level 89, k at level 200, right associativity).
Notation "m ;;; k" := (bind m (fun _ => k))
  (at level 90, k at level 200, right associativity).

Definition emit (e : Event) : M unit :=
  modify (fun w => set_trace (trace w ++ [e]) w).

(** Reading [error.message]; on [undefined] the read itself throws. *)
Definition message_of (e : Exn) : M string :=
  match e with
  | Error m => ret m
  | Undefined =>
      throw (Error "Cannot read properties of undefined (reading 'message')")
  end.

Definition showNotification (message kind : string) : M unit :=
  emit (Notify message kind).

Definition console_error (label : string) : M unit :=
  emit (ConsoleError label).

(** [setTimeout(callback, ms)]: the callback is queued, not run. *)
Definition setTimeout (cb : Callback) (ms : Z) : M unit :=
  modify (fun w => set_timers (timers w ++ [(cb, ms)]) w).

(** [localStorage.getItem], [setItem], [removeItem]. *)
Definition getItem (k : string) : M (option string) :=
  gets (fun w => localStorage w !! k).

Definition setItem (k v : string) : M unit :=
  modify (fun w => set_localStorage (<[k := v]> (localStorage w)) w).

Definition removeItem (k : string) : M unit :=
  modify (fun w => set_localStorage (delete k (localStorage w)) w).

(** ** Configuration (config.js)

    The endpoints the modelled code uses, as the fuller of the two
    configuration files declares them, and the amounts of [APP_CONFIG]. *)

Definition BACKEND_URL : string := "https://backend-ecommerce-3-2jsk.onrender.com".

Module ENDPOINTS.
Definition register : string := BACKEND_URL +:+ "/api/auth/register".
Definition login : string := BACKEND_URL +:+ "/api/auth/login".
Definition orders : string := BACKEND_URL +:+ "/api/orders".
Definition cart : string := BACKEND_URL +:+ "/api/cart".
End ENDPOINTS.

Record AppConfig := mkAppConfig {
  VAT_RATE : Q;
  FREE_THRESHOLD : Q;
  STANDARD_COST : Q;
  EXPRESS_COST : Q
}.

Definition APP_CONFIG : AppConfig :=
  mkAppConfig (15 # 100) (1500 # 1) (150 # 1) (250 # 1).

(** ** The request layer (class APIService) *)

Module APIService.

(** The [config] object handed to the constructor. *)
Record Config := mkConfig {
  TIMEOUT : option Z;
  RETRY_ATTEMPTS : option Z;
  RETRY_DELAY : option Z
}.

(** The fields the constructor fixes; [this.token] lives in the world. *)
Record t := mk {
  requestTimeout : Z;
  retryAttempts : Z;
  retryDelay : Z
}.

(** [n || d] on a possibly missing number: [undefined] and [0] are falsy. *)
Definition or_num (n : option Z) (d : Z) : Z :=
  match n with
  | Some z => if z =? 0 then d else z
  | None => d
  end.

Definition constructor (config : Config) : t :=
  mk (or_num (TIMEOUT config) 30000)
     (or_num (RETRY_ATTEMPTS config) 3)
     (or_num (RETRY_DELAY config) 1000).

(** The global instance: [TIMEOUT: 30000, RETRY_ATTEMPTS: 3,
    RETRY_DELAY: 1000]. *)
Definition api : t := constructor (mkConfig (Some 30000) (Some 3) (Some 1000)).

(** [getHeaders]: only the [Authorization] header varies. *)
Definition getHeaders (includeAuth : bool) : M (option string) :=
  tok <- gets token ;;
  ret (if includeAuth && truthy_str tok
       then Some ("Bearer " +:+ show_opt tok)
       else None).

Definition handleResponse (response : option Response) : M Resp.t :=
  match response with
  | None =>
      throw (Error "Network error. Please check your internet connection.")
  | Some response =>
      match json response with
      | None =>
          if ok response then ret Resp.success_only
          else throw (Error "Server response error. Please try again later.")
      | Some data =>
          if negb (ok response) then
            if status response =? 400 then
              throw (Error (or_default (Resp.message data)
                              "Invalid request. Please check your input."))
            else if status response =? 401 then
              removeItem "authToken" ;;;
              removeItem "user" ;;;
              throw (Error "Session expired. Please login again.")
            else if status response =? 403 then
              throw (Error "Access denied. You do not have permission.")
            else if status response =? 404 then
              throw (Error (or_default (Resp.message data)
                              "Resource not found."))
            else if status response =? 500 then
              throw (Error "Server error. Please try again later.")
            else if status response =? 503 then
              throw (Error "Service temporarily unavailable. Please try again later.")
            else
              throw (Error (or_default (Resp.message data)
                              "Something went wrong. Please try again."))
          else ret data
      end
  end.

(** [fetch]: logs the request and takes the next answer of the network;
    with no answer left the browser is offline. *)
Definition fetch (req : Req.t) : M FetchResult :=
  emit (Fetch req) ;;;
  net <- gets network ;;
  match net with
  | [] => ret (Failed "Failed to fetch")
  | r :: rest => modify (set_network rest) ;;; ret r
  end.

(** [fetchWithTimeout]: an abort becomes a timeout error, any other
    rejection is rethrown. *)
Definition fetchWithTimeout (req : Req.t) : M Response :=
  r <- fetch req ;;
  match r with
  | Responded response => ret response
  | Aborted => throw (Error "Request timeout. Please try again.")
  | Failed m => throw (Error m)
  end.

(** The test guarding [throw error] inside the retry loop. *)
Definition no_retry (error : Exn) : bool :=
  match error with
  | Error m =>
      negb (String.eqb m "") &&
      (includes m "Invalid request" ||
       includes m "Session expired" ||
       includes m "Access denied" ||
       includes m "not found")
  | Undefined => false
  end.

Section Instance.
Context (this : t).

(** The [for] loop of [retryRequest], at index [i] with [n] iterations
    left. *)
Fixpoint retryLoop {A} (requestFn : M A) (attempts i : Z) (n : nat)
         (lastError : Exn) : M A :=
  match n with
  | O => throw lastError
  | S n' =>
      try_catch requestFn (fun error =>
        if no_retry error then throw error
        else
          (if i <? attempts - 1
           then emit (Sleep (retryDelay this * 2 ^ i))
           else ret tt) ;;;
          retryLoop requestFn attempts (i + 1) n' error)
  end.

Definition retryRequest {A} (requestFn : M A) (attempts : Z) : M A :=
  retryLoop requestFn attempts 0 (Z.to_nat attempts) Undefined.

Definition get (url : string) (includeAuth : bool) : M Resp.t :=
  retryRequest
    (h <- getHeaders includeAuth ;;
     response <- fetchWithTimeout (Req.mk "GET" url h NoBody) ;;
     handleResponse (Some response))
    (retryAttempts this).

Definition post (url : string) (data : Body) (includeAuth : bool)
  : M Resp.t :=
  retryRequest
    (h <- getHeaders includeAuth ;;
     response <- fetchWithTimeout (Req.mk "POST" url h data) ;;
     handleResponse (Some response))
    (retryAttempts this).

Definition setToken (tok : string) : M unit :=
  modify (set_token (Some tok)) ;;;
  setItem "authToken" tok.

(** [logout]: the page is then sent to the sign-in form. *)
Definition logout : M unit :=
  modify (set_token None) ;;;
  removeItem "authToken" ;;;
  removeItem "user" ;;;
  removeItem "sessionId" ;;;
  emit (Navigate "/login.html").

(** The token of a login or registration response:
    [response.token || response.data.token], when either is truthy. *)
Definition response_token (response : Resp.t) : option string :=
  if truthy_str (Resp.token response) then Resp.token response
  else match Resp.data response with
       | Some d => if truthy_str (Data.token d) then Data.token d else None
       | None => None
       end.

Definition store_token (response : Resp.t) : M unit :=
  match response_token response with
  | Some tok => setToken tok
  | None => ret tt
  end.

Definition register (name email password : string) : M Resp.t :=
  response <- post ENDPOINTS.register (RegisterBody name email password) false ;;
  store_token response ;;;
  ret response.

Definition login (email password : string) : M Resp.t :=
  response <- post ENDPOINTS.login (LoginBody email password) false ;;
  store_token response ;;;
  ret response.

Definition getOrCreateSessionId : M string :=
  sessionId <- getItem "sessionId" ;;
  if truthy_str sessionId then ret (show_opt sessionId)
  else
    now <- gets clock ;;
    rnd <- gets entropy ;;
    let sessionId := "session_" +:+ show_Z now +:+ "_" +:+ rnd in
    setItem "sessionId" sessionId ;;;
    ret sessionId.

Definition getCart : M Resp.t :=
  sessionId <- getOrCreateSessionId ;;
  tok <- gets token ;;
  get (ENDPOINTS.cart +:+ "?sessionId=" +:+ sessionId) (truthy_str tok).

Definition mergeCart : M unit :=
  sessionId <- getItem "sessionId" ;;
  tok <- gets token ;;
  if truthy_str sessionId && truthy_str tok then
    try_catch
      (post (ENDPOINTS.cart +:+ "/merge") (MergeBody (show_opt sessionId)) true ;;;
       removeItem "sessionId")
      (fun error => console_error "Cart merge failed:")
  else ret tt.

Definition createOrder (orderData : Body) : M Resp.t :=
  post ENDPOINTS.orders orderData true.

End Instance.

End APIService.

(** ** The cart (class CartService, js/cart.js) *)

Module CartService.

(** The predicate of [findCartItem] and of [removeFromCart]'s
    [findIndex]: [item.productId === productId || item.id === productId]. *)
Definition matches (productId : option string) (item : CartItem.t) : bool :=
  strict_eq (CartItem.productId item) productId ||
  strict_eq (CartItem.id item) productId.

Definition findCartItem (c : list CartItem.t) (productId : option string)
  : option CartItem.t :=
  List.find (matches productId) c.

(** [Array.prototype.findIndex]; [None] stands for [-1]. *)
Fixpoint findIndex (c : list CartItem.t) (productId : option string)
  : option nat :=
  match c with
  | [] => None
  | item :: rest =>
      if matches productId item then Some O
      else option_map S (findIndex rest productId)
  end.

(** [item.quantity = q] on the object [findCartItem] returned: the first
    matching line is changed where it stands. *)
Fixpoint assign_quantity (productId : option string) (q : Z)
         (c : list CartItem.t) : list CartItem.t :=
  match c with
  | [] => []
  | item :: rest =>
      if matches productId item then CartItem.set_quantity q item :: rest
      else item :: assign_quantity productId q rest
  end.

(** [item.quantity || 1] *)
Definition quantity_or_1 (item : CartItem.t) : Z :=
  if CartItem.quantity item =? 0 then 1 else CartItem.quantity item.

(** [item.salePrice || item.price] *)
Definition effective_price (item : CartItem.t) : Q :=
  match CartItem.salePrice item with
  | Some p => if Qeq_bool p 0 then CartItem.price item else p
  | None => CartItem.price item
  end.

Definition getCartCount (c : list CartItem.t) : Z :=
  fold_left (fun total item => total + quantity_or_1 item) c 0.

Definition getCartSubtotal (c : list CartItem.t) : Q :=
  fold_left
    (fun total item =>
       (total + effective_price item * inject_Z (quantity_or_1 item))%Q)
    c 0%Q.

(** [saveCart]: the cart is written to storage (the badge refresh is view
    code and leaves the world alone). *)
Definition saveCart : M unit :=
  modify (fun w => set_storedCart (Some (cart w)) w).

Definition getCart : M (list CartItem.t) := gets cart.

Section Instance.
Context (api : APIService.t).

Definition syncWithBackend : M unit :=
  authToken <- getItem "authToken" ;;
  busy <- gets syncInProgress ;;
  if negb (truthy_str authToken) || busy then ret tt
  else
    modify (set_syncInProgress true) ;;;
    finally
      (try_catch
         (c <- gets cart ;;
          APIService.post api ENDPOINTS.cart (CartBody c) true ;;;
          ret tt)
         (fun error => console_error "Cart sync failed:"))
      (modify (set_syncInProgress false)).

Definition removeFromCart (productId : option string) : M bool :=
  try_catch
    (c <- gets cart ;;
     match findIndex c productId with
     | None => throw (Error "Item not found in cart")
     | Some index =>
         match c !! index with
         | None => throw (Error "Cannot read properties of undefined (reading 'name')")
         | Some item =>
             modify (set_cart (delete index c)) ;;;
             saveCart ;;;
             syncWithBackend ;;;
             showNotification (CartItem.name item +:+ " removed from cart") "success" ;;;
             ret true
         end
     end)
    (fun error =>
       m <- message_of error ;;
       showNotification m "error" ;;;
       ret false).

Definition updateQuantity (productId : option string) (quantity : Z)
  : M bool :=
  try_catch
    (if quantity <? 1 then removeFromCart productId
     else
       c <- gets cart ;;
       match findCartItem c productId with
       | None => throw (Error "Item not found in cart")
       | Some item =>
           match CartItem.stock item with
           | Some s =>
               if s <? quantity
               then throw (Error ("Only " +:+ show_Z s +:+ " items available in stock"))
               else ret tt
           | None => ret tt
           end ;;;
           modify (set_cart (assign_quantity productId quantity c)) ;;;
           saveCart ;;;
           syncWithBackend ;;;
           showNotification "Cart updated" "success" ;;;
           ret true
       end)
    (fun error =>
       m <- message_of error ;;
       showNotification m "error" ;;;
       ret false).

Definition new_item (product : Product.t) (quantity : Z) : CartItem.t :=
  CartItem.mk
    (or_str (Product.id product) (Product._id product))
    None
    (Product.name product)
    (Product.price product)
    (Product.salePrice product)
    (or_str (Product.image product) (head (Product.images product)))
    quantity
    (Product.stock product)
    (Product.sku product).

Definition addToCart (product : Product.t) (quantity : Z) : M bool :=
  try_catch
    ((if quantity <? 1
      then throw (Error "Quantity must be at least 1")
      else ret tt) ;;;
     match Product.stock product with
     | Some s =>
         if s <? quantity
         then throw (Error ("Only " +:+ show_Z s +:+ " items available in stock"))
         else ret tt
     | None => ret tt
     end ;;;
     c <- gets cart ;;
     match findCartItem c (or_str (Product.id product) (Product._id product)) with
     | Some existingItem =>
         let newQuantity := CartItem.quantity existingItem + quantity in
         match Product.stock product with
         | Some s =>
             if s <? newQuantity
             then throw (Error ("Cannot add more. Only " +:+ show_Z s
                                +:+ " items available in stock"))
             else ret tt
         | None => ret tt
         end ;;;
         updateQuantity
           (or_str (CartItem.productId existingItem) (CartItem.id existingItem))
           newQuantity
     | None =>
         modify (fun w => set_cart (cart w ++ [new_item product quantity]) w) ;;;
         saveCart ;;;
         syncWithBackend ;;;
         showNotification (Product.name product +:+ " added to cart") "success" ;;;
         ret true
     end)
    (fun error =>
       m <- message_of error ;;
       showNotification m "error" ;;;
       ret false).

Definition clearCart : M unit :=
  modify (set_cart []) ;;;
  saveCart ;;;
  syncWithBackend ;;;
  showNotification "Cart cleared" "success".

(** One turn of the [forEach] in [loadFromBackend]. *)
Definition merge_item (c : list CartItem.t) (backendItem : CartItem.t)
  : list CartItem.t :=
  match findCartItem c (CartItem.productId backendItem) with
  | Some localItem =>
      assign_quantity (CartItem.productId backendItem)
                      (CartItem.quantity backendItem) c
  | None => c ++ [backendItem]
  end.

Definition merge_backend (backendCart c : list CartItem.t)
  : list CartItem.t :=
  fold_left merge_item backendCart c.

Definition loadFromBackend : M unit :=
  try_catch
    (response <- APIService.get api ENDPOINTS.cart true ;;
     match Resp.success response, Resp.cart response with
     | true, Some payload =>
         let backendCart := default [] payload in
         modify (fun w => set_cart (merge_backend backendCart (cart w)) w) ;;;
         saveCart
     | _, _ => ret tt
     end)
    (fun error => console_error "Failed to load cart from backend:").

(** The messages [validateCart] pushes for one line. *)
Definition item_errors (item : CartItem.t) : list string :=
  (if CartItem.quantity item <? 1
   then ["Invalid quantity for " +:+ CartItem.name item]
   else []) ++
  match CartItem.stock item with
  | Some s =>
      if s <? CartItem.quantity item
      then [CartItem.name item +:+ " - Only " +:+ show_Z s +:+ " items available"]
      else []
  | None => []
  end.

Definition validateCart : M (bool * list string) :=
  c <- gets cart ;;
  match c with
  | [] => ret (false, ["Your cart is empty"])
  | _ =>
      let errors := flat_map item_errors c in
      ret (bool_decide (errors = []), errors)
  end.

End Instance.

(** [isInCart]: [!!this.findCartItem(productId)]. *)
Definition isInCart (productId : option string) : M bool :=
  c <- gets cart ;;
  ret (match findCartItem c productId with
       | Some _ => true
       | None => false
       end).

(** [a < b] on amounts. *)
Definition Qlt_bool (a b : Q) : bool :=
  (Qnum a * QDen b <? Qnum b * QDen a)%Z.

(** The object [calculateTotals] of the cart returns. *)
Module CartTotals.
Record t := mk {
  subtotal : Q;
  vat : Q;
  shipping : Q;
  total : Q;
  currency : string
}.
End CartTotals.

(** [APP_CONFIG.currencySymbol] *)
Definition currencySymbol : string := "R".

Definition calculateTotals (config : AppConfig) : M CartTotals.t :=
  c <- gets cart ;;
  let subtotal := getCartSubtotal c in
  let vat := (subtotal * VAT_RATE config)%Q in
  let shipping :=
    if Qlt_bool subtotal (FREE_THRESHOLD config)
    then STANDARD_COST config else 0%Q in
  let total := (subtotal + vat + shipping)%Q in
  ret (CartTotals.mk subtotal vat shipping total currencySymbol).

End CartService.

Arguments CartService.syncWithBackend : simpl never.
Arguments CartService.removeFromCart : simpl never.
Arguments CartService.updateQuantity : simpl never.
Arguments CartService.addToCart : simpl never.

(** ** Input sanitising and password rules (js/security.js)

    Strings are taken to hold ASCII characters. *)

Module Security.

(** [s.replace(/c/g, sub)] for a pattern of one character. *)
Fixpoint replace_char (c : ascii) (sub : string) (s : string) : string :=
  match s with
  | EmptyString => EmptyString
  | String a s' =>
      if Ascii.eqb a c then sub +:+ replace_char c sub s'
      else String a (replace_char c sub s')
  end.

(** The double quote, written by its code. *)
Definition dquote : ascii := "034"%char.

Definition sanitizeInput (input : string) : string :=
  replace_char "/"%char "&#x2F;"
    (replace_char "'"%char "&#x27;"
       (replace_char dquote "&quot;"
          (replace_char ">"%char "&gt;"
             (replace_char "<"%char "&lt;" input)))).

Definition PASSWORD_MIN_LENGTH : Z := 8.

Definition code (a : ascii) : Z := Z.of_nat (nat_of_ascii a).

(** A character range [[lo-hi]] of a regular expression. *)
Definition in_range (lo hi a : ascii) : bool :=
  (code lo <=? code a) && (code a <=? code hi).

(** [/[...]/.test(s)] for a character class: some character of [s] is in
    the class. *)
Definition test_class (class : ascii -> bool) (s : string) : bool :=
  existsb class (list_ascii_of_string s).

(** The characters of the class tested for a special character. *)
Definition special_chars : list ascii :=
  list_ascii_of_string "!@#$%^&*()_+-=[]{};':" ++ [dquote] ++
  list_ascii_of_string "\|,.<>/?".

Definition is_special (a : ascii) : bool := existsb (Ascii.eqb a) special_chars.

Definition getPasswordStrength (password : string) : string :=
  let length := Z.of_nat (String.length password) in
  let strength :=
    (if 8 <=? length then 1 else 0) +
    (if 12 <=? length then 1 else 0) +
    (if test_class (in_range "a" "z") password then 1 else 0) +
    (if test_class (in_range "A" "Z") password then 1 else 0) +
    (if test_class (in_range "0" "9") password then 1 else 0) +
    (if test_class is_special password then 1 else 0) in
  if strength <=? 2 then "weak"
  else if strength <=? 4 then "medium"
  else "strong".

(** Returns [isValid], [errors] and [strength]. *)
Definition validatePasswordStrength (password : string)
  : bool * list string * string :=
  let minLength := PASSWORD_MIN_LENGTH in
  let errors :=
    (if Z.of_nat (String.length password) <? minLength
     then ["Password must be at least " +:+ show_Z minLength
           +:+ " characters long"]
     else []) ++
    (if test_class (in_range "A" "Z") password then []
     else ["Password must contain at least one uppercase letter"]) ++
    (if test_class (in_range "a" "z") password then []
     else ["Password must contain at least one lowercase letter"]) ++
    (if test_class (in_range "0" "9") password then []
     else ["Password must contain at least one number"]) ++
    (if test_class is_special password then []
     else ["Password must contain at least one special character"]) in
  (bool_decide (errors = []), errors, getPasswordStrength password).

End Security.

(** ** Checkout (class CheckoutService, js/checkout.js) *)

Module CheckoutService.

(** The field validators of security.js, whose regular expressions are
    not part of this development: each returns [isValid] with its
    message(s). *)
Record Validators := mkValidators {
  validateName : string -> string -> bool * string;
  validateEmail : string -> bool * string;
  validatePhone : string -> bool * string;
  validateAddress : string -> string -> string -> string -> bool * list string
}.

Definition getDefaultCheckoutData : CheckoutData :=
  mkCheckoutData 1
    (mkShippingInfo "" "" "" "" "" "" "" "South Africa")
    "standard" "" "" "" 0%Q false.

Definition clearCheckoutData : M unit :=
  modify (set_checkoutData getDefaultCheckoutData) ;;;
  modify (set_storedCheckout None).

Section Instance.
Context (api : APIService.t) (V : Validators) (config : AppConfig).

Definition validateShippingInfo (info : ShippingInfo) : bool * list string :=
  let nameValidation := validateName V (fullName info) "Full name" in
  let emailValidation := validateEmail V (email info) in
  let phoneValidation := validatePhone V (phone info) in
  let addressValidation :=
    validateAddress V (street info) (city info) (province info) (postalCode info) in
  let errors :=
    (if fst nameValidation then [] else [snd nameValidation]) ++
    (if fst emailValidation then [] else [snd emailValidation]) ++
    (if fst phoneValidation then [] else [snd phoneValidation]) ++
    (if fst addressValidation then [] else snd addressValidation) in
  (bool_decide (errors = []), errors).

Definition calculateShipping (method : string) : M Q :=
  c <- gets cart ;;
  let cartSubtotal := CartService.getCartSubtotal c in
  if Qle_bool (FREE_THRESHOLD config) cartSubtotal then ret 0%Q
  else if String.eqb method "standard" then ret (STANDARD_COST config)
  else if String.eqb method "express" then ret (EXPRESS_COST config)
  else if String.eqb method "pickup" then ret 0%Q
  else ret (STANDARD_COST config).

Definition calculateTotals : M Totals :=
  c <- gets cart ;;
  cd <- gets checkoutData ;;
  let cartSubtotal := CartService.getCartSubtotal c in
  let discount := discount cd in
  let subtotalAfterDiscount := (cartSubtotal - discount)%Q in
  let vat := (subtotalAfterDiscount * VAT_RATE config)%Q in
  shipping <- calculateShipping (shippingMethod cd) ;;
  let total := (subtotalAfterDiscount + vat + shipping)%Q in
  ret (mkTotals cartSubtotal discount subtotalAfterDiscount vat shipping total).

Definition validateCheckout : M (bool * list string) :=
  cartValidation <- CartService.validateCart ;;
  cd <- gets checkoutData ;;
  let shippingValidation := validateShippingInfo (shippingInfo cd) in
  let errors :=
    (if fst cartValidation then [] else snd cartValidation) ++
    (if fst shippingValidation then [] else snd shippingValidation) ++
    (if String.eqb (shippingMethod cd) ""
     then ["Please select a shipping method"] else []) ++
    (if String.eqb (paymentMethod cd) ""
     then ["Please select a payment method"] else []) ++
    (if agreeToTerms cd
     then [] else ["Please agree to the terms and conditions"]) in
  ret (bool_decide (errors = []), errors).

Definition createOrder : M Order.t :=
  try_catch
    (validation <- validateCheckout ;;
     (if fst validation then ret tt
      else throw (Error (join ". " (snd validation)))) ;;;
     totals <- calculateTotals ;;
     c <- CartService.getCart ;;
     cd <- gets checkoutData ;;
     now <- gets clock ;;
     let orderData :=
       OrderData.mk c (shippingInfo cd) (shippingMethod cd)
         (paymentMethod cd) (orderNotes cd) (couponCode cd)
         (discount cd) totals now in
     response <- APIService.post api ENDPOINTS.orders (OrderBody orderData) true ;;
     match Resp.success response, Resp.order response with
     | true, Some order =>
         CartService.clearCart api ;;;
         clearCheckoutData ;;;
         showNotification "Order placed successfully!" "success" ;;;
         ret order
     | _, _ =>
         throw (Error (or_default (Resp.message response)
                         "Failed to create order"))
     end)
    (fun error =>
       m <- message_of error ;;
       showNotification m "error" ;;;
       throw error).

End Instance.

(** Assignments to the members of [this.checkoutData]. *)

Definition with_step (x : Z) (cd : CheckoutData) : CheckoutData :=
  mkCheckoutData x (shippingInfo cd) (shippingMethod cd) (paymentMethod cd)
    (orderNotes cd) (couponCode cd) (discount cd) (agreeToTerms cd).

Definition with_shippingInfo (x : ShippingInfo) (cd : CheckoutData)
  : CheckoutData :=
  mkCheckoutData (step cd) x (shippingMethod cd) (paymentMethod cd)
    (orderNotes cd) (couponCode cd) (discount cd) (agreeToTerms cd).

Definition with_shippingMethod (x : string) (cd : CheckoutData)
  : CheckoutData :=
  mkCheckoutData (step cd) (shippingInfo cd) x (paymentMethod cd)
    (orderNotes cd) (couponCode cd) (discount cd) (agreeToTerms cd).

Definition with_paymentMethod (x : string) (cd : CheckoutData)
  : CheckoutData :=
  mkCheckoutData (step cd) (shippingInfo cd) (shippingMethod cd) x
    (orderNotes cd) (couponCode cd) (discount cd) (agreeToTerms cd).

Definition with_orderNotes (x : string) (cd : CheckoutData) : CheckoutData :=
  mkCheckoutData (step cd) (shippingInfo cd) (shippingMethod cd)
    (paymentMethod cd) x (couponCode cd) (discount cd) (agreeToTerms cd).

Definition with_coupon (code : string) (amount : Q) (cd : CheckoutData)
  : CheckoutData :=
  mkCheckoutData (step cd) (shippingInfo cd) (shippingMethod cd)
    (paymentMethod cd) (orderNotes cd) code amount (agreeToTerms cd).

Definition with_agreeToTerms (x : bool) (cd : CheckoutData) : CheckoutData :=
  mkCheckoutData (step cd) (shippingInfo cd) (shippingMethod cd)
    (paymentMethod cd) (orderNotes cd) (couponCode cd) (discount cd) x.

Definition saveCheckoutData : M unit :=
  modify (fun w => set_storedCheckout (Some (checkoutData w)) w).

Definition setCurrentStep (step : Z) : M unit :=
  modify (fun w => set_checkoutData (with_step step (checkoutData w)) w) ;;;
  saveCheckoutData.

Definition saveShippingInfo (V : Validators) (info : ShippingInfo) : M bool :=
  let validation := validateShippingInfo V info in
  (if fst validation then ret tt
   else throw (Error (join ". " (snd validation)))) ;;;
  modify (fun w => set_checkoutData (with_shippingInfo info (checkoutData w)) w) ;;;
  saveCheckoutData ;;;
  ret true.

(** [validMethods.includes(method)] *)
Definition shipping_methods : list string := ["standard"; "express"; "pickup"].

Definition saveShippingMethod (method : string) : M bool :=
  (if existsb (String.eqb method) shipping_methods then ret tt
   else throw (Error "Invalid shipping method")) ;;;
  modify (fun w => set_checkoutData (with_shippingMethod method (checkoutData w)) w) ;;;
  saveCheckoutData ;;;
  ret true.

Definition payment_methods : list string :=
  ["payfast"; "credit-card"; "eft"; "bank-transfer"].

Definition savePaymentMethod (method : string) : M bool :=
  (if existsb (String.eqb method) payment_methods then ret tt
   else throw (Error "Invalid payment method")) ;;;
  modify (fun w => set_checkoutData (with_paymentMethod method (checkoutData w)) w) ;;;
  saveCheckoutData ;;;
  ret true.

Definition removeCoupon : M unit :=
  modify (fun w => set_checkoutData (with_coupon "" 0%Q (checkoutData w)) w) ;;;
  saveCheckoutData ;;;
  showNotification "Coupon removed" "info".

Definition saveOrderNotes (notes : string) : M unit :=
  modify (fun w =>
    set_checkoutData
      (with_orderNotes (Security.sanitizeInput notes) (checkoutData w)) w) ;;;
  saveCheckoutData.

Definition setTermsAgreement (agree : bool) : M unit :=
  modify (fun w => set_checkoutData (with_agreeToTerms agree (checkoutData w)) w) ;;;
  saveCheckoutData.

End CheckoutService.

(** ** Page scripts *)

(** [showError] and [showSuccess] are notification helpers of the pages. *)
Definition showError (message : string) : M unit := emit (Notify message "error").
Definition showSuccess (message : string) : M unit := emit (Notify message "success").

(** [String.prototype.trim], on ASCII white space. *)
Fixpoint trim_start (s : string) : string :=
  match s with
  | String a s' => if Ascii.is_space a then trim_start s' else s
  | EmptyString => EmptyString
  end.

Definition trim (s : string) : string :=
  String.rev (trim_start (String.rev (trim_start s))).

(** ** Form validation (the validation utilities of js/security.js) *)

Module Validation.

Definition is_digit (a : ascii) : bool := Security.in_range "0" "9" a.

Fixpoint all_chars (class : ascii -> bool) (s : string) : bool :=
  match s with
  | EmptyString => true
  | String a s' => class a && all_chars class s'
  end.

Definition length (s : string) : Z := Z.of_nat (String.length s).

(** [s.replace(/[\s-]/g, '')] *)
Fixpoint strip (s : string) : string :=
  match s with
  | EmptyString => EmptyString
  | String a s' =>
      if Ascii.is_space a || Ascii.eqb a "-" then strip s'
      else String a (strip s')
  end.

(** [/^\d{4}$/] *)
Definition postalCode_pattern (s : string) : bool :=
  (length s =? 4) && all_chars is_digit s.

(** [/^(\+27|0)[6-8][0-9]{8}$/]: the part after the prefix. *)
Definition mobile_tail (s : string) : bool :=
  match s with
  | String a rest =>
      Security.in_range "6" "8" a && (length rest =? 8) && all_chars is_digit rest
  | EmptyString => false
  end.

Definition phone_pattern (s : string) : bool :=
  match s with
  | String "+" (String "2" (String "7" rest)) => mobile_tail rest
  | String "0" rest => mobile_tail rest
  | _ => false
  end.

(** The class [[a-zA-Z\s'-]]. *)
Definition name_char (a : ascii) : bool :=
  Security.in_range "a" "z" a || Security.in_range "A" "Z" a ||
  Ascii.is_space a || Ascii.eqb a "'" || Ascii.eqb a "-".

(** [/^[a-zA-Z\s'-]{2,50}$/] *)
Definition name_pattern (s : string) : bool :=
  (2 <=? length s) && (length s <=? 50) && all_chars name_char s.

(** The class [[^\s@]]. *)
Definition email_char (a : ascii) : bool :=
  negb (Ascii.is_space a || Ascii.eqb a "@").

(** [[^\s@]+\.[^\s@]+] up to the end of the string: characters of the class
    throughout, and a dot that is neither the first nor the last of them. *)
Fixpoint inner_dot (s : string) : bool :=
  match s with
  | String "." (String _ _) => true
  | String _ s' => inner_dot s'
  | EmptyString => false
  end.

Definition domain_pattern (s : string) : bool :=
  all_chars email_char s &&
  match s with
  | String _ s' => inner_dot s'
  | EmptyString => false
  end.

(** [/^[^\s@]+@[^\s@]+\.[^\s@]+$/]: the local part runs up to the first
    [@]. *)
Fixpoint email_from (seen : bool) (s : string) : bool :=
  match s with
  | EmptyString => false
  | String a s' =>
      if Ascii.eqb a "@" then seen && domain_pattern s'
      else email_char a && email_from true s'
  end.

Definition email_pattern (s : string) : bool := email_from false s.

Definition validateEmail (email : string) : bool * string :=
  if String.eqb email "" then (false, "Email is required")
  else
    let trimmedEmail := trim email in
    if length trimmedEmail =? 0 then (false, "Email is required")
    else if 254 <? length trimmedEmail then (false, "Email is too long")
    else if negb (email_pattern trimmedEmail)
    then (false, "Please enter a valid email address")
    else (true, "").

Definition validatePhone (phone : string) : bool * string :=
  if String.eqb phone "" then (false, "Phone number is required")
  else
    let cleanPhone := strip phone in
    if negb (phone_pattern cleanPhone)
    then (false, "Please enter a valid South African phone number (e.g., 071 555 1234)")
    else (true, "").

Definition validateName (name fieldName : string) : bool * string :=
  if String.eqb name "" then (false, fieldName +:+ " is required")
  else
    let trimmedName := trim name in
    if length trimmedName <? 2
    then (false, fieldName +:+ " must be at least 2 characters")
    else if 50 <? length trimmedName
    then (false, fieldName +:+ " must be less than 50 characters")
    else if negb (name_pattern trimmedName)
    then (false, "Name must be 2-50 characters and contain only letters, spaces, hyphens, and apostrophes")
    else (true, "").

Definition validatePostalCode (code : string) : bool * string :=
  if String.eqb code "" then (false, "Postal code is required")
  else
    let cleanCode := trim code in
    if negb (postalCode_pattern cleanCode)
    then (false, "Please enter a valid 4-digit postal code")
    else (true, "").

Definition validateAddress (street city province postalCode : string)
  : bool * list string :=
  let postalCodeValidation := validatePostalCode postalCode in
  let errors :=
    (if String.eqb street "" || (length (trim street) <? 5)
     then ["Street address must be at least 5 characters"] else []) ++
    (if String.eqb city "" || (length (trim city) <? 2)
     then ["City is required"] else []) ++
    (if String.eqb province "" || (length (trim province) <? 2)
     then ["Province is required"] else []) ++
    (if fst postalCodeValidation then [] else [snd postalCodeValidation]) in
  (bool_decide (errors = []), errors).

(** The validators [CheckoutService.validateShippingInfo] calls. *)
Definition validators : CheckoutService.Validators :=
  CheckoutService.mkValidators validateName validateEmail validatePhone
    validateAddress.

(** [parseInt] of a decimal digit. *)
Definition digit_value (a : ascii) : Z := Security.code a - 48.

(** The Luhn loop of [validateCreditCard], over the digits from the last
    to the first. *)
Fixpoint luhn_loop (digits : list ascii) (isEven : bool) (sum : Z) : Z :=
  match digits with
  | [] => sum
  | a :: rest =>
      let digit := digit_value a in
      let digit :=
        if isEven
        then (let doubled := digit * 2 in
              if 9 <? doubled then doubled - 9 else doubled)
        else digit in
      luhn_loop rest (negb isEven) (sum + digit)
  end.

Definition validateCreditCard (cardNumber : string) : bool * string :=
  if String.eqb cardNumber "" then (false, "Card number is required")
  else
    let cleanNumber := strip cardNumber in
    if negb (negb (String.eqb cleanNumber "") && all_chars is_digit cleanNumber)
    then (false, "Card number must contain only digits")
    else if (length cleanNumber <? 13) || (19 <? length cleanNumber)
    then (false, "Invalid card number length")
    else
      let sum := luhn_loop (rev (list_ascii_of_string cleanNumber)) false 0 in
      let isValid := sum mod 10 =? 0 in
      (isValid, if isValid then "" else "Invalid card number").

End Validation.

(** [redirectToPayFast] (checkout page). *)
Definition redirectToPayFast (paymentData : JS.Obj) : M unit :=
  let action :=
    if truthy_prop paymentData "sandbox"
    then "https://sandbox.payfast.co.za/eng/process"
    else "https://www.payfast.co.za/eng/process" in
  let inputs :=
    flat_map
      (fun key =>
         if negb (String.eqb key "sandbox")
         then [Html.mkInput "hidden" key (prop_string paymentData key)]
         else [])
      (keys paymentData) in
  emit (FormSubmit (Html.mkForm "POST" action inputs)).

(** Running a queued [setTimeout] callback. *)
Definition fire (cb : Callback) : M unit :=
  match cb with
  | RedirectToPayFast paymentData => redirectToPayFast paymentData
  | ShowOrderDetails None =>
      throw (Error "Cannot read properties of undefined (reading 'id')")
  | ShowOrderDetails (Some (id, _id)) =>
      emit (Navigate ("/order-details.html?id=" +:+ show_opt (or_str id _id)))
  | Redirect url => emit (Navigate url)
  end.

(** The event loop runs the queued callbacks; an exception escaping one is
    reported and does not stop the others. *)
Fixpoint fire_all (cbs : list (Callback * Z)) : M unit :=
  match cbs with
  | [] => ret tt
  | (cb, _) :: rest =>
      try_catch (fire cb) (fun error => console_error "Uncaught") ;;;
      fire_all rest
  end.

Definition run_timers : M unit :=
  cbs <- gets timers ;;
  modify (set_timers []) ;;;
  fire_all cbs.

Module LoginPage.
Section Page.
Context (api : APIService.t) (emailRegex_test : string -> bool).

(** [handleLogin] of js/login.js: the two inputs ([None] when the
    element is missing) and the [redirect] URL parameter. *)
Definition handleLogin (emailInput passwordInput redirect : option string)
  : M unit :=
  match emailInput, passwordInput with
  | Some emailValue, Some password =>
      let email := trim emailValue in
      if String.eqb email "" then showError "Please enter your email"
      else if String.eqb password "" then showError "Please enter your password"
      else
        finally
          (try_catch
             (emit (Loading true) ;;;
              response <- APIService.login api email password ;;
              if Resp.success response
                 || bool_decide (is_Some (Resp.data response))
                 || truthy_str (Resp.token response)
              then
                APIService.mergeCart api ;;;
                showSuccess "Login successful! Redirecting..." ;;;
                setTimeout (Redirect (or_default redirect "/index.html")) 1000
              else
                throw (Error (or_default (Resp.message response) "Login failed")))
             (fun error =>
                console_error "Login error:" ;;;
                m <- message_of error ;;
                showError (or_default (Some m)
                             "Login failed. Please check your credentials.")))
          (emit (Loading false))
  | _, _ => showError "Form elements not found"
  end.

(** [handleRegister]: name, email, password and the optional
    confirmation field. *)
Definition handleRegister
           (nameInput emailInput passwordInput confirmPasswordInput : option string)
  : M unit :=
  match nameInput, emailInput, passwordInput with
  | Some nameValue, Some emailValue, Some password =>
      let name := trim nameValue in
      let email := trim emailValue in
      if String.eqb name "" then showError "Please enter your name"
      else if (String.length name <? 2)%nat
      then showError "Name must be at least 2 characters"
      else if String.eqb email "" then showError "Please enter your email"
      else if negb (emailRegex_test email)
      then showError "Please enter a valid email address"
      else if String.eqb password "" then showError "Please enter a password"
      else if (String.length password <? 8)%nat
      then showError "Password must be at least 8 characters"
      else if match confirmPasswordInput with
              | Some confirmPassword => negb (String.eqb password confirmPassword)
              | None => false
              end
      then showError "Passwords do not match"
      else
        finally
          (try_catch
             (emit (Loading true) ;;;
              response <- APIService.register api name email password ;;
              if Resp.success response
                 || bool_decide (is_Some (Resp.data response))
                 || truthy_str (Resp.token response)
              then
                APIService.mergeCart api ;;;
                showSuccess "Account created successfully! Redirecting..." ;;;
                setTimeout (Redirect "/index.html") 1000
              else
                throw (Error (or_default (Resp.message response)
                                "Registration failed")))
             (fun error =>
                console_error "Registration error:" ;;;
                m <- message_of error ;;
                showError (or_default (Some m)
                             "Registration failed. Please try again.")))
          (emit (Loading false))
  | _, _, _ => showError "Form elements not found"
  end.

End Page.
End LoginPage.

Module CheckoutPage.
Section Page.
Context (api : APIService.t) (emailRegex_test : string -> bool).

(** [response.order || response.data?.order || response.data], kept as
    the pair of its [id] and [_id]. *)
Definition response_order (response : Resp.t)
  : option (option string * option string) :=
  match Resp.order response with
  | Some o => Some (Order.id o, Order._id o)
  | None =>
      match Resp.data response with
      | Some d =>
          match Data.order d with
          | Some o => Some (Order.id o, Order._id o)
          | None => Some (Data.id d, Data._id d)
          end
      | None => None
      end
  end.

(** [response.paymentData || response.data?.paymentData] *)
Definition response_paymentData (response : Resp.t) : option JS.Obj :=
  match Resp.paymentData response with
  | Some pd => Some pd
  | None =>
      match Resp.data response with
      | Some d => Data.paymentData d
      | None => None
      end
  end.

(** [handleCheckoutSubmit]: the form data as read from the page,
    whether a user is signed in, and the terms checkbox ([None] when
    the page has none). *)
Definition handleCheckoutSubmit (formData : FormData.t) (currentUser : bool)
           (termsCheckbox : option bool) : M unit :=
  if negb (truthy_str (FormData.name formData))
  then showError "Please enter your full name"
  else if negb (truthy_str (FormData.phone formData))
  then showError "Please enter your phone number"
  else if negb (truthy_str (FormData.line1 formData))
  then showError "Please enter your street address"
  else if negb (truthy_str (FormData.city formData))
  then showError "Please enter your city"
  else if negb (truthy_str (FormData.province formData))
  then showError "Please select your province"
  else if negb (truthy_str (FormData.postalCode formData))
  then showError "Please enter your postal code"
  else if negb currentUser && negb (truthy_str (FormData.guestEmail formData))
  then showError "Please enter your email address"
  else if negb currentUser && truthy_str (FormData.guestEmail formData)
          && negb (emailRegex_test (show_opt (FormData.guestEmail formData)))
  then showError "Please enter a valid email address"
  else if match termsCheckbox with
          | Some checked => negb checked
          | None => false
          end
  then showError "Please agree to the terms and conditions"
  else
    finally
      (try_catch
         (emit (Loading true) ;;;
          response <- APIService.createOrder api (CheckoutBody formData) ;;
          if Resp.success response || bool_decide (is_Some (Resp.data response))
          then
            match response_paymentData response with
            | Some paymentData =>
                showSuccess "Order created! Redirecting to payment..." ;;;
                setTimeout (RedirectToPayFast paymentData) 1000
            | None =>
                showSuccess "Order created successfully!" ;;;
                setTimeout (ShowOrderDetails (response_order response)) 1500
            end
          else
            throw (Error (or_default (Resp.message response)
                            "Failed to create order")))
         (fun error =>
            console_error "Error creating order:" ;;;
            m <- message_of error ;;
            showError (or_default (Some m)
                         "Failed to create order. Please try again.")))
      (emit (Loading false)).

End Page.
End CheckoutPage.

(** * Vocabulary of the statements

    Nothing below is part of the program: these are the notions the
    lemmas and theorems are stated with. *)

(** The world with one more notification shown. *)
Definition notified (message kind : string) (w : World) : World :=
  set_trace (trace w ++ [Notify message kind]) w.

(** [keeps f m]: running [m] leaves the component [f] of the world as it
    was, whatever [m] returns or throws. *)
Definition keeps {A B} (f : World -> B) (m : M A) : Prop :=
  forall w, f (snd (m w)) = f w.

(** [safe m]: [m] never throws. *)
Definition safe {A} (m : M A) : Prop :=
  forall w, exists a, fst (m w) = Ok a.

Module RequestSpec.
Import APIService.

(** The world after a request has been sent and its answer taken. *)
Definition sent (req : Req.t) (rest : list FetchResult) (w : World) : World :=
  set_network rest (set_trace (trace w ++ [Fetch req]) w).

(** The [Authorization] header [getHeaders] computes in a world. *)
Definition header (includeAuth : bool) (w : World) : option string :=
  if includeAuth && truthy_str (token w)
  then Some ("Bearer " +:+ show_opt (token w))
  else None.

(** One attempt: the request function [get] and [post] hand to
    [retryRequest]. *)
Definition attempt (method url : string) (data : Body) (includeAuth : bool)
  : M Resp.t :=
  h <- getHeaders includeAuth ;;
  response <- fetchWithTimeout (Req.mk method url h data) ;;
  handleResponse (Some response).

(** [answers P net]: every JSON body the network will deliver satisfies
    [P]. *)
Definition answers (P : Resp.t -> Prop) (net : list FetchResult) : Prop :=
  Forall (fun r => match r with
                   | Responded resp =>
                       match json resp with
                       | Some d => P d
                       | None => True
                       end
                   | _ => True
                   end) net.

(** [delivers P Q m]: [m] keeps the world in [Q], and what it returns
    satisfies [P]. *)
Definition delivers {A} (P : A -> Prop) (Q : World -> Prop) (m : M A) : Prop :=
  forall w, Q w ->
    Q (snd (m w)) /\
    match fst (m w) with
    | Ok a => P a
    | Throw _ => True
    end.

End RequestSpec.

Module CartSpec.
Import CartService.

(** A quantity above a known stock count. *)
Definition exceeds (stock : option Z) (q : Z) : bool :=
  match stock with
  | Some s => s <? q
  | None => false
  end.

(** The cart-level effect of the three mutations: for a cart, the flag the
    method returns and the cart it leaves.  [removeFromCart_run],
    [updateQuantity_run] and [addToCart_run] prove that the methods compute
    exactly these, whatever the network does. *)
Definition removed (productId : option string) (c : list CartItem.t)
  : bool * list CartItem.t :=
  match findIndex c productId with
  | Some index => (true, delete index c)
  | None => (false, c)
  end.

Definition updated (productId : option string) (q : Z) (c : list CartItem.t)
  : bool * list CartItem.t :=
  if q <? 1 then removed productId c
  else match findCartItem c productId with
       | None => (false, c)
       | Some item =>
           if exceeds (CartItem.stock item) q then (false, c)
           else (true, assign_quantity productId q c)
       end.

Definition added (product : Product.t) (q : Z) (c : list CartItem.t)
  : bool * list CartItem.t :=
  if q <? 1 then (false, c)
  else if exceeds (Product.stock product) q then (false, c)
  else match findCartItem c (or_str (Product.id product) (Product._id product)) with
       | Some existingItem =>
           if exceeds (Product.stock product) (CartItem.quantity existingItem + q)
           then (false, c)
           else updated (or_str (CartItem.productId existingItem)
                                (CartItem.id existingItem))
                        (CartItem.quantity existingItem + q) c
       | None => (true, c ++ [new_item product q])
       end.

(** A line is well keyed when it is identified by its [productId] (an [id],
    if it has one, repeats it); a cart is well formed when its lines are
    well keyed and no two lines share a key; it is positive when every
    quantity is at least 1. *)
Definition well_keyed (item : CartItem.t) : bool :=
  match CartItem.productId item, CartItem.id item with
  | Some k, None => true
  | Some k, Some k' => String.eqb k k'
  | None, _ => false
  end.

Definition wf_cart (c : list CartItem.t) : Prop :=
  Forall (fun item => well_keyed item = true) c /\
  NoDup (CartItem.productId <$> c).

Definition positive (c : list CartItem.t) : Prop :=
  Forall (fun item => 1 <= CartItem.quantity item) c.

(** The lines of a cart that answer to a product id, and the quantity and
    cached stock of the line [findCartItem] returns. *)
Definition lines (c : list CartItem.t) (productId : option string)
  : list CartItem.t :=
  List.filter (matches productId) c.

Definition line_quantity (c : list CartItem.t) (productId : option string) : Z :=
  match findCartItem c productId with
  | Some item => CartItem.quantity item
  | None => 0
  end.

Definition line_stock (c : list CartItem.t) (productId : option string)
  : option Z :=
  match findCartItem c productId with
  | Some item => CartItem.stock item
  | None => None
  end.

(** The items of the backend cart that a line answers to: those whose
    [productId] it [matches]. *)
Definition answered (backendCart : list CartItem.t) (item : CartItem.t)
  : list CartItem.t :=
  List.filter (fun backendItem => matches (CartItem.productId backendItem) item)
              backendCart.

(** No line of the local cart or of the backend cart answers to two items
    of the backend cart. *)
Definition separate (backendCart c : list CartItem.t) : bool :=
  forallb (fun item => (length (answered backendCart item) <=? 1)%nat)
          (c ++ backendCart).


(** A backend cart whose quantities are all at least 1. *)
Definition backend_positive (d : Resp.t) : Prop :=
  match Resp.cart d with
  | Some (Some backendCart) => positive backendCart
  | _ => True
  end.

End CartSpec.

Module CheckoutSpec.
Import CartService CheckoutService.

(** The messages [validateCheckout] collects in a world. *)
Definition checkout_errors (V : Validators) (w : World) : list string :=
  let cartValidation :=
    match cart w with
    | [] => (false, ["Your cart is empty"])
    | _ => (bool_decide (flat_map item_errors (cart w) = []),
            flat_map item_errors (cart w))
    end in
  let shippingValidation := validateShippingInfo V (shippingInfo (checkoutData w)) in
  (if fst cartValidation then [] else snd cartValidation) ++
  (if fst shippingValidation then [] else snd shippingValidation) ++
  (if String.eqb (shippingMethod (checkoutData w)) ""
   then ["Please select a shipping method"] else []) ++
  (if String.eqb (paymentMethod (checkoutData w)) ""
   then ["Please select a payment method"] else []) ++
  (if agreeToTerms (checkoutData w)
   then [] else ["Please agree to the terms and conditions"]).

End CheckoutSpec.

Module PaymentSpec.
Import CheckoutPage.

Definition sandbox_url : string := "https://sandbox.payfast.co.za/eng/process".

Definition live_url : string := "https://www.payfast.co.za/eng/process".

(** The hidden inputs [redirectToPayFast] appends for a payment object. *)
Definition payfast_inputs (paymentData : JS.Obj) : list Html.input :=
  flat_map
    (fun key =>
       if negb (String.eqb key "sandbox")
       then [Html.mkInput "hidden" key (prop_string paymentData key)]
       else [])
    (keys paymentData).

(** The forms submitted and the pages navigated to, in order. *)
Definition handoffs (evs : list Event) : list Event :=
  List.filter (fun e => match e with
                        | FormSubmit _ | Navigate _ => true
                        | _ => false
                        end) evs.

(** The form passes the checks that come before the request. *)
Definition submittable (emailRegex_test : string -> bool)
           (formData : FormData.t) (currentUser : bool)
           (termsCheckbox : option bool) : bool :=
  truthy_str (FormData.name formData) &&
  truthy_str (FormData.phone formData) &&
  truthy_str (FormData.line1 formData) &&
  truthy_str (FormData.city formData) &&
  truthy_str (FormData.province formData) &&
  truthy_str (FormData.postalCode formData) &&
  (currentUser ||
   (truthy_str (FormData.guestEmail formData) &&
    emailRegex_test (show_opt (FormData.guestEmail formData)))) &&
  match termsCheckbox with
  | Some checked => checked
  | None => true
  end.

(** Submitting the form, then letting the queued callbacks run. *)
Definition submit_and_settle (api : APIService.t)
           (emailRegex_test : string -> bool)
           (formData : FormData.t) (currentUser : bool)
           (termsCheckbox : option bool) : M unit :=
  handleCheckoutSubmit api emailRegex_test formData currentUser termsCheckbox ;;;
  run_timers.

End PaymentSpec.

Module MergeSpec.

(** The registration form passes the checks of [handleRegister]. *)
Definition registrable (emailRegex_test : string -> bool)
           (name email password : string) (confirmPassword : option string)
  : bool :=
  negb (String.eqb (trim name) "") &&
  negb (String.length (trim name) <? 2)%nat &&
  negb (String.eqb (trim email) "") &&
  emailRegex_test (trim email) &&
  negb (String.eqb password "") &&
  negb (String.length password <? 8)%nat &&
  match confirmPassword with
  | Some confirm => String.eqb password confirm
  | None => true
  end.

End MergeSpec.

(** ** Concrete worlds used by the examples *)

Module Examples.

Definition world (cart0 : list CartItem.t) (net : list FetchResult) : World :=
  mkWorld ∅ None None None cart0 false
          CheckoutService.getDefaultCheckoutData net 0 "k3x9q2m1z" [] [].

(** The same world for a signed-in visitor. *)
Definition signed_in (cart0 : list CartItem.t) (net : list FetchResult) : World :=
  set_token (Some "tok")
    (set_localStorage {[ "authToken" := "tok" ]} (world cart0 net)).

Definition body (success : bool) (message : option string) : Resp.t :=
  Resp.mk success message None None None None None.

Definition answer (status : Z) (data : Resp.t) : FetchResult :=
  Responded (mkResponse status (Some data)).

Definition line (productId : string) (quantity : Z) (stock : option Z)
  : CartItem.t :=
  CartItem.mk (Some productId) None productId (100 # 1) None None
              quantity stock None.

Definition product (id : string) (stock : option Z) : Product.t :=
  Product.mk (Some id) None id (100 # 1) None None [] stock None.

(** A line with a price, and a checkout with a discount. *)
Definition priced (productId : string) (price : Q) (quantity : Z) : CartItem.t :=
  CartItem.mk (Some productId) None productId price None None quantity None None.

Definition checkout (discount : Q) : CheckoutData :=
  mkCheckoutData 3
    (mkShippingInfo "Thandi Nkosi" "thandi@example.com" "0821234567"
       "12 Vilakazi Street" "Soweto" "Gauteng" "1804" "South Africa")
    "standard" "payfast" "" "" discount true.

(** Validators that accept every field. *)
Definition lenient : CheckoutService.Validators :=
  CheckoutService.mkValidators
    (fun _ _ => (true, "")) (fun _ => (true, "")) (fun _ => (true, ""))
    (fun _ _ _ _ => (true, [])).

(** The guest of session ["S1"], and the backend's answers to the sign-in,
    to the merge and to the cart request (2 units of ["V"]). *)
Definition guest (net : list FetchResult) : World :=
  set_localStorage {[ "sessionId" := "S1" ]} (world [] net).

Definition cart_of_V : Resp.t :=
  Resp.mk true None None None (Some (Some [line "V" 2 None])) None None.

Definition merged_answers : list FetchResult :=
  [answer 200 (Resp.mk true None (Some "tok") None None None None);
   answer 200 (body true None);
   answer 200 cart_of_V].

(** Two payment objects, one for the sandbox gateway (with a number, a
    boolean and a [null] among its values) and one for the live gateway. *)
Definition payfast_sandbox : JS.Obj :=
  [("merchant_id", VStr "10000100"); ("amount", VNum 1185);
   ("sandbox", VBool true); ("item_name", VStr "Order 1042");
   ("email_confirmation", VBool false); ("custom_str1", VNull)].

Definition payfast_live : JS.Obj :=
  [("sandbox", VBool false); ("merchant_id", VStr "10000100");
   ("amount", VStr "1185.00")].

(** A filled checkout form. *)
Definition checkout_form : FormData.t :=
  FormData.mk (Some "Thandi Nkosi") (Some "0821234567")
    (Some "12 Vilakazi Street") (Some "") (Some "Soweto") (Some "Gauteng")
    (Some "1804") None (Some "").

(** The backend's answer to an order, the signed-in visitor about to
    receive it, and what the page does once the form is submitted and the
    timers have run. *)
Definition order_answer (success : bool) (order : option Order.t)
           (paymentData : option JS.Obj) : Resp.t :=
  Resp.mk success None None None None order paymentData.

Definition ordering (d : Resp.t) : World := signed_in [] [answer 200 d].

Definition settle (d : Resp.t) : list Event :=
  trace (snd (PaymentSpec.submit_and_settle APIService.api (fun _ => true)
                checkout_form true (Some true) (ordering d))).

End Examples.

(** ** What a trace holds *)

Module TraceSpec.

Definition is_fetch (e : Event) : bool :=
  match e with
  | Fetch _ => true
  | _ => false
  end.

(** The number of requests put on the network. *)
Definition fetches (evs : list Event) : nat := List.length (List.filter is_fetch evs).

(** The waits between attempts, in order. *)
Definition sleeps (evs : list Event) : list Z :=
  flat_map (fun e => match e with Sleep ms => [ms] | _ => [] end) evs.

(** The notifications shown to the user, in order. *)
Definition notifications (evs : list Event) : list (string * string) :=
  flat_map (fun e => match e with Notify m k => [(m, k)] | _ => [] end) evs.

Definition total (l : list Z) : Z := fold_right Z.add 0 l.

(** The events of [k] attempts that all fail with an error worth retrying,
    from index [i] on. *)
Fixpoint backoff (req : Req.t) (delay attempts i : Z) (k : nat) : list Event :=
  match k with
  | O => []
  | S k' =>
      Fetch req ::
      (if i <? attempts - 1 then [Sleep (delay * 2 ^ i)] else []) ++
      backoff req delay attempts (i + 1) k'
  end.

End TraceSpec.

(** ** The three mutations of the cart, taken together *)

Module CartRun.

Inductive Mutation :=
| Add (product : Product.t) (quantity : Z)
| Update (productId : option string) (quantity : Z)
| Remove (productId : option string).

(** The call of the service a mutation stands for. *)
Definition perform (api : APIService.t) (m : Mutation) : M bool :=
  match m with
  | Add product quantity => CartService.addToCart api product quantity
  | Update productId quantity => CartService.updateQuantity api productId quantity
  | Remove productId => CartService.removeFromCart api productId
  end.

(** What it does to the cart, and whether it goes through. *)
Definition effect (m : Mutation) (c : list CartItem.t)
  : bool * list CartItem.t :=
  match m with
  | Add product quantity => CartSpec.added product quantity c
  | Update productId quantity => CartSpec.updated productId quantity c
  | Remove productId => CartSpec.removed productId c
  end.

(** The world once the cart [c] is assigned and saved. *)
Definition saved (c : list CartItem.t) (w : World) : World :=
  set_storedCart (Some c) (set_cart c w).

(** The world [syncWithBackend] leaves. *)
Definition synced (api : APIService.t) (w : World) : World :=
  snd (CartService.syncWithBackend api w).

(** What [validateCart] asks of every line: a quantity of at least one,
    within the stock recorded on the line. *)
Definition acceptable (c : list CartItem.t) : Prop :=
  Forall (fun item =>
            1 <= CartItem.quantity item /\
            CartSpec.exceeds (CartItem.stock item) (CartItem.quantity item) = false)
         c.

End CartRun.

(** ** The steps of a checkout session *)

Module CheckoutRun.

Inductive Action :=
| SetCurrentStep (step : Z)
| SaveShippingInfo (info : ShippingInfo)
| SaveShippingMethod (method : string)
| SavePaymentMethod (method : string)
| RemoveCoupon
| SaveOrderNotes (notes : string)
| SetTermsAgreement (agree : bool)
| ClearCheckoutData.

(** The call of the service an action stands for, its result dropped. *)
Definition act (V : CheckoutService.Validators) (a : Action) : M unit :=
  match a with
  | SetCurrentStep step => CheckoutService.setCurrentStep step
  | SaveShippingInfo info => CheckoutService.saveShippingInfo V info ;;; ret tt
  | SaveShippingMethod method => CheckoutService.saveShippingMethod method ;;; ret tt
  | SavePaymentMethod method => CheckoutService.savePaymentMethod method ;;; ret tt
  | RemoveCoupon => CheckoutService.removeCoupon
  | SaveOrderNotes notes => CheckoutService.saveOrderNotes notes
  | SetTermsAgreement agree => CheckoutService.setTermsAgreement agree
  | ClearCheckoutData => CheckoutService.clearCheckoutData
  end.

(** The shipping method is one the service knows, and so is the payment
    method once one is chosen. *)
Definition known_methods (cd : CheckoutData) : Prop :=
  In (shippingMethod cd) CheckoutService.shipping_methods /\
  (paymentMethod cd = "" \/ In (paymentMethod cd) CheckoutService.payment_methods).

End CheckoutRun.

(** ** Text without markup *)

Module SecuritySpec.

(** The characters [sanitizeInput] replaces. *)
Definition markup : list ascii :=
  ["<"%char; ">"%char; Security.dquote; "'"%char; "/"%char].

(** No character of [s] is among [bad]. *)
Definition avoids (bad : list ascii) (s : string) : bool :=
  Validation.all_chars (fun a => negb (existsb (Ascii.eqb a) bad)) s.

(** What one digit adds to the Luhn sum, doubled or not. *)
Definition luhn_digit (isEven : bool) (a : ascii) : Z :=
  let digit := Validation.digit_value a in
  if isEven
  then (let doubled := digit * 2 in if 9 <? doubled then doubled - 9 else doubled)
  else digit.

(** The Luhn sum of a cleaned card number. *)
Definition luhn_sum (cleanNumber : string) : Z :=
  Validation.luhn_loop (rev (list_ascii_of_string cleanNumber)) false 0.

End SecuritySpec.

(** ** More sample data *)

Module Samples.

(** A signed-in visitor who still has the guest session ["S1"]. *)
Definition returning (net : list FetchResult) : World :=
  set_token (Some "tok")
    (set_localStorage {[ "sessionId" := "S1"; "authToken" := "tok" ]}
       (Examples.world [] net)).

(** A product that carries neither [id] nor [_id]. *)
Definition nameless : Product.t :=
  Product.mk None None "Sample" (100 # 1) None None [] None None.

(** The backend's cart: 5 units of ["A"] and 2 of ["C"]. *)
Definition backend_cart : list CartItem.t :=
  [Examples.line "A" 5 None; Examples.line "C" 2 None].

Definition cart_answer : Resp.t :=
  Resp.mk true None None None (Some (Some backend_cart)) None None.

(** A filled checkout with a cart, for a signed-in visitor, and the
    backend's answer to the order. *)
Definition placed : Resp.t :=
  Resp.mk true None None None None (Some (Order.mk (Some "1042") None)) None.

Definition ready (net : list FetchResult) : World :=
  set_checkoutData (Examples.checkout 0)
    (Examples.signed_in [Examples.priced "A" (100 # 1) 2] net).




End Samples.

(** * Properties *)

(** ** Frame and totality lemmas for the monad *)

Section Frame.
Context {B : Type} (f : World -> B).

Lemma keeps_ret {A} (a : A) : keeps f (ret a).
Proof. intros w. reflexivity. Qed.

Lemma keeps_throw {A} (e : Exn) : keeps f (@throw A e).
Proof. intros w. reflexivity. Qed.

Lemma keeps_gets {A} (g : World -> A) : keeps f (gets g).
Proof. intros w. reflexivity. Qed.

Lemma keeps_modify (g : World -> World) :
  (forall w, f (g w) = f w) -> keeps f (modify g).
Proof. intros H w. apply H. Qed.

Lemma keeps_bind {A C} (m : M A) (k : A -> M C) :
  keeps f m -> (forall a, keeps f (k a)) -> keeps f (bind m k).
Proof.
  intros Hm Hk w. unfold bind. specialize (Hm w).
  destruct (m w) as [[a | e] w1]; simpl in *.
  - rewrite Hk. exact Hm.
  - exact Hm.
Qed.

Lemma keeps_try_catch {A} (m : M A) (h : Exn -> M A) :
  keeps f m -> (forall e, keeps f (h e)) -> keeps f (try_catch m h).
Proof.
  intros Hm Hh w. unfold try_catch. specialize (Hm w).
  destruct (m w) as [[a | e] w1]; simpl in *.
  - exact Hm.
  - rewrite Hh. exact Hm.
Qed.

Lemma keeps_finally {A} (m : M A) (fin : M unit) :
  keeps f m -> keeps f fin -> keeps f (finally m fin).
Proof.
  intros Hm Hf w. unfold finally. specialize (Hm w).
  destruct (m w) as [r w1]. specialize (Hf w1).
  destruct (fin w1) as [[u | e] w2]; simpl in *; congruence.
Qed.

Lemma keeps_message_of (e : Exn) : keeps f (message_of e).
Proof. destruct e; intros w; reflexivity. Qed.
End Frame.

Lemma safe_ret {A} (a : A) : safe (ret a).
Proof. intros w. exists a. reflexivity. Qed.

Lemma safe_modify (g : World -> World) : safe (modify g).
Proof. intros w. exists tt. reflexivity. Qed.

Lemma safe_bind {A C} (m : M A) (k : A -> M C) :
  safe m -> (forall a, safe (k a)) -> safe (bind m k).
Proof.
  intros Hm Hk w. unfold bind. destruct (Hm w) as [a Ha].
  destruct (m w) as [[a' | e] w1]; simpl in Ha; [| discriminate].
  apply Hk.
Qed.

Lemma safe_try_catch {A} (m : M A) (h : Exn -> M A) :
  (forall e, safe (h e)) -> safe (try_catch m h).
Proof.
  intros Hh w. unfold try_catch.
  destruct (m w) as [[a | e] w1].
  - exists a. reflexivity.
  - apply Hh.
Qed.

Lemma safe_finally {A} (m : M A) (fin : M unit) :
  safe m -> safe fin -> safe (finally m fin).
Proof.
  intros Hm Hf w. unfold finally. destruct (Hm w) as [a Ha].
  destruct (m w) as [r w1]. simpl in Ha. subst r.
  destruct (Hf w1) as [u Hu].
  destruct (fin w1) as [[u' | e] w2]; simpl in Hu; [| discriminate].
  exists a. reflexivity.
Qed.

(** Decomposing a frame goal along the structure of the program. *)
Ltac frame_step :=
  match goal with
  | |- keeps _ (bind _ _) => apply keeps_bind; [| intros ?]
  | |- keeps _ (try_catch _ _) => apply keeps_try_catch; [| intros ?]
  | |- keeps _ (finally _ _) => apply keeps_finally
  | |- keeps _ (ret _) => apply keeps_ret
  | |- keeps _ (throw _) => apply keeps_throw
  | |- keeps _ (gets _) => apply keeps_gets
  | |- keeps _ (message_of _) => apply keeps_message_of
  | |- keeps _ (modify _) => apply keeps_modify; intros ?; reflexivity
  | |- keeps _ (if ?b then _ else _) => destruct b
  | |- keeps _ (match ?x with _ => _ end) => destruct x
  end.

Ltac frame := repeat frame_step.

(** *** The request layer leaves the cart alone *)

Section RequestFrame.
Context {B : Type} (f : World -> B).
Context (f_trace : forall x w, f (set_trace x w) = f w).
Context (f_network : forall x w, f (set_network x w) = f w).
Context (f_storage : forall x w, f (set_localStorage x w) = f w).

Lemma keeps_emit (e : Event) : keeps f (emit e).
Proof. apply keeps_modify. intros w. apply f_trace. Qed.

Lemma keeps_removeItem (k : string) : keeps f (removeItem k).
Proof. apply keeps_modify. intros w. apply f_storage. Qed.

Lemma keeps_fetchWithTimeout (req : Req.t) :
  keeps f (APIService.fetchWithTimeout req).
Proof.
  unfold APIService.fetchWithTimeout, APIService.fetch.
  apply keeps_bind; [| intros r; destruct r; frame].
  apply keeps_bind; [apply keeps_emit | intros _].
  apply keeps_bind; [apply keeps_gets | intros net].
  destruct net; [apply keeps_ret |].
  apply keeps_bind; [| intros _; apply keeps_ret].
  apply keeps_modify. intros w. apply f_network.
Qed.

Lemma keeps_handleResponse (response : option Response) :
  keeps f (APIService.handleResponse response).
Proof.
  unfold APIService.handleResponse.
  destruct response as [response |]; [| apply keeps_throw].
  destruct (json response); [| destruct (ok response); frame].
  destruct (negb (ok response)); [| apply keeps_ret].
  repeat match goal with
         | |- keeps _ (if ?b then _ else _) => destruct b
         end; try apply keeps_throw.
  apply keeps_bind; [apply keeps_removeItem | intros _].
  apply keeps_bind; [apply keeps_removeItem | intros _].
  apply keeps_throw.
Qed.

Lemma keeps_retryLoop {A} (this : APIService.t) (requestFn : M A)
      (attempts : Z) (n : nat) :
  keeps f requestFn ->
  forall i lastError,
    keeps f (APIService.retryLoop this requestFn attempts i n lastError).
Proof.
  intros Hreq. induction n as [| n IH]; intros i lastError; simpl.
  - apply keeps_throw.
  - apply keeps_try_catch; [exact Hreq | intros error].
    destruct (APIService.no_retry error); [apply keeps_throw |].
    apply keeps_bind; [| intros _; apply IH].
    destruct (i <? attempts - 1); [apply keeps_emit | apply keeps_ret].
Qed.

Lemma keeps_post (this : APIService.t) url data includeAuth :
  keeps f (APIService.post this url data includeAuth).
Proof.
  unfold APIService.post, APIService.retryRequest.
  apply keeps_retryLoop. unfold APIService.getHeaders.
  apply keeps_bind; [frame | intros h].
  apply keeps_bind; [apply keeps_fetchWithTimeout | intros r].
  apply keeps_handleResponse.
Qed.

Lemma keeps_get (this : APIService.t) url includeAuth :
  keeps f (APIService.get this url includeAuth).
Proof.
  unfold APIService.get, APIService.retryRequest.
  apply keeps_retryLoop. unfold APIService.getHeaders.
  apply keeps_bind; [frame | intros h].
  apply keeps_bind; [apply keeps_fetchWithTimeout | intros r].
  apply keeps_handleResponse.
Qed.
End RequestFrame.

(** ** The request layer *)

Module RequestFacts.
Import APIService RequestSpec.

Lemma get_unfold this url includeAuth :
  get this url includeAuth
  = retryRequest this (attempt "GET" url NoBody includeAuth) (retryAttempts this).
Proof. reflexivity. Qed.

Lemma post_unfold this url data includeAuth :
  post this url data includeAuth
  = retryRequest this (attempt "POST" url data includeAuth) (retryAttempts this).
Proof. reflexivity. Qed.

(** An attempt answered by a 2xx response with a JSON body returns that
    body. *)
Lemma attempt_ok method url data includeAuth w r d rest :
  network w = Responded r :: rest ->
  json r = Some d ->
  ok r = true ->
  attempt method url data includeAuth w
  = (Ok d, sent (Req.mk method url (header includeAuth w) data) rest w).
Proof.
  intros Hnet Hjson Hok.
  unfold attempt, getHeaders, fetchWithTimeout, fetch, bind, gets, emit, modify.
  simpl. rewrite Hnet. simpl. unfold handleResponse. rewrite Hjson, Hok.
  reflexivity.
Qed.

(** A request whose first attempt succeeds makes no other attempt. *)
Lemma retryRequest_first {A} this (requestFn : M A) attempts w a w' :
  1 <= attempts ->
  requestFn w = (Ok a, w') ->
  retryRequest this requestFn attempts w = (Ok a, w').
Proof.
  intros Hn Hrun. unfold retryRequest.
  destruct (Z.to_nat attempts) as [| n] eqn:E; [lia |].
  simpl. unfold try_catch. rewrite Hrun. reflexivity.
Qed.

Lemma get_ok this url includeAuth w r d rest :
  1 <= retryAttempts this ->
  network w = Responded r :: rest ->
  json r = Some d ->
  ok r = true ->
  get this url includeAuth w
  = (Ok d, sent (Req.mk "GET" url (header includeAuth w) NoBody) rest w).
Proof.
  intros Hn Hnet Hjson Hok. rewrite get_unfold.
  apply retryRequest_first; [exact Hn |].
  eapply attempt_ok; eassumption.
Qed.

Lemma post_ok this url data includeAuth w r d rest :
  1 <= retryAttempts this ->
  network w = Responded r :: rest ->
  json r = Some d ->
  ok r = true ->
  post this url data includeAuth w
  = (Ok d, sent (Req.mk "POST" url (header includeAuth w) data) rest w).
Proof.
  intros Hn Hnet Hjson Hok. rewrite post_unfold.
  apply retryRequest_first; [exact Hn |].
  eapply attempt_ok; eassumption.
Qed.

(** *** Where a returned body comes from

    A body returned by [get] or [post] is one the network delivered, or the
    literal [{ success: true }] built for a 2xx answer without JSON. *)

Lemma attempt_delivers (P : Resp.t -> Prop) method url data includeAuth :
  P Resp.success_only ->
  delivers P (fun w => answers P (network w))
           (attempt method url data includeAuth).
Proof.
  intros Hs w Hw.
  unfold attempt, getHeaders, fetchWithTimeout, fetch, bind, gets, emit, modify.
  simpl. destruct (network w) as [| r rest] eqn:Hnet; simpl.
  - rewrite Hnet. split; [constructor | exact I].
  - unfold answers in Hw. inversion Hw as [| ? ? Hr Hrest]; subst.
    destruct r as [resp | |]; simpl; try (split; [exact Hrest | exact I]).
    unfold handleResponse. destruct (json resp) as [d |].
    + destruct (negb (ok resp)); simpl; [| split; [exact Hrest | exact Hr]].
      repeat match goal with
             | |- context [if ?b then _ else _] => destruct b
             end; simpl; split; (exact Hrest || exact I).
    + destruct (ok resp); simpl; split; (exact Hrest || exact I || exact Hs).
Qed.

Lemma retryLoop_delivers {A} (P : A -> Prop) (Q : World -> Prop) this
      (requestFn : M A) attempts n :
  (forall x w, Q w -> Q (set_trace x w)) ->
  delivers P Q requestFn ->
  forall i lastError,
    delivers P Q (retryLoop this requestFn attempts i n lastError).
Proof.
  intros Ht Hreq. induction n as [| n IH]; intros i lastError w Hw; simpl.
  - split; [exact Hw | exact I].
  - unfold try_catch. destruct (Hreq w Hw) as [Hq Hp].
    destruct (requestFn w) as [[a | e] w1]; simpl in *; [split; assumption |].
    destruct (no_retry e); simpl; [split; [exact Hq | exact I] |].
    unfold bind. destruct (i <? attempts - 1); simpl.
    + apply IH. apply Ht. exact Hq.
    + apply IH. exact Hq.
Qed.

Lemma get_delivers (P : Resp.t -> Prop) this url includeAuth :
  P Resp.success_only ->
  delivers P (fun w => answers P (network w)) (get this url includeAuth).
Proof.
  intros Hs. rewrite get_unfold. apply retryLoop_delivers.
  - intros x w Hw. exact Hw.
  - now apply attempt_delivers.
Qed.

End RequestFacts.

(** ** The cart service: what each mutation does to the cart *)

Module CartFacts.
Import CartService CartSpec.

Section Sync.
Context (api : APIService.t).

Lemma sync_keeps {B} (f : World -> B) :
  (forall x w, f (set_trace x w) = f w) ->
  (forall x w, f (set_network x w) = f w) ->
  (forall x w, f (set_localStorage x w) = f w) ->
  (forall x w, f (set_syncInProgress x w) = f w) ->
  keeps f (syncWithBackend api).
Proof.
  intros Ht Hn Hs Hp. unfold syncWithBackend, getItem.
  apply keeps_bind; [apply keeps_gets | intros authToken].
  apply keeps_bind; [apply keeps_gets | intros busy].
  destruct (negb (truthy_str authToken) || busy); [apply keeps_ret |].
  apply keeps_bind; [apply keeps_modify; intros w; apply Hp | intros _].
  apply keeps_finally; [| apply keeps_modify; intros w; apply Hp].
  apply keeps_try_catch; [| intros e; apply keeps_emit; exact Ht].
  apply keeps_bind; [apply keeps_gets | intros c].
  apply keeps_bind; [| intros _; apply keeps_ret].
  apply keeps_post; assumption.
Qed.

(** A failed synchronisation is swallowed: [syncWithBackend] never
    throws. *)
Lemma sync_safe : safe (syncWithBackend api).
Proof.
  unfold syncWithBackend.
  apply safe_bind; [intros w; eexists; reflexivity | intros authToken].
  apply safe_bind; [intros w; eexists; reflexivity | intros busy].
  destruct (negb (truthy_str authToken) || busy); [apply safe_ret |].
  apply safe_bind; [apply safe_modify | intros _].
  apply safe_finally; [| apply safe_modify].
  apply safe_try_catch. intros e. apply safe_modify.
Qed.

Lemma sync_run (w : World) :
  exists w', syncWithBackend api w = (Ok tt, w') /\
             cart w' = cart w /\ storedCart w' = storedCart w.
Proof.
  destruct (sync_safe w) as [[] Ha].
  pose proof (sync_keeps cart (fun _ _ => eq_refl) (fun _ _ => eq_refl)
                (fun _ _ => eq_refl) (fun _ _ => eq_refl) w) as Hc.
  pose proof (sync_keeps storedCart (fun _ _ => eq_refl) (fun _ _ => eq_refl)
                (fun _ _ => eq_refl) (fun _ _ => eq_refl) w) as Hs.
  destruct (syncWithBackend api w) as [r w'] eqn:E. simpl in *.
  subst r. exists w'. auto.
Qed.
(** What [syncWithBackend] returns, and the world it leaves when its
    request fails: the failure is logged and the flag lowered. *)
Lemma sync_synced (w : World) :
  syncWithBackend api w = (Ok tt, CartRun.synced api w).
Proof.
  unfold CartRun.synced. destruct (sync_safe w) as [[] Ha].
  destruct (syncWithBackend api w) as [r w']. simpl in *. subst r. reflexivity.
Qed.

Lemma sync_failed (w : World) (e : Exn) (w1 : World) :
  truthy_str (localStorage w !! "authToken") = true ->
  syncInProgress w = false ->
  APIService.post api ENDPOINTS.cart (CartBody (cart w)) true
                  (set_syncInProgress true w) = (Throw e, w1) ->
  CartRun.synced api w
  = set_syncInProgress false
      (set_trace (trace w1 ++ [ConsoleError "Cart sync failed:"]) w1).
Proof.
  intros Ha Hb Hp.
  unfold CartRun.synced, syncWithBackend, getItem, bind, gets. simpl.
  rewrite Ha, Hb. simpl.
  unfold modify, finally, try_catch, bind, gets. simpl.
  rewrite Hp. reflexivity.
Qed.
End Sync.

(** *** The three mutations compute [removed], [updated] and [added] *)

Lemma findIndex_lookup c productId index :
  findIndex c productId = Some index ->
  exists item, c !! index = Some item /\ matches productId item = true.
Proof.
  revert index. induction c as [| x c IH]; intros index H; simpl in H.
  - discriminate.
  - destruct (matches productId x) eqn:Hm.
    + inversion H; subst. exists x. split; [reflexivity | exact Hm].
    + destruct (findIndex c productId) as [j |]; simpl in H; [| discriminate].
      inversion H; subst. destruct (IH j eq_refl) as (item & Hl & Hi).
      exists item. split; [exact Hl | exact Hi].
Qed.

Lemma findIndex_findCartItem c productId :
  findCartItem c productId = None <-> findIndex c productId = None.
Proof.
  unfold findCartItem. induction c as [| x c IH]; simpl.
  - tauto.
  - destruct (matches productId x).
    + split; discriminate.
    + destruct (findIndex c productId); simpl.
      * split; [intros H; apply IH in H; discriminate | discriminate].
      * split; [reflexivity | intros _; apply IH; reflexivity].
Qed.

Section Runs.
Context (api : APIService.t).

Ltac after_sync :=
  match goal with
  | |- context [syncWithBackend api ?w] =>
      let w1 := fresh "w1" in
      let Hs := fresh "Hs" in
      let Hc := fresh "Hc" in
      destruct (sync_run api w) as (w1 & Hs & Hc & _);
      rewrite Hs; simpl in Hc
  end.

Lemma removeFromCart_run productId w :
  exists w', removeFromCart api productId w
             = (Ok (fst (removed productId (cart w))), w') /\
             cart w' = snd (removed productId (cart w)).
Proof.
  unfold removeFromCart, removed, try_catch, bind, gets. simpl.
  destruct (findIndex (cart w) productId) as [index |] eqn:Hi; simpl.
  - destruct (findIndex_lookup _ _ _ Hi) as (item & Hl & _).
    rewrite Hl. unfold saveCart, modify. simpl.
    after_sync. eexists. split; [reflexivity | exact Hc].
  - eexists. split; reflexivity.
Qed.

Lemma updateQuantity_run productId q w :
  exists w', updateQuantity api productId q w
             = (Ok (fst (updated productId q (cart w))), w') /\
             cart w' = snd (updated productId q (cart w)).
Proof.
  unfold updateQuantity, updated, try_catch.
  destruct (q <? 1).
  - destruct (removeFromCart_run productId w) as (w' & Hr & Hc).
    rewrite Hr. exists w'. split; [reflexivity | exact Hc].
  - unfold bind, gets. simpl.
    destruct (findCartItem (cart w) productId) as [item |]; simpl.
    + unfold exceeds. destruct (CartItem.stock item) as [s |]; simpl.
      * destruct (s <? q); simpl.
        -- eexists. split; reflexivity.
        -- unfold saveCart, modify. simpl. after_sync.
           eexists. split; [reflexivity | exact Hc].
      * unfold saveCart, modify. simpl. after_sync.
        eexists. split; [reflexivity | exact Hc].
    + eexists. split; reflexivity.
Qed.

Lemma addToCart_run product q w :
  exists w', addToCart api product q w
             = (Ok (fst (added product q (cart w))), w') /\
             cart w' = snd (added product q (cart w)).
Proof.
  unfold addToCart, added, try_catch, bind, gets, exceeds.
  destruct (q <? 1); simpl; [eexists; split; reflexivity |].
  destruct (Product.stock product) as [s |]; simpl.
  - destruct (s <? q); simpl; [eexists; split; reflexivity |].
    destruct (findCartItem (cart w) _) as [e |]; simpl.
    + destruct (s <? CartItem.quantity e + q); simpl;
        [eexists; split; reflexivity |].
      destruct (updateQuantity_run
                  (or_str (CartItem.productId e) (CartItem.id e))
                  (CartItem.quantity e + q) w) as (w' & Hr & Hc).
      rewrite Hr. exists w'. split; [reflexivity | exact Hc].
    + unfold saveCart, modify. simpl. after_sync.
      eexists. split; [reflexivity | exact Hc].
  - destruct (findCartItem (cart w) _) as [e |]; simpl.
    + destruct (updateQuantity_run
                  (or_str (CartItem.productId e) (CartItem.id e))
                  (CartItem.quantity e + q) w) as (w' & Hr & Hc).
      rewrite Hr. exists w'. split; [reflexivity | exact Hc].
    + unfold saveCart, modify. simpl. after_sync.
      eexists. split; [reflexivity | exact Hc].
Qed.
End Runs.

(** *** Well-formed carts *)

Lemma matches_well_keyed item k :
  well_keyed item = true ->
  matches (Some k) item = bool_decide (CartItem.productId item = Some k).
Proof.
  unfold well_keyed, matches, strict_eq.
  destruct (CartItem.productId item) as [a |], (CartItem.id item) as [b |];
    intros H; try discriminate.
  - apply String.eqb_eq in H. subst b.
    destruct (bool_decide (Some a = Some k)); reflexivity.
  - rewrite (bool_decide_eq_false_2 (None = Some k)) by discriminate.
    apply orb_false_r.
Qed.

Lemma matches_set_quantity productId q item :
  matches productId (CartItem.set_quantity q item) = matches productId item.
Proof. reflexivity. Qed.

Lemma well_keyed_set_quantity q item :
  well_keyed (CartItem.set_quantity q item) = well_keyed item.
Proof. reflexivity. Qed.

Lemma findCartItem_app_l c c' productId item :
  findCartItem c productId = Some item ->
  findCartItem (c ++ c') productId = Some item.
Proof.
  unfold findCartItem. induction c as [| x c IH]; simpl; [discriminate |].
  destruct (matches productId x); [trivial | exact IH].
Qed.

Lemma findCartItem_app_r c c' productId :
  findCartItem c productId = None ->
  findCartItem (c ++ c') productId = findCartItem c' productId.
Proof.
  unfold findCartItem. induction c as [| x c IH]; simpl; [reflexivity |].
  destruct (matches productId x); [discriminate | exact IH].
Qed.

Lemma findCartItem_matches c productId item :
  findCartItem c productId = Some item ->
  In item c /\ matches productId item = true.
Proof. unfold findCartItem. apply find_some. Qed.

Lemma findCartItem_none c productId :
  findCartItem c productId = None ->
  forall item, In item c -> matches productId item = false.
Proof. unfold findCartItem. apply find_none. Qed.

(** *** [assign_quantity] *)

Lemma assign_quantity_keys productId q c :
  CartItem.productId <$> assign_quantity productId q c
  = CartItem.productId <$> c.
Proof.
  induction c as [| x c IH]; simpl; [reflexivity |].
  destruct (matches productId x); csimpl; [reflexivity | now rewrite IH].
Qed.

Lemma assign_quantity_length productId q c :
  length (assign_quantity productId q c) = length c.
Proof.
  induction c as [| x c IH]; simpl; [reflexivity |].
  destruct (matches productId x); simpl; [reflexivity | now rewrite IH].
Qed.

Lemma assign_quantity_well_keyed productId q c :
  Forall (fun item => well_keyed item = true) c ->
  Forall (fun item => well_keyed item = true) (assign_quantity productId q c).
Proof.
  induction 1 as [| x c Hx Hc IH]; simpl; [constructor |].
  destruct (matches productId x); constructor; auto.
Qed.

Lemma assign_quantity_positive productId q c :
  1 <= q -> positive c -> positive (assign_quantity productId q c).
Proof.
  intros Hq. induction 1 as [| x c Hx Hc IH]; simpl; [constructor |].
  destruct (matches productId x); constructor; auto.
Qed.

Lemma assign_quantity_wf productId q c :
  wf_cart c -> wf_cart (assign_quantity productId q c).
Proof.
  intros [Hk Hn]. split.
  - now apply assign_quantity_well_keyed.
  - now rewrite assign_quantity_keys.
Qed.

(** The line [findCartItem] returns is the one that changes, and it keeps
    answering to every id it answered to. *)
Lemma findCartItem_assign_same productId q c item :
  findCartItem c productId = Some item ->
  findCartItem (assign_quantity productId q c) productId
  = Some (CartItem.set_quantity q item).
Proof.
  unfold findCartItem. induction c as [| x c IH]; simpl; [discriminate |].
  destruct (matches productId x) eqn:Hm; simpl.
  - intros H. inversion H; subst. rewrite matches_set_quantity, Hm. reflexivity.
  - rewrite Hm. exact IH.
Qed.

Lemma findCartItem_assign_none productId productId' q c :
  findCartItem c productId' = None ->
  findCartItem (assign_quantity productId q c) productId' = None.
Proof.
  unfold findCartItem. induction c as [| x c IH]; simpl; [reflexivity |].
  destruct (matches productId' x) eqn:Hm; [discriminate |].
  intros H. destruct (matches productId x); simpl.
  - rewrite matches_set_quantity, Hm. exact H.
  - rewrite Hm. apply IH, H.
Qed.

Lemma lines_assign productId productId' q c :
  length (lines (assign_quantity productId q c) productId')
  = length (lines c productId').
Proof.
  unfold lines. induction c as [| x c IH]; simpl; [reflexivity |].
  destruct (matches productId x); simpl.
  - rewrite matches_set_quantity. destruct (matches productId' x); reflexivity.
  - destruct (matches productId' x); simpl; now rewrite IH.
Qed.

(** *** Unique lines *)

Lemma lines_none c productId :
  findCartItem c productId = None -> lines c productId = [].
Proof.
  unfold findCartItem, lines. induction c as [| x c IH]; simpl; [reflexivity |].
  destruct (matches productId x); [discriminate | exact IH].
Qed.

Lemma key_absent_no_line c k :
  Forall (fun item => well_keyed item = true) c ->
  Some k ∉ CartItem.productId <$> c ->
  findCartItem c (Some k) = None.
Proof.
  unfold findCartItem. induction 1 as [| x c Hx Hc IH]; csimpl; [reflexivity |].
  intros Hn. apply not_elem_of_cons in Hn as [Hne Hn].
  rewrite (matches_well_keyed _ _ Hx).
  rewrite bool_decide_eq_false_2 by congruence.
  apply IH, Hn.
Qed.

Lemma wf_cart_one_line c k :
  wf_cart c -> (length (lines c (Some k)) <= 1)%nat.
Proof.
  intros [Hk Hn]. unfold lines.
  induction c as [| x c IH]; simpl; [lia |].
  inversion Hk as [| ? ? Hx Hc]; subst.
  apply NoDup_cons in Hn as [Hx' Hn'].
  destruct (matches (Some k) x) eqn:Hm; [| apply IH; assumption].
  rewrite (matches_well_keyed _ _ Hx) in Hm. apply bool_decide_eq_true_1 in Hm.
  rewrite Hm in Hx'.
  fold (lines c (Some k)).
  rewrite (lines_none c (Some k)) by (apply key_absent_no_line; assumption).
  simpl. lia.
Qed.

Lemma lines_found c productId item :
  findCartItem c productId = Some item -> (1 <= length (lines c productId))%nat.
Proof.
  unfold findCartItem, lines. induction c as [| x c IH]; simpl; [discriminate |].
  destruct (matches productId x); simpl; [lia | exact IH].
Qed.

(** *** [removed], [updated] and [added] on well-formed carts *)

Lemma removed_false productId c :
  fst (removed productId c) = false -> snd (removed productId c) = c.
Proof.
  unfold removed. destruct (findIndex c productId); [discriminate | reflexivity].
Qed.

Lemma removed_positive productId c :
  positive c -> positive (snd (removed productId c)).
Proof.
  unfold removed. intros H. destruct (findIndex c productId); simpl; [| exact H].
  now apply Forall_delete.
Qed.

Lemma removed_wf productId c :
  wf_cart c -> wf_cart (snd (removed productId c)).
Proof.
  unfold removed. intros [Hk Hn].
  destruct (findIndex c productId) as [i |]; simpl; [| split; assumption].
  split; [now apply Forall_delete |].
  rewrite list_fmap_delete. eapply sublist_NoDup; [exact Hn | apply sublist_delete].
Qed.

(** On a well-formed cart no line answers to the id once its line is
    removed. *)
Lemma removed_gone k c :
  wf_cart c -> findCartItem (snd (removed (Some k) c)) (Some k) = None.
Proof.
  unfold removed. intros [Hk Hn].
  induction c as [| x c IH]; simpl; [reflexivity |].
  inversion Hk as [| ? ? Hx Hc]; subst.
  apply NoDup_cons in Hn as [Hx' Hn'].
  destruct (matches (Some k) x) eqn:Hm; simpl.
  - rewrite (matches_well_keyed _ _ Hx) in Hm. apply bool_decide_eq_true_1 in Hm.
    rewrite Hm in Hx'. now apply key_absent_no_line.
  - specialize (IH Hc Hn').
    destruct (findIndex c (Some k)) as [i |]; simpl in *.
    + unfold findCartItem. simpl. rewrite Hm. exact IH.
    + unfold findCartItem. simpl. rewrite Hm. exact IH.
Qed.

Lemma updated_false productId q c :
  fst (updated productId q c) = false -> snd (updated productId q c) = c.
Proof.
  unfold updated. destruct (q <? 1); [apply removed_false |].
  destruct (findCartItem c productId) as [item |]; [| reflexivity].
  destruct (exceeds (CartItem.stock item) q); [reflexivity | discriminate].
Qed.

Lemma updated_positive productId q c :
  positive c -> positive (snd (updated productId q c)).
Proof.
  unfold updated. intros H. destruct (q <? 1) eqn:Hq; [now apply removed_positive |].
  destruct (findCartItem c productId) as [item |]; [| exact H].
  destruct (exceeds (CartItem.stock item) q); [exact H |].
  simpl. apply assign_quantity_positive; [lia | exact H].
Qed.

Lemma updated_wf productId q c :
  wf_cart c -> wf_cart (snd (updated productId q c)).
Proof.
  unfold updated. intros H. destruct (q <? 1); [now apply removed_wf |].
  destruct (findCartItem c productId) as [item |]; [| exact H].
  destruct (exceeds (CartItem.stock item) q); [exact H |].
  simpl. now apply assign_quantity_wf.
Qed.

Lemma added_false product q c :
  fst (added product q c) = false -> snd (added product q c) = c.
Proof.
  unfold added. destruct (q <? 1); [reflexivity |].
  destruct (exceeds (Product.stock product) q); [reflexivity |].
  destruct (findCartItem c _) as [e |]; [| discriminate].
  destruct (exceeds (Product.stock product) (CartItem.quantity e + q));
    [reflexivity | apply updated_false].
Qed.

Lemma added_positive product q c :
  positive c -> positive (snd (added product q c)).
Proof.
  unfold added. intros H. destruct (q <? 1) eqn:Hq; [exact H |].
  destruct (exceeds (Product.stock product) q); [exact H |].
  destruct (findCartItem c _) as [e |].
  - destruct (exceeds (Product.stock product) (CartItem.quantity e + q));
      [exact H | now apply updated_positive].
  - simpl. apply Forall_app. split; [exact H |].
    constructor; [simpl; lia | constructor].
Qed.

(** *** Merging the backend cart *)

Lemma merge_item_positive c backendItem :
  positive c -> 1 <= CartItem.quantity backendItem ->
  positive (merge_item c backendItem).
Proof.
  intros Hc Hq. unfold merge_item.
  destruct (findCartItem c (CartItem.productId backendItem)).
  - now apply assign_quantity_positive.
  - apply Forall_app. split; [exact Hc | constructor; [exact Hq | constructor]].
Qed.

Lemma merge_backend_positive backendCart c :
  positive backendCart -> positive c -> positive (merge_backend backendCart c).
Proof.
  unfold merge_backend. intros Hb. revert c.
  induction Hb as [| x l Hx Hl IH]; intros c Hc; simpl; [exact Hc |].
  apply IH. now apply merge_item_positive.
Qed.

Section Loads.
Context (api : APIService.t).

Lemma clearCart_run w :
  exists w', clearCart api w = (Ok tt, w') /\ cart w' = [].
Proof.
  unfold clearCart, bind, saveCart, modify. simpl.
  destruct (sync_run api (set_storedCart (Some []) (set_cart [] w)))
    as (w1 & Hs & Hc & _).
  rewrite Hs. eexists. split; [reflexivity | exact Hc].
Qed.

(** What [loadFromBackend] leaves in the cart: the merge of the backend
    cart when the request returns a successful body with a cart, the cart as
    it was otherwise. *)
Lemma loadFromBackend_cart w :
  cart (snd (loadFromBackend api w))
  = match fst (APIService.get api ENDPOINTS.cart true w) with
    | Ok response =>
        match Resp.success response, Resp.cart response with
        | true, Some payload => merge_backend (default [] payload) (cart w)
        | _, _ => cart w
        end
    | Throw _ => cart w
    end.
Proof.
  unfold loadFromBackend, try_catch, bind.
  pose proof (keeps_get cart (fun _ _ => eq_refl) (fun _ _ => eq_refl)
                (fun _ _ => eq_refl) api ENDPOINTS.cart true w) as Hk.
  destruct (APIService.get api ENDPOINTS.cart true w) as [[d | e] w1];
    simpl in *.
  - destruct (Resp.success d); [| exact Hk].
    destruct (Resp.cart d) as [payload |]; [| exact Hk].
    simpl. rewrite Hk. reflexivity.
  - exact Hk.
Qed.

Lemma loadFromBackend_positive w :
  RequestSpec.answers backend_positive (network w) ->
  positive (cart w) ->
  positive (cart (snd (loadFromBackend api w))).
Proof.
  intros Hans Hpos. rewrite loadFromBackend_cart.
  destruct (RequestFacts.get_delivers backend_positive api ENDPOINTS.cart true I w Hans)
    as [_ Hp].
  destruct (fst (APIService.get api ENDPOINTS.cart true w)) as [d | e];
    [| exact Hpos].
  destruct (Resp.success d); [| exact Hpos].
  unfold backend_positive in Hp.
  destruct (Resp.cart d) as [[backendCart |] |]; simpl; try exact Hpos.
  now apply merge_backend_positive.
Qed.
End Loads.

(** *** Adding to a well-formed cart *)

Lemma positive_line_quantity c productId :
  positive c -> 0 <= line_quantity c productId.
Proof.
  intros Hpos. unfold line_quantity.
  destruct (findCartItem c productId) as [item |] eqn:Hf; [| lia].
  apply findCartItem_matches in Hf as [Hin _].
  unfold positive in Hpos. rewrite List.Forall_forall in Hpos.
  specialize (Hpos item Hin). lia.
Qed.

Lemma exceeds_le stock q q' :
  q <= q' -> exceeds stock q' = false -> exceeds stock q = false.
Proof.
  unfold exceeds. destruct stock as [s |]; [| reflexivity].
  intros Hq H. apply Z.ltb_ge in H. apply Z.ltb_ge. lia.
Qed.

Lemma truthy_str_some k : truthy_str k = true -> exists s, k = Some s.
Proof. destruct k as [s |]; [eauto | discriminate]. Qed.

(** One [addToCart] on a well-formed cart, within stock: the call succeeds,
    the cart stays well formed, exactly one line answers to the product and
    its quantity has grown by the quantity added. *)
Lemma added_line product q c :
  let k := or_str (Product.id product) (Product._id product) in
  wf_cart c -> truthy_str k = true -> 0 <= line_quantity c k -> 1 <= q ->
  exceeds (Product.stock product) (line_quantity c k + q) = false ->
  exceeds (line_stock c k) (line_quantity c k + q) = false ->
  fst (added product q c) = true /\
  wf_cart (snd (added product q c)) /\
  line_quantity (snd (added product q c)) k = line_quantity c k + q /\
  length (lines (snd (added product q c)) k) = 1%nat /\
  line_stock (snd (added product q c)) k
  = match findCartItem c k with
    | Some _ => line_stock c k
    | None => Product.stock product
    end.
Proof.
  intros k Hwf Hk H0 Hq Hp Hl.
  destruct (truthy_str_some _ Hk) as [ks Hks].
  unfold added. fold k.
  rewrite (proj2 (Z.ltb_ge q 1)) by lia.
  unfold line_quantity, line_stock in *.
  assert (Hpq : exceeds (Product.stock product) q = false).
  { eapply exceeds_le; [| exact Hp]. lia. }
  rewrite Hpq.
  destruct (findCartItem c k) as [e |] eqn:Hf.
  - rewrite Hp.
    destruct (findCartItem_matches _ _ _ Hf) as [Hin Hm].
    destruct Hwf as [Hkeyed Hnodup].
    assert (He : well_keyed e = true).
    { rewrite List.Forall_forall in Hkeyed. now apply Hkeyed. }
    assert (Hkey : or_str (CartItem.productId e) (CartItem.id e) = k).
    { rewrite Hks in Hm. rewrite (matches_well_keyed _ _ He) in Hm.
      apply bool_decide_eq_true_1 in Hm. unfold or_str.
      rewrite Hm, <- Hks, Hk. reflexivity. }
    rewrite Hkey. unfold updated.
    rewrite (proj2 (Z.ltb_ge (CartItem.quantity e + q) 1)) by lia.
    rewrite Hf, Hl. simpl.
    rewrite (findCartItem_assign_same _ _ _ _ Hf). simpl.
    split; [reflexivity |].
    split; [apply assign_quantity_wf; split; assumption |].
    split; [reflexivity |].
    split; [| reflexivity].
    rewrite lines_assign.
    pose proof (lines_found _ _ _ Hf) as Hge.
    pose proof (wf_cart_one_line c ks (conj Hkeyed Hnodup)) as Hle.
    rewrite <- Hks in Hle. lia.
  - simpl. rewrite (findCartItem_app_r _ _ _ Hf).
    assert (Hnew : matches k (new_item product q) = true).
    { unfold matches, new_item, strict_eq. simpl. fold k.
      rewrite bool_decide_eq_true_2 by reflexivity. reflexivity. }
    unfold findCartItem at 1 2. simpl. rewrite Hnew. simpl.
    split; [reflexivity |].
    split.
    { destruct Hwf as [Hkeyed Hnodup]. split.
      - apply Forall_app. split; [exact Hkeyed |].
        constructor; [| constructor].
        unfold well_keyed, new_item. simpl. fold k. rewrite Hks. reflexivity.
      - rewrite fmap_app. apply NoDup_app. split; [exact Hnodup |].
        split; [| apply NoDup_singleton].
        intros x Hx Hx'. apply list_elem_of_singleton in Hx'. simpl in Hx'. subst x.
        apply list_elem_of_fmap in Hx as (item & Hkeq & Hin).
        apply list_elem_of_In in Hin.
        pose proof (findCartItem_none _ _ Hf item Hin) as Hno.
        unfold matches, strict_eq in Hno. fold k in Hkeq.
        rewrite bool_decide_eq_true_2 in Hno by (symmetry; exact Hkeq).
        discriminate. }
    split; [lia |].
    split; [| reflexivity].
    unfold lines. rewrite List.filter_app. fold (lines c k).
    rewrite (lines_none _ _ Hf). simpl. rewrite Hnew. reflexivity.
Qed.

(** *** Reconciliation with the backend cart *)

Lemma well_keyed_key item :
  well_keyed item = true -> exists k, CartItem.productId item = Some k.
Proof.
  unfold well_keyed. destruct (CartItem.productId item) as [k |]; [eauto | discriminate].
Qed.

Lemma matches_own_key item : matches (CartItem.productId item) item = true.
Proof.
  unfold matches, strict_eq. rewrite bool_decide_eq_true_2 by reflexivity.
  reflexivity.
Qed.

Lemma findCartItem_assign_other k k' q c :
  Forall (fun item => well_keyed item = true) c -> k <> k' ->
  findCartItem (assign_quantity (Some k) q c) (Some k')
  = findCartItem c (Some k').
Proof.
  intros Hc Hne. unfold findCartItem.
  induction Hc as [| x c Hx Hc IH]; simpl; [reflexivity |].
  destruct (matches (Some k) x) eqn:Hm; simpl.
  - rewrite matches_set_quantity.
    rewrite (matches_well_keyed _ _ Hx) in Hm. apply bool_decide_eq_true_1 in Hm.
    rewrite (matches_well_keyed _ _ Hx), Hm.
    rewrite bool_decide_eq_false_2 by congruence. reflexivity.
  - destruct (matches (Some k') x); [reflexivity | exact IH].
Qed.


Lemma merge_item_keyed c backendItem :
  Forall (fun item => well_keyed item = true) c ->
  well_keyed backendItem = true ->
  Forall (fun item => well_keyed item = true) (merge_item c backendItem).
Proof.
  intros Hc Hr. unfold merge_item.
  destruct (findCartItem c (CartItem.productId backendItem)).
  - now apply assign_quantity_well_keyed.
  - apply Forall_app. split; [exact Hc | constructor; [exact Hr | constructor]].
Qed.

Lemma merge_backend_keyed backendCart c :
  Forall (fun item => well_keyed item = true) backendCart ->
  Forall (fun item => well_keyed item = true) c ->
  Forall (fun item => well_keyed item = true) (merge_backend backendCart c).
Proof.
  unfold merge_backend. intros Hb. revert c.
  induction Hb as [| x l Hx Hl IH]; intros c Hc; simpl; [exact Hc |].
  apply IH. now apply merge_item_keyed.
Qed.

(** The line answering to the backend item's own id, after its turn. *)
Lemma merge_item_same c backendItem :
  findCartItem (merge_item c backendItem) (CartItem.productId backendItem)
  = Some match findCartItem c (CartItem.productId backendItem) with
         | Some localItem =>
             CartItem.set_quantity (CartItem.quantity backendItem) localItem
         | None => backendItem
         end.
Proof.
  unfold merge_item.
  destruct (findCartItem c (CartItem.productId backendItem)) as [l |] eqn:Hf.
  - now apply findCartItem_assign_same.
  - rewrite (findCartItem_app_r _ _ _ Hf). unfold findCartItem. simpl.
    rewrite matches_own_key. reflexivity.
Qed.

(** A backend item leaves the lines of every other id alone. *)
Lemma merge_item_other c backendItem k :
  Forall (fun item => well_keyed item = true) c ->
  well_keyed backendItem = true ->
  CartItem.productId backendItem <> Some k ->
  findCartItem (merge_item c backendItem) (Some k) = findCartItem c (Some k).
Proof.
  intros Hc Hr Hne. unfold merge_item.
  destruct (well_keyed_key _ Hr) as [kr Hkr]. rewrite Hkr in *.
  destruct (findCartItem c (Some kr)) as [l |].
  - apply findCartItem_assign_other; [exact Hc | congruence].
  - destruct (findCartItem c (Some k)) as [l |] eqn:Hf.
    + now apply findCartItem_app_l.
    + rewrite (findCartItem_app_r _ _ _ Hf). unfold findCartItem. simpl.
      rewrite (matches_well_keyed _ _ Hr), Hkr.
      rewrite bool_decide_eq_false_2 by exact Hne. reflexivity.
Qed.

Lemma merge_backend_other backendCart c k :
  Forall (fun item => well_keyed item = true) backendCart ->
  Forall (fun item => well_keyed item = true) c ->
  Some k ∉ CartItem.productId <$> backendCart ->
  findCartItem (merge_backend backendCart c) (Some k) = findCartItem c (Some k).
Proof.
  unfold merge_backend. intros Hb. revert c.
  induction Hb as [| x l Hx Hl IH]; intros c Hc Hn; csimpl in *; [reflexivity |].
  apply not_elem_of_cons in Hn as [Hne Hn].
  rewrite IH; [| now apply merge_item_keyed | exact Hn].
  apply merge_item_other; [exact Hc | exact Hx | congruence].
Qed.



(** After the merge, the line answering to a backend item's id is the
    local line with the backend quantity, or the backend item itself when
    no local line answered. *)
Lemma merge_backend_line backendCart c backendItem :
  wf_cart backendCart ->
  Forall (fun item => well_keyed item = true) c ->
  In backendItem backendCart ->
  findCartItem (merge_backend backendCart c) (CartItem.productId backendItem)
  = Some match findCartItem c (CartItem.productId backendItem) with
         | Some localItem =>
             CartItem.set_quantity (CartItem.quantity backendItem) localItem
         | None => backendItem
         end.
Proof.
  intros [Hkeyed Hnodup] Hc Hin.
  apply list_elem_of_In, list_elem_of_split in Hin as (l1 & l2 & ->).
  apply Forall_app in Hkeyed as [Hk1 Hk2].
  inversion Hk2 as [| ? ? Hr Hk2']; subst.
  rewrite fmap_app in Hnodup. csimpl in Hnodup.
  apply NoDup_app in Hnodup as (_ & Hdisj & Hn2).
  apply NoDup_cons in Hn2 as [Hnot2 _].
  destruct (well_keyed_key _ Hr) as [kr Hkr].
  assert (Hnot1 : Some kr ∉ CartItem.productId <$> l1).
  { intros Hx. apply (Hdisj _ Hx). rewrite Hkr. left. }
  unfold merge_backend. rewrite fold_left_app. simpl.
  fold (merge_backend l1 c).
  fold (merge_backend l2 (merge_item (merge_backend l1 c) backendItem)).
  rewrite Hkr in *.
  rewrite (merge_backend_other l2); [| exact Hk2' | | exact Hnot2].
  - rewrite <- Hkr. rewrite merge_item_same. rewrite Hkr.
    rewrite (merge_backend_other l1 c kr Hk1 Hc Hnot1). reflexivity.
  - apply merge_item_keyed; [now apply merge_backend_keyed | exact Hr].
Qed.

(** *** Merging carts whose lines answer to one backend item at most *)













(** Carts that satisfy the data model are separate. *)
Lemma wf_separate backendCart c :
  wf_cart backendCart -> Forall (fun item => well_keyed item = true) c ->
  separate backendCart c = true.
Proof.
  intros [Hkeyed Hnodup] Hc. unfold separate. apply forallb_forall.
  intros x Hx. apply Nat.leb_le.
  assert (Hxk : well_keyed x = true).
  { apply in_app_or in Hx as [Hx | Hx];
      [rewrite List.Forall_forall in Hc; now apply Hc
      | rewrite List.Forall_forall in Hkeyed; now apply Hkeyed]. }
  clear Hx Hc. unfold answered.
  induction Hkeyed as [| b l Hb Hl IH]; simpl; [lia |].
  csimpl in Hnodup. apply NoDup_cons in Hnodup as [Hnot Hnodup].
  specialize (IH Hnodup).
  destruct (well_keyed_key _ Hb) as [kb Hkb]. rewrite Hkb.
  rewrite (matches_well_keyed _ _ Hxk).
  destruct (bool_decide (CartItem.productId x = Some kb)) eqn:E; [| exact IH].
  apply bool_decide_eq_true_1 in E. simpl.
  assert (Hnone : List.filter (fun b' => matches (CartItem.productId b') x) l = []).
  { clear IH. induction Hl as [| b' l Hb' Hl IH']; simpl; [reflexivity |].
    csimpl in Hnot. apply not_elem_of_cons in Hnot as [Hne Hnot].
    csimpl in Hnodup. apply NoDup_cons in Hnodup as [_ Hnodup].
    destruct (well_keyed_key _ Hb') as [kb' Hkb']. rewrite Hkb'.
    rewrite (matches_well_keyed _ _ Hxk), E.
    rewrite bool_decide_eq_false_2 by congruence.
    apply IH'; assumption. }
  rewrite Hnone. simpl. lia.
Qed.

End CartFacts.


(** ** Retry boundary *)

Module RetryFacts.
Import APIService RequestSpec RequestFacts.

(** An attempt answered [503] throws the fixed message of that status. *)
Lemma attempt_503 method url data includeAuth w r d rest :
  network w = Responded r :: rest ->
  json r = Some d ->
  status r = 503 ->
  attempt method url data includeAuth w
  = (Throw (Error "Service temporarily unavailable. Please try again later."),
     sent (Req.mk method url (header includeAuth w) data) rest w).
Proof.
  intros Hnet Hjson Hst.
  unfold attempt, getHeaders, fetchWithTimeout, fetch, bind, gets, emit, modify.
  simpl. rewrite Hnet. simpl. unfold handleResponse, ok.
  rewrite Hjson, Hst. reflexivity.
Qed.

(** Two [503] answers, then a [200]: with three attempts configured the
    request returns the body of the [200], after exactly three fetches and
    two waits, of [retryDelay] and twice [retryDelay]. *)
Lemma two_503_then_200 this url includeAuth w r1 d1 r2 d2 r3 d3 rest :
  retryAttempts this = 3 ->
  network w = Responded r1 :: Responded r2 :: Responded r3 :: rest ->
  json r1 = Some d1 -> status r1 = 503 ->
  json r2 = Some d2 -> status r2 = 503 ->
  json r3 = Some d3 -> ok r3 = true ->
  let req := Req.mk "GET" url (header includeAuth w) NoBody in
  exists w',
    get this url includeAuth w = (Ok d3, w') /\
    trace w' = trace w ++ [Fetch req; Sleep (retryDelay this);
                           Fetch req; Sleep (retryDelay this * 2); Fetch req] /\
    network w' = rest.
Proof.
  intros Hn Hnet Hj1 Hs1 Hj2 Hs2 Hj3 Hok3 req.
  rewrite get_unfold. unfold retryRequest. rewrite Hn. simpl.
  unfold try_catch at 1.
  rewrite (attempt_503 _ _ _ _ _ _ _ _ Hnet Hj1 Hs1). simpl.
  unfold bind at 1. simpl. unfold try_catch at 1.
  erewrite attempt_503; [| reflexivity | exact Hj2 | exact Hs2]. simpl.
  unfold bind at 1. simpl. unfold try_catch at 1.
  erewrite attempt_ok; [| reflexivity | exact Hj3 | exact Hok3].
  eexists. split; [reflexivity |]. simpl. split; [| reflexivity].
  unfold header. simpl. rewrite <- !app_assoc. simpl.
  rewrite Z.mul_1_r. reflexivity.
Qed.

(** A [404] whose body carries no message throws ['Resource not found.']
    and is not retried. *)
Lemma plain_404_not_retried this url includeAuth w r d rest :
  1 <= retryAttempts this ->
  network w = Responded r :: rest ->
  json r = Some d -> status r = 404 -> Resp.message d = None ->
  get this url includeAuth w
  = (Throw (Error "Resource not found."),
     sent (Req.mk "GET" url (header includeAuth w) NoBody) rest w).
Proof.
  intros Hn Hnet Hjson Hst Hmsg. rewrite get_unfold. unfold retryRequest.
  destruct (Z.to_nat (retryAttempts this)) as [| n] eqn:E; [lia |].
  simpl. unfold try_catch, attempt, getHeaders, fetchWithTimeout, fetch,
    bind, gets, emit, modify.
  simpl. rewrite Hnet. simpl. unfold handleResponse, ok.
  rewrite Hjson, Hst, Hmsg. reflexivity.
Qed.

(** C7: the loop of [retryRequest] recognises a client error by the text of
    its message.  A [404] whose body brings its own message (here
    ["No such product"]) is therefore not recognised: the request is sent
    again after the first back-off wait, and the caller receives the answer
    to the second attempt instead of the [404] error. *)
Theorem retry_404_with_backend_message :
  let d := Examples.body true None in
  let w := Examples.world []
             [Examples.answer 404 (Examples.body false (Some "No such product"));
              Examples.answer 200 d] in
  let req := Req.mk "GET" "/api/products/42" None NoBody in
  no_retry (Error "No such product") = false /\
  fst (get api "/api/products/42" false w) = Ok d /\
  trace (snd (get api "/api/products/42" false w))
  = [Fetch req; Sleep 1000; Fetch req].
Proof. vm_compute. repeat split; reflexivity. Qed.

End RetryFacts.

(** ** The cart: stock, quantities, uniqueness *)

Module CartClaims.
Import CartService CartSpec CartFacts.

Lemma findIndex_found c productId item :
  findCartItem c productId = Some item ->
  exists index, findIndex c productId = Some index /\ c !! index = Some item.
Proof.
  unfold findCartItem. induction c as [| x c IH]; simpl; [discriminate |].
  destruct (matches productId x).
  - intros H. inversion H; subst. exists O. split; reflexivity.
  - intros H. destruct (IH H) as (i & Hi & Hl). exists (S i).
    rewrite Hi. split; [reflexivity | exact Hl].
Qed.

Section Claims.
Context (api : APIService.t).

(** C3 (stock clamp).  A request above the stock is refused and changes
    nothing but the notifications:
    - [addToCart] of more than the product's stock, and [addToCart] that
      would bring an existing line above the product's stock, return
      [false] after the stock message, in a world otherwise untouched;
    - [updateQuantity] above the stock cached on the line does the same;
    - [updateQuantity] of a quantity from 1 up to the line's stock returns
      [true] and sets that line's quantity, where the line stands, to the
      requested quantity, which is the requested quantity capped by the
      stock. *)
Theorem stock_clamp (w : World) :
  (forall product q s,
      Product.stock product = Some s -> 0 <= s -> s < q ->
      addToCart api product q w
      = (Ok false,
         notified ("Only " +:+ show_Z s +:+ " items available in stock") "error" w)) /\
  (forall product q s item,
      Product.stock product = Some s -> 1 <= q -> q <= s ->
      findCartItem (cart w) (or_str (Product.id product) (Product._id product))
      = Some item ->
      s < CartItem.quantity item + q ->
      addToCart api product q w
      = (Ok false,
         notified ("Cannot add more. Only " +:+ show_Z s
                   +:+ " items available in stock") "error" w)) /\
  (forall productId q s item,
      findCartItem (cart w) productId = Some item ->
      CartItem.stock item = Some s -> 0 <= s -> s < q ->
      updateQuantity api productId q w
      = (Ok false,
         notified ("Only " +:+ show_Z s +:+ " items available in stock") "error" w)) /\
  (forall productId q item,
      findCartItem (cart w) productId = Some item ->
      1 <= q -> exceeds (CartItem.stock item) q = false ->
      exists w',
        updateQuantity api productId q w = (Ok true, w') /\
        cart w' = assign_quantity productId q (cart w) /\
        length (cart w') = length (cart w) /\
        findCartItem (cart w') productId = Some (CartItem.set_quantity q item) /\
        forall s, CartItem.stock item = Some s -> q = Z.min q s).
Proof.
  repeat split.
  - intros product q s Hs H0 Hq.
    unfold addToCart, try_catch, bind.
    rewrite (proj2 (Z.ltb_ge q 1)) by lia. simpl.
    rewrite Hs. rewrite (proj2 (Z.ltb_lt s q)) by lia. reflexivity.
  - intros product q s item Hs H1 Hq Hfind Hsum.
    unfold addToCart, try_catch, bind, gets.
    rewrite (proj2 (Z.ltb_ge q 1)) by lia. simpl.
    rewrite Hs. rewrite (proj2 (Z.ltb_ge s q)) by lia. simpl.
    rewrite Hfind. rewrite (proj2 (Z.ltb_lt s _)) by lia. reflexivity.
  - intros productId q s item Hfind Hs H0 Hq.
    unfold updateQuantity, try_catch, bind, gets.
    rewrite (proj2 (Z.ltb_ge q 1)) by lia. simpl.
    rewrite Hfind, Hs. rewrite (proj2 (Z.ltb_lt s q)) by lia. reflexivity.
  - intros productId q item Hfind H1 Hex.
    destruct (updateQuantity_run api productId q w) as (w' & Hr & Hc).
    unfold updated in Hr, Hc.
    rewrite (proj2 (Z.ltb_ge q 1)) in Hr, Hc by lia.
    rewrite Hfind, Hex in Hr, Hc. simpl in Hr, Hc.
    exists w'. split; [exact Hr |]. split; [exact Hc |].
    rewrite Hc. split; [apply assign_quantity_length |].
    split; [now apply findCartItem_assign_same |].
    intros s Hs. rewrite Hs in Hex. simpl in Hex.
    apply Z.ltb_ge in Hex. lia.
Qed.

(** C10 (mutations never throw).  [addToCart], [updateQuantity] and
    [removeFromCart] always return a boolean: no exception reaches the
    caller.  What each returns, and the world it leaves:
    - [addToCart] with a quantity below 1, above the product's stock, or
      bringing the product's line above the product's stock, shows the
      error and returns [false], in a world otherwise untouched; for a
      product with a line in the cart it otherwise is the [updateQuantity]
      of that line to the sum; for a product without a line it appends the
      line, saves, synchronises, shows the success and returns [true];
    - [updateQuantity] with a quantity below 1 is the [removeFromCart] of
      that id; for an id no line answers to, and for a quantity above the
      stock recorded on the line, it shows the error and returns [false],
      in a world otherwise untouched; otherwise it sets the quantity,
      saves, synchronises, shows the success and returns [true];
    - [removeFromCart] of an id no line answers to shows the error and
      returns [false], in a world otherwise untouched; otherwise it deletes
      the line, saves, synchronises, shows the success and returns [true];
    - the synchronisation never throws and leaves the cart and the saved
      cart as they are; when its request throws, all it does is log
      [Cart sync failed:] and lower its flag;
    - neither the flag returned nor the resulting cart depends on what the
      network answers. *)
Theorem mutations_never_throw (w : World) :
  ((forall product q, exists b w', addToCart api product q w = (Ok b, w')) /\
   (forall productId q, exists b w',
       updateQuantity api productId q w = (Ok b, w')) /\
   (forall productId, exists b w',
       removeFromCart api productId w = (Ok b, w'))) /\
  (forall product q,
      let productId := or_str (Product.id product) (Product._id product) in
      (q < 1 ->
       addToCart api product q w
       = (Ok false, notified "Quantity must be at least 1" "error" w)) /\
      (forall s,
          1 <= q -> Product.stock product = Some s -> s < q ->
          addToCart api product q w
          = (Ok false,
             notified ("Only " +:+ show_Z s +:+ " items available in stock")
                      "error" w)) /\
      (forall s existingItem,
          1 <= q -> Product.stock product = Some s -> q <= s ->
          findCartItem (cart w) productId = Some existingItem ->
          s < CartItem.quantity existingItem + q ->
          addToCart api product q w
          = (Ok false,
             notified ("Cannot add more. Only " +:+ show_Z s
                       +:+ " items available in stock") "error" w)) /\
      (forall existingItem,
          1 <= q ->
          findCartItem (cart w) productId = Some existingItem ->
          exceeds (Product.stock product) q = false ->
          exceeds (Product.stock product) (CartItem.quantity existingItem + q)
          = false ->
          addToCart api product q w
          = updateQuantity api
              (or_str (CartItem.productId existingItem) (CartItem.id existingItem))
              (CartItem.quantity existingItem + q) w) /\
      (1 <= q ->
       findCartItem (cart w) productId = None ->
       exceeds (Product.stock product) q = false ->
       addToCart api product q w
       = (Ok true,
          notified (Product.name product +:+ " added to cart") "success"
            (CartRun.synced api (CartRun.saved (cart w ++ [new_item product q]) w))))) /\
  (forall productId q,
      (q < 1 ->
       updateQuantity api productId q w = removeFromCart api productId w) /\
      (1 <= q ->
       findCartItem (cart w) productId = None ->
       updateQuantity api productId q w
       = (Ok false, notified "Item not found in cart" "error" w)) /\
      (forall item s,
          1 <= q ->
          findCartItem (cart w) productId = Some item ->
          CartItem.stock item = Some s -> s < q ->
          updateQuantity api productId q w
          = (Ok false,
             notified ("Only " +:+ show_Z s +:+ " items available in stock")
                      "error" w)) /\
      (forall item,
          1 <= q ->
          findCartItem (cart w) productId = Some item ->
          exceeds (CartItem.stock item) q = false ->
          updateQuantity api productId q w
          = (Ok true,
             notified "Cart updated" "success"
               (CartRun.synced api (CartRun.saved (assign_quantity productId q (cart w)) w))))) /\
  (forall productId,
      (findIndex (cart w) productId = None ->
       removeFromCart api productId w
       = (Ok false, notified "Item not found in cart" "error" w)) /\
      (forall index item,
          findIndex (cart w) productId = Some index ->
          cart w !! index = Some item ->
          removeFromCart api productId w
          = (Ok true,
             notified (CartItem.name item +:+ " removed from cart") "success"
               (CartRun.synced api (CartRun.saved (delete index (cart w)) w))))) /\
  (forall w0,
      syncWithBackend api w0 = (Ok tt, CartRun.synced api w0) /\
      cart (CartRun.synced api w0) = cart w0 /\
      storedCart (CartRun.synced api w0) = storedCart w0 /\
      (forall e w1,
          truthy_str (localStorage w0 !! "authToken") = true ->
          syncInProgress w0 = false ->
          APIService.post api ENDPOINTS.cart (CartBody (cart w0)) true
                          (set_syncInProgress true w0) = (Throw e, w1) ->
          CartRun.synced api w0
          = set_syncInProgress false
              (set_trace (trace w1 ++ [ConsoleError "Cart sync failed:"]) w1))) /\
  (forall net product q,
      fst (addToCart api product q (set_network net w))
      = fst (addToCart api product q w) /\
      cart (snd (addToCart api product q (set_network net w)))
      = cart (snd (addToCart api product q w))) /\
  (forall net productId q,
      fst (updateQuantity api productId q (set_network net w))
      = fst (updateQuantity api productId q w) /\
      cart (snd (updateQuantity api productId q (set_network net w)))
      = cart (snd (updateQuantity api productId q w))) /\
  (forall net productId,
      fst (removeFromCart api productId (set_network net w))
      = fst (removeFromCart api productId w) /\
      cart (snd (removeFromCart api productId (set_network net w)))
      = cart (snd (removeFromCart api productId w))).
Proof.
  split; [| split; [| split; [| split; [| split]]]].
  - split; [| split].
    + intros product q.
      destruct (addToCart_run api product q w) as (w' & Hr & _). eauto.
    + intros productId q.
      destruct (updateQuantity_run api productId q w) as (w' & Hr & _). eauto.
    + intros productId.
      destruct (removeFromCart_run api productId w) as (w' & Hr & _). eauto.
  - intros product q productId. subst productId.
    split; [| split; [| split; [| split]]].
    + intros Hq. unfold addToCart, try_catch, bind.
      rewrite (proj2 (Z.ltb_lt q 1)) by lia. reflexivity.
    + intros s Hq Hs Hlt. unfold addToCart, try_catch, bind.
      rewrite (proj2 (Z.ltb_ge q 1)) by lia. simpl.
      rewrite Hs. rewrite (proj2 (Z.ltb_lt s q)) by lia. reflexivity.
    + intros s existingItem Hq Hs Hle Hfind Hsum.
      unfold addToCart, try_catch, bind, gets.
      rewrite (proj2 (Z.ltb_ge q 1)) by lia. simpl.
      rewrite Hs. rewrite (proj2 (Z.ltb_ge s q)) by lia. simpl.
      rewrite Hfind. rewrite (proj2 (Z.ltb_lt s _)) by lia. reflexivity.
    + intros existingItem Hq Hfind Hex Hsum.
      destruct (updateQuantity_run api
                  (or_str (CartItem.productId existingItem) (CartItem.id existingItem))
                  (CartItem.quantity existingItem + q) w) as (w' & Hr & _).
      rewrite Hr.
      unfold addToCart, try_catch, bind, gets.
      rewrite (proj2 (Z.ltb_ge q 1)) by lia. simpl.
      unfold exceeds in Hex, Hsum.
      destruct (Product.stock product) as [s |]; simpl.
      * rewrite Hex. simpl. rewrite Hfind, Hsum. simpl. rewrite Hr. reflexivity.
      * rewrite Hfind. simpl. rewrite Hr. reflexivity.
    + intros Hq Hfind Hex.
      unfold addToCart, try_catch, bind, gets.
      rewrite (proj2 (Z.ltb_ge q 1)) by lia. simpl.
      unfold exceeds in Hex.
      destruct (Product.stock product) as [s |]; simpl.
      * rewrite Hex. simpl. rewrite Hfind.
        unfold saveCart, modify. simpl. rewrite sync_synced. reflexivity.
      * rewrite Hfind.
        unfold saveCart, modify. simpl. rewrite sync_synced. reflexivity.
  - intros productId q. split; [| split; [| split]].
    + intros Hq. destruct (removeFromCart_run api productId w) as (w' & Hr & _).
      unfold updateQuantity, try_catch.
      rewrite (proj2 (Z.ltb_lt q 1)) by lia. rewrite Hr. reflexivity.
    + intros Hq Hfind. unfold updateQuantity, try_catch, bind, gets.
      rewrite (proj2 (Z.ltb_ge q 1)) by lia. simpl. rewrite Hfind. reflexivity.
    + intros item s Hq Hfind Hs Hlt. unfold updateQuantity, try_catch, bind, gets.
      rewrite (proj2 (Z.ltb_ge q 1)) by lia. simpl.
      rewrite Hfind, Hs. rewrite (proj2 (Z.ltb_lt s q)) by lia. reflexivity.
    + intros item Hq Hfind Hex. unfold updateQuantity, try_catch, bind, gets.
      rewrite (proj2 (Z.ltb_ge q 1)) by lia. simpl. rewrite Hfind.
      unfold exceeds in Hex.
      destruct (CartItem.stock item) as [s |]; simpl.
      * rewrite Hex. simpl. unfold saveCart, modify. simpl.
        rewrite sync_synced. reflexivity.
      * unfold saveCart, modify. simpl. rewrite sync_synced. reflexivity.
  - intros productId. split.
    + intros Hi. unfold removeFromCart, try_catch, bind, gets. simpl.
      rewrite Hi. reflexivity.
    + intros index item Hi Hl. unfold removeFromCart, try_catch, bind, gets. simpl.
      rewrite Hi, Hl. unfold saveCart, modify. simpl.
      rewrite sync_synced. reflexivity.
  - intros w0. split; [apply sync_synced |].
    split; [| split].
    + unfold CartRun.synced.
      apply (sync_keeps api cart (fun _ _ => eq_refl) (fun _ _ => eq_refl)
               (fun _ _ => eq_refl) (fun _ _ => eq_refl) w0).
    + unfold CartRun.synced.
      apply (sync_keeps api storedCart (fun _ _ => eq_refl) (fun _ _ => eq_refl)
               (fun _ _ => eq_refl) (fun _ _ => eq_refl) w0).
    + intros e w1. apply sync_failed.
  - repeat split.
    + destruct (addToCart_run api product q w) as (w1 & Hr1 & Hc1).
      destruct (addToCart_run api product q (set_network net w)) as (w2 & Hr2 & Hc2).
      rewrite Hr1, Hr2. reflexivity.
    + destruct (addToCart_run api product q w) as (w1 & Hr1 & Hc1).
      destruct (addToCart_run api product q (set_network net w)) as (w2 & Hr2 & Hc2).
      rewrite Hr1, Hr2. simpl. rewrite Hc1, Hc2. reflexivity.
    + destruct (updateQuantity_run api productId q w) as (w1 & Hr1 & Hc1).
      destruct (updateQuantity_run api productId q (set_network net w)) as (w2 & Hr2 & Hc2).
      rewrite Hr1, Hr2. reflexivity.
    + destruct (updateQuantity_run api productId q w) as (w1 & Hr1 & Hc1).
      destruct (updateQuantity_run api productId q (set_network net w)) as (w2 & Hr2 & Hc2).
      rewrite Hr1, Hr2. simpl. rewrite Hc1, Hc2. reflexivity.
    + destruct (removeFromCart_run api productId w) as (w1 & Hr1 & Hc1).
      destruct (removeFromCart_run api productId (set_network net w)) as (w2 & Hr2 & Hc2).
      rewrite Hr1, Hr2. reflexivity.
    + destruct (removeFromCart_run api productId w) as (w1 & Hr1 & Hc1).
      destruct (removeFromCart_run api productId (set_network net w)) as (w2 & Hr2 & Hc2).
      rewrite Hr1, Hr2. simpl. rewrite Hc1, Hc2. reflexivity.
Qed.

(** C5 (quantity floor), as the code has it.  [updateQuantity] with a
    quantity of 0 or less removes the line [findCartItem] returns and
    reports [true]; on a well-formed cart no line answers to that id
    afterwards.  A cart whose quantities are all at least 1 stays so under
    [addToCart], [updateQuantity], [removeFromCart] and [clearCart]; it
    stays so under [loadFromBackend] when the quantities of the backend
    cart are at least 1, for the load copies them unchecked. *)
Theorem quantity_floor (w : World) :
  (forall productId q item,
      q < 1 -> findCartItem (cart w) productId = Some item ->
      exists w' index,
        updateQuantity api productId q w = (Ok true, w') /\
        findIndex (cart w) productId = Some index /\
        cart w !! index = Some item /\
        cart w' = delete index (cart w) /\
        (forall k, productId = Some k -> wf_cart (cart w) ->
                   findCartItem (cart w') productId = None)) /\
  (positive (cart w) ->
   (forall product q, positive (cart (snd (addToCart api product q w)))) /\
   (forall productId q, positive (cart (snd (updateQuantity api productId q w)))) /\
   (forall productId, positive (cart (snd (removeFromCart api productId w)))) /\
   positive (cart (snd (clearCart api w))) /\
   (RequestSpec.answers backend_positive (network w) ->
    positive (cart (snd (loadFromBackend api w))))).
Proof.
  split.
  - intros productId q item Hq Hfind.
    destruct (updateQuantity_run api productId q w) as (w' & Hr & Hc).
    destruct (findIndex_found _ _ _ Hfind) as (index & Hi & Hl).
    assert (Hu : updated productId q (cart w) = (true, delete index (cart w))).
    { unfold updated, removed. rewrite (proj2 (Z.ltb_lt q 1)) by lia.
      rewrite Hi. reflexivity. }
    rewrite Hu in Hr, Hc. simpl in Hr, Hc.
    exists w', index. repeat split; try assumption.
    intros k -> Hwf. rewrite Hc.
    pose proof (removed_gone k (cart w) Hwf) as Hg.
    unfold removed in Hg. rewrite Hi in Hg. exact Hg.
  - intros Hpos. repeat split.
    + intros product q.
      destruct (addToCart_run api product q w) as (w' & Hr & Hc).
      rewrite Hr. simpl. rewrite Hc. now apply added_positive.
    + intros productId q.
      destruct (updateQuantity_run api productId q w) as (w' & Hr & Hc).
      rewrite Hr. simpl. rewrite Hc. now apply updated_positive.
    + intros productId.
      destruct (removeFromCart_run api productId w) as (w' & Hr & Hc).
      rewrite Hr. simpl. rewrite Hc. now apply removed_positive.
    + destruct (clearCart_run api w) as (w' & Hr & Hc).
      rewrite Hr. simpl. rewrite Hc. constructor.
    + intros Hans. now apply loadFromBackend_positive.
Qed.

(** C4 (idempotent add), as the code has it.  The cart is well formed
    (every line has a [productId], repeated by its [id] if it has one, and no
    two lines share a [productId]); the product has a non-empty id [k]; the
    line of the product, if there is one, holds a quantity [q0] of 0 or
    more ([q0] is 0 without a line); [q1] and [q2] are at least 1; and
    [q0 + q1 + q2] is above neither the product's stock nor the stock
    recorded on the line.  Then adding the product twice, with [q1] and
    then [q2], succeeds both times and leaves exactly one line for the
    product, of quantity [q0 + q1 + q2].  The cart stays well formed: no
    two lines share a product id. *)
Theorem idempotent_add (w : World) (product : Product.t) (q1 q2 : Z) :
  let k := or_str (Product.id product) (Product._id product) in
  wf_cart (cart w) -> truthy_str k = true ->
  0 <= line_quantity (cart w) k ->
  1 <= q1 -> 1 <= q2 ->
  exceeds (Product.stock product) (line_quantity (cart w) k + q1 + q2) = false ->
  exceeds (line_stock (cart w) k) (line_quantity (cart w) k + q1 + q2) = false ->
  exists w1 w2,
    addToCart api product q1 w = (Ok true, w1) /\
    addToCart api product q2 w1 = (Ok true, w2) /\
    length (lines (cart w2) k) = 1%nat /\
    line_quantity (cart w2) k = line_quantity (cart w) k + q1 + q2 /\
    wf_cart (cart w2).
Proof.
  intros k. subst k. intros Hwf Hk H0 Hq1 Hq2 Hp Hl.
  destruct (addToCart_run api product q1 w) as (w1 & Hr1 & Hc1).
  pose proof (added_line product q1 (cart w)) as A1. cbv zeta in A1.
  destruct (A1 Hwf Hk H0 Hq1) as (Hb1 & Hwf1 & Hlq1 & _ & Hls1).
  { eapply exceeds_le; [| exact Hp]. lia. }
  { eapply exceeds_le; [| exact Hl]. lia. }
  rewrite Hb1 in Hr1. rewrite <- Hc1 in Hwf1, Hlq1, Hls1.
  destruct (addToCart_run api product q2 w1) as (w2 & Hr2 & Hc2).
  pose proof (added_line product q2 (cart w1)) as A2. cbv zeta in A2.
  destruct (A2 Hwf1 Hk) as (Hb2 & Hwf2 & Hlq2 & Hone & _).
  { rewrite Hlq1. lia. }
  { exact Hq2. }
  { rewrite Hlq1. exact Hp. }
  { rewrite Hls1, Hlq1. unfold line_stock in *.
    destruct (findCartItem (cart w) _); [exact Hl | exact Hp]. }
  rewrite Hb2 in Hr2. rewrite <- Hc2 in Hwf2, Hlq2, Hone.
  exists w1, w2. split; [exact Hr1 |]. split; [exact Hr2 |].
  split; [exact Hone |]. split; [lia | exact Hwf2].
Qed.


End Claims.

(** The theorem at work: a line of 2 with 5 in stock; asking for 9 is
    refused and leaves the line at 2, asking for 4 sets it to 4. *)
Lemma stock_clamp_witness :
  let w := Examples.world [Examples.line "wig-1" 2 (Some 5)] [] in
  fst (updateQuantity APIService.api (Some "wig-1") 9 w) = Ok false /\
  cart (snd (updateQuantity APIService.api (Some "wig-1") 9 w)) = cart w /\
  fst (addToCart APIService.api (Examples.product "wig-1" (Some 5)) 9 w) = Ok false /\
  fst (addToCart APIService.api (Examples.product "wig-1" (Some 5)) 4 w) = Ok false /\
  exists w', updateQuantity APIService.api (Some "wig-1") 4 w = (Ok true, w') /\
             cart w' = [Examples.line "wig-1" 4 (Some 5)].
Proof.
  intros w.
  destruct (stock_clamp APIService.api w) as (Hadd & Hadd' & Hupd & Hset).
  split.
  { rewrite (Hupd (Some "wig-1") 9 5 (Examples.line "wig-1" 2 (Some 5)));
      [reflexivity | reflexivity | reflexivity | lia | lia]. }
  split.
  { rewrite (Hupd (Some "wig-1") 9 5 (Examples.line "wig-1" 2 (Some 5)));
      [reflexivity | reflexivity | reflexivity | lia | lia]. }
  split.
  { rewrite (Hadd (Examples.product "wig-1" (Some 5)) 9 5);
      [reflexivity | reflexivity | lia | lia]. }
  split.
  { rewrite (Hadd' (Examples.product "wig-1" (Some 5)) 4 5
               (Examples.line "wig-1" 2 (Some 5)));
      [reflexivity | reflexivity | lia | lia | reflexivity | simpl; lia]. }
  destruct (Hset (Some "wig-1") 4 (Examples.line "wig-1" 2 (Some 5)))
    as (w' & Hr & Hc & _); [reflexivity | lia | reflexivity |].
  exists w'. split; [exact Hr | exact Hc].
Defined.


(** The theorem at work for a signed-in visitor whose network is down,
    with a line of 2 and 5 in stock: the refusals, each with its message;
    an add that goes through although the three attempts of the
    synchronisation fail; an add to the existing line, an update, an update
    to 0 and a removal, which all go through as well. *)
Lemma mutations_never_throw_witness :
  let w := Examples.signed_in [Examples.line "wig-1" 2 (Some 5)] [] in
  let r := addToCart APIService.api (Examples.product "wig-2" None) 1 w in
  let a := addToCart APIService.api (Examples.product "wig-1" (Some 5)) 3 w in
  let u := updateQuantity APIService.api (Some "wig-1") 4 w in
  let z := updateQuantity APIService.api (Some "wig-1") 0 w in
  let d := removeFromCart APIService.api (Some "wig-1") w in
  addToCart APIService.api (Examples.product "wig-2" None) 0 w
  = (Ok false, notified "Quantity must be at least 1" "error" w) /\
  addToCart APIService.api (Examples.product "wig-2" (Some 3)) 4 w
  = (Ok false, notified "Only 3 items available in stock" "error" w) /\
  addToCart APIService.api (Examples.product "wig-1" (Some 5)) 4 w
  = (Ok false, notified "Cannot add more. Only 5 items available in stock" "error" w) /\
  updateQuantity APIService.api (Some "wig-9") 3 w
  = (Ok false, notified "Item not found in cart" "error" w) /\
  updateQuantity APIService.api (Some "wig-1") 9 w
  = (Ok false, notified "Only 5 items available in stock" "error" w) /\
  removeFromCart APIService.api (Some "wig-9") w
  = (Ok false, notified "Item not found in cart" "error" w) /\
  (fst r = Ok true /\
   cart (snd r) = [Examples.line "wig-1" 2 (Some 5); Examples.line "wig-2" 1 None] /\
   storedCart (snd r) = Some (cart (snd r)) /\
   TraceSpec.fetches (trace (snd r)) = 3%nat /\
   TraceSpec.notifications (trace (snd r)) = [("wig-2 added to cart", "success")] /\
   In (ConsoleError "Cart sync failed:") (trace (snd r))) /\
  (fst a = Ok true /\ cart (snd a) = [Examples.line "wig-1" 5 (Some 5)]) /\
  (fst u = Ok true /\ cart (snd u) = [Examples.line "wig-1" 4 (Some 5)]) /\
  (fst z = Ok true /\ cart (snd z) = []) /\
  (fst d = Ok true /\ cart (snd d) = [] /\ storedCart (snd d) = Some []).
Proof.
  intros w r a u z d.
  destruct (mutations_never_throw APIService.api w)
    as (_ & Hadd & Hupd & Hrem & Hsync & _).
  destruct (Hadd (Examples.product "wig-2" None) 0) as (Hlow & _).
  destruct (Hadd (Examples.product "wig-2" (Some 3)) 4) as (_ & Hstock & _).
  destruct (Hadd (Examples.product "wig-1" (Some 5)) 4) as (_ & _ & Hmore & _).
  destruct (Hadd (Examples.product "wig-1" (Some 5)) 3) as (_ & _ & _ & Hsum & _).
  destruct (Hadd (Examples.product "wig-2" None) 1) as (_ & _ & _ & _ & Hnew).
  destruct (Hupd (Some "wig-9") 3) as (_ & Hunknown & _).
  destruct (Hupd (Some "wig-1") 9) as (_ & _ & Habove & _).
  destruct (Hupd (or_str (CartItem.productId (Examples.line "wig-1" 2 (Some 5)))
                         (CartItem.id (Examples.line "wig-1" 2 (Some 5))))
                 (CartItem.quantity (Examples.line "wig-1" 2 (Some 5)) + 3))
    as (_ & _ & _ & Hfive).
  destruct (Hupd (Some "wig-1") 4) as (_ & _ & _ & Hfour).
  destruct (Hupd (Some "wig-1") 0) as (Hzero & _).
  destruct (Hrem (Some "wig-9")) as (Hgone & _).
  destruct (Hrem (Some "wig-1")) as (_ & Hdel).
  split; [apply Hlow; lia |].
  split; [apply (Hstock 3); [lia | reflexivity | lia] |].
  split; [apply (Hmore 5 (Examples.line "wig-1" 2 (Some 5)));
          [lia | reflexivity | lia | reflexivity | simpl; lia] |].
  split; [apply Hunknown; [lia | reflexivity] |].
  split; [apply (Habove (Examples.line "wig-1" 2 (Some 5)) 5);
          [lia | reflexivity | reflexivity | lia] |].
  split; [apply Hgone; reflexivity |].
  split.
  { unfold r. rewrite Hnew; [| lia | reflexivity | reflexivity].
    destruct (Hsync (CartRun.saved
                       (cart w ++ [new_item (Examples.product "wig-2" None) 1]) w))
      as (_ & _ & _ & Hfail).
    match type of Hfail with
    | forall e w1, _ -> _ -> ?p = _ -> _ =>
        assert (Hp : p = (Throw (Error "Failed to fetch"), snd p))
          by (vm_compute; reflexivity)
    end.
    rewrite (Hfail _ _ eq_refl eq_refl Hp).
    vm_compute. repeat split; auto 10. }
  split.
  { unfold a.
    rewrite (Hsum (Examples.line "wig-1" 2 (Some 5)));
      [| lia | reflexivity | reflexivity | reflexivity].
    rewrite (Hfive (Examples.line "wig-1" 2 (Some 5)));
      [| simpl; lia | reflexivity | reflexivity].
    vm_compute. split; reflexivity. }
  split.
  { unfold u.
    rewrite (Hfour (Examples.line "wig-1" 2 (Some 5)));
      [| lia | reflexivity | reflexivity].
    vm_compute. split; reflexivity. }
  assert (Hd : fst d = Ok true /\ cart (snd d) = [] /\ storedCart (snd d) = Some []).
  { unfold d.
    rewrite (Hdel O (Examples.line "wig-1" 2 (Some 5))); [| reflexivity | reflexivity].
    vm_compute. repeat split. }
  split; [| exact Hd].
  unfold z. rewrite Hzero by lia. split; apply Hd.
Defined.

(** A signed-in visitor whose network is down: the three attempts of the
    synchronisation fail, the failure is logged, and the product is in the
    cart all the same. *)
Example sync_failure_swallowed :
  let w := Examples.signed_in [] [] in
  let r := addToCart APIService.api (Examples.product "wig-1" (Some 5)) 2 w in
  fst r = Ok true /\
  cart (snd r) = [Examples.line "wig-1" 2 (Some 5)] /\
  In (ConsoleError "Cart sync failed:") (trace (snd r)) /\
  syncInProgress (snd r) = false.
Proof. vm_compute. repeat split; auto 10. Qed.


(** The theorem at work on a cart of two lines: setting the first to 0
    removes it, and a backend cart with positive quantities keeps the cart
    positive. *)
Lemma quantity_floor_witness :
  let c := [Examples.line "wig-1" 2 (Some 5); Examples.line "wig-2" 1 None] in
  let w := Examples.world c
             [Examples.answer 200
                (Resp.mk true None None None
                   (Some (Some [Examples.line "wig-2" 4 None])) None None)] in
  (exists w', updateQuantity APIService.api (Some "wig-1") 0 w = (Ok true, w') /\
              cart w' = [Examples.line "wig-2" 1 None] /\
              findCartItem (cart w') (Some "wig-1") = None) /\
  positive (cart (snd (addToCart APIService.api (Examples.product "wig-3" None) 1 w))) /\
  positive (cart (snd (loadFromBackend APIService.api w))).
Proof.
  intros c w.
  assert (Hpos : positive (cart w)).
  { repeat constructor; simpl; lia. }
  assert (Hwf : wf_cart (cart w)).
  { split.
    - repeat (constructor; [reflexivity |]). constructor.
    - apply (bool_decide_unpack _). vm_compute. exact I. }
  destruct (quantity_floor APIService.api w) as [Hfloor Hinv].
  destruct (Hinv Hpos) as (Hadd & _ & _ & _ & Hload).
  split.
  - destruct (Hfloor (Some "wig-1") 0 (Examples.line "wig-1" 2 (Some 5)))
      as (w' & index & Hr & Hi & Hl & Hc & Hgone); [lia | reflexivity |].
    exists w'. split; [exact Hr |].
    vm_compute in Hi. inversion Hi; subst index.
    split; [exact Hc |]. apply (Hgone "wig-1" eq_refl Hwf).
  - split; [apply Hadd |]. apply Hload.
    repeat constructor; simpl; lia.
Defined.


(** Starting with a line of 1 for the product and 9 in stock, two adds of
    2 and 3 give one line of 6, next to the other line of the cart. *)
Lemma idempotent_add_witness :
  let w := Examples.world [Examples.line "wig-2" 1 None;
                           Examples.line "wig-1" 1 (Some 9)] [] in
  let k := Some "wig-1" in
  exists w1 w2,
    addToCart APIService.api (Examples.product "wig-1" (Some 9)) 2 w = (Ok true, w1) /\
    addToCart APIService.api (Examples.product "wig-1" (Some 9)) 3 w1 = (Ok true, w2) /\
    length (lines (cart w2) k) = 1%nat /\
    line_quantity (cart w2) k = 1 + 2 + 3 /\
    length (cart w2) = 2%nat.
Proof.
  intros w k.
  destruct (idempotent_add APIService.api w (Examples.product "wig-1" (Some 9)) 2 3)
    as (w1 & w2 & H1 & H2 & Hone & Hq & Hwf).
  - split.
    + repeat (constructor; [reflexivity |]). constructor.
    + apply (bool_decide_unpack _). vm_compute. exact I.
  - reflexivity.
  - vm_compute. discriminate.
  - lia.
  - lia.
  - reflexivity.
  - reflexivity.
  - exists w1, w2. repeat split; try assumption.
    pose proof (addToCart_run APIService.api (Examples.product "wig-1" (Some 9)) 2 w)
      as (w1' & Hr1 & Hc1).
    rewrite H1 in Hr1. assert (E1 : w1' = w1) by congruence. subst w1'.
    pose proof (addToCart_run APIService.api (Examples.product "wig-1" (Some 9)) 3 w1)
      as (w2' & Hr2 & Hc2).
    rewrite H2 in Hr2. assert (E2 : w2' = w2) by congruence. subst w2'.
    rewrite Hc2, Hc1. reflexivity.
Defined.

(** The specification's wording, with the product already in the cart: a line of 1,
    then two adds of 1 and 1, leave one line of 3, not of [1 + 1].  Nor is
    the line's quantity always the sum of the three: on a line of -5 an add
    of 2 brings the sum below 1, which removes the line, and an add of 3
    then leaves one line of 3. *)
Lemma idempotent_add_counterexample :
  let w := Examples.world [Examples.line "wig-1" 1 None] [] in
  let p := Examples.product "wig-1" None in
  let w1 := snd (addToCart APIService.api p 1 w) in
  let w2 := snd (addToCart APIService.api p 1 w1) in
  let v := Examples.world [Examples.line "wig-1" (-5) None] [] in
  let v1 := snd (addToCart APIService.api p 2 v) in
  let v2 := snd (addToCart APIService.api p 3 v1) in
  findCartItem (cart w) (Some "wig-1") = Some (Examples.line "wig-1" 1 None) /\
  fst (addToCart APIService.api p 1 w) = Ok true /\
  fst (addToCart APIService.api p 1 w1) = Ok true /\
  cart w2 = [Examples.line "wig-1" 3 None] /\
  line_quantity (cart w2) (Some "wig-1") <> 1 + 1 /\
  fst (addToCart APIService.api p 2 v) = Ok true /\
  cart v1 = [] /\
  fst (addToCart APIService.api p 3 v1) = Ok true /\
  cart v2 = [Examples.line "wig-1" 3 None] /\
  line_quantity (cart v2) (Some "wig-1") <> -5 + 2 + 3.
Proof. vm_compute. repeat split; discriminate. Qed.





(** The specification lets no operation bring a non-positive quantity into
    the cart.  [loadFromBackend] copies the backend's quantities as they
    are: a local line of 3 and a backend line of 0 for the same product
    leave a line of 0, which [validateCart] then reports. *)
Lemma quantity_floor_counterexample :
  let w := Examples.signed_in [Examples.line "A" 3 None]
             [Examples.answer 200
                (Resp.mk true None None None
                   (Some (Some [Examples.line "A" 0 None])) None None)] in
  let w' := snd (loadFromBackend APIService.api w) in
  positive (cart w) /\
  cart w' = [Examples.line "A" 0 None] /\
  ~ positive (cart w') /\
  fst (validateCart w') = Ok (false, ["Invalid quantity for A"]).
Proof.
  repeat split.
  - repeat constructor. simpl. lia.
  - intros H. inversion H as [| ? ? Hq _]. vm_compute in Hq. apply Hq. reflexivity.
Qed.

End CartClaims.

(** ** Checkout: gating and totals *)

Module CheckoutClaims.
Import CartService CheckoutService CheckoutSpec.

Section Claims.
Context (api : APIService.t) (V : Validators) (config : AppConfig).

(** [validateCart] reads the cart and nothing else: the world, and with it
    the trace of requests, is as it was. *)
Lemma validateCart_run w :
  validateCart w
  = (Ok match cart w with
        | [] => (false, ["Your cart is empty"])
        | _ => (bool_decide (flat_map item_errors (cart w) = []),
                flat_map item_errors (cart w))
        end, w).
Proof.
  unfold validateCart, bind, gets. simpl. destruct (cart w); reflexivity.
Qed.

Lemma validateCheckout_run w :
  validateCheckout V w
  = (Ok (bool_decide (checkout_errors V w = []), checkout_errors V w), w).
Proof.
  unfold validateCheckout. unfold bind at 1. rewrite validateCart_run.
  reflexivity.
Qed.

(** With a validation message pending, [createOrder] shows the messages,
    throws them, and leaves the world otherwise untouched: no request is
    sent. *)
Lemma createOrder_rejects w :
  checkout_errors V w <> [] ->
  createOrder api V config w
  = (Throw (Error (join ". " (checkout_errors V w))),
     notified (join ". " (checkout_errors V w)) "error" w).
Proof.
  intros Hne. unfold createOrder, try_catch. unfold bind at 1.
  rewrite validateCheckout_run. simpl.
  rewrite bool_decide_eq_false_2 by exact Hne. reflexivity.
Qed.

Lemma stock_message_listed c item s :
  In item c -> CartItem.stock item = Some s -> s < CartItem.quantity item ->
  In (CartItem.name item +:+ " - Only " +:+ show_Z s +:+ " items available")
     (flat_map item_errors c).
Proof.
  intros Hin Hs Hlt. apply in_flat_map. exists item. split; [exact Hin |].
  unfold item_errors. rewrite Hs. rewrite (proj2 (Z.ltb_lt _ _) Hlt).
  apply in_or_app. right. left. reflexivity.
Qed.

(** C1 (checkout gating), as the code has it.
    - With an empty cart [createOrder] throws a message that starts with
      ['Your cart is empty'] and sends nothing: the world after the call is
      the world before it plus the notification.
    - With a line whose quantity is above the stock count cached on that
      line, [createOrder] throws before posting; the message it throws and
      shows lists that line by name with the count available.
    - The check itself, [validateCart], sends no request: it returns its
      verdict in an unchanged world, from the [stock] field stored on each
      cart line. *)
Theorem checkout_gating (w : World) :
  (cart w = [] ->
   exists others,
     createOrder api V config w
     = (Throw (Error (join ". " ("Your cart is empty" :: others))),
        notified (join ". " ("Your cart is empty" :: others)) "error" w)) /\
  (forall item s,
      In item (cart w) -> CartItem.stock item = Some s ->
      s < CartItem.quantity item ->
      exists errors,
        createOrder api V config w
        = (Throw (Error (join ". " errors)), notified (join ". " errors) "error" w) /\
        In (CartItem.name item +:+ " - Only " +:+ show_Z s +:+ " items available")
           errors) /\
  snd (validateCart w) = w /\
  (forall w', cart w' = cart w -> fst (validateCart w') = fst (validateCart w)).
Proof.
  split; [| split; [| split]].
  - intros Hempty.
    assert (He : exists others, checkout_errors V w = "Your cart is empty" :: others).
    { unfold checkout_errors. rewrite Hempty. simpl. eexists. reflexivity. }
    destruct He as [others He]. exists others.
    rewrite createOrder_rejects; rewrite He; [reflexivity | discriminate].
  - intros item s Hin Hs Hlt. exists (checkout_errors V w).
    pose proof (stock_message_listed _ _ _ Hin Hs Hlt) as Hmsg.
    assert (Hlisted : In (CartItem.name item +:+ " - Only " +:+ show_Z s
                          +:+ " items available") (checkout_errors V w)).
    { unfold checkout_errors. destruct (cart w) as [| x c] eqn:Hc; [destruct Hin |].
      cbn [fst snd].
      rewrite bool_decide_eq_false_2
        by (intros E; rewrite E in Hmsg; destruct Hmsg).
      apply in_or_app. left. exact Hmsg. }
    split; [| exact Hlisted].
    apply createOrder_rejects. intros E. rewrite E in Hlisted. destruct Hlisted.
  - rewrite validateCart_run. reflexivity.
  - intros w' Hc. rewrite !validateCart_run. simpl. rewrite Hc. reflexivity.
Qed.

(** C6 (totals estimate), as the code has it.  With the VAT rate at 15%
    and the standard shipping method selected, for cart subtotal [S],
    discount [D], free-shipping threshold [T] and standard cost [C]:
    [total = (S - D) * 1.15 + (0 if S >= T else C)].  VAT applies to the
    discounted subtotal; shipping is free when the cart subtotal, before
    the discount, reaches the threshold. *)
Theorem totals_estimate (w : World) :
  (VAT_RATE config == 15 # 100)%Q ->
  shippingMethod (checkoutData w) = "standard" ->
  let S := getCartSubtotal (cart w) in
  let D := discount (checkoutData w) in
  exists t,
    calculateTotals config w = (Ok t, w) /\
    subtotal t = S /\
    (vat t == (S - D) * (15 # 100))%Q /\
    shipping t = (if Qle_bool (FREE_THRESHOLD config) S
                  then 0%Q else STANDARD_COST config) /\
    (total t == (S - D) * (115 # 100)
                + (if Qle_bool (FREE_THRESHOLD config) S
                   then 0 else STANDARD_COST config))%Q.
Proof.
  intros Hvat Hmethod S D.
  unfold calculateTotals, calculateShipping, bind, gets. simpl.
  fold S. rewrite Hmethod.
  destruct (Qle_bool (FREE_THRESHOLD config) S); simpl;
    (eexists; split; [reflexivity |]; simpl; fold S D;
     split; [reflexivity |];
     split; [rewrite Hvat; reflexivity |];
     split; [reflexivity |]; rewrite Hvat; ring).
Qed.

End Claims.

(** An empty cart, and a cart holding 3 of a wig of which 1 is in stock:
    neither reaches the orders endpoint. *)
Lemma checkout_gating_witness :
  let empty := set_checkoutData (Examples.checkout 0) (Examples.signed_in [] []) in
  let short :=
    set_checkoutData (Examples.checkout 0)
      (Examples.signed_in [Examples.line "wig-1" 3 (Some 1)] []) in
  (exists others,
      createOrder APIService.api Examples.lenient APP_CONFIG empty
      = (Throw (Error (join ". " ("Your cart is empty" :: others))),
         notified (join ". " ("Your cart is empty" :: others)) "error" empty)) /\
  (exists errors,
      createOrder APIService.api Examples.lenient APP_CONFIG short
      = (Throw (Error (join ". " errors)), notified (join ". " errors) "error" short) /\
      In "wig-1 - Only 1 items available" errors).
Proof.
  intros empty short. split.
  - destruct (checkout_gating APIService.api Examples.lenient APP_CONFIG empty)
      as (Hempty & _).
    exact (Hempty eq_refl).
  - destruct (checkout_gating APIService.api Examples.lenient APP_CONFIG short)
      as (_ & Hshort & _).
    apply (Hshort (Examples.line "wig-1" 3 (Some 1)) 1);
      [left; reflexivity | reflexivity | simpl; lia].
Defined.

(** The specification asks the check to fetch the stock of each item
    again.  It does not: on a cart of one line the check sends no request
    at all, and an order for 2 units is posted on the strength of the count
    cached on the line. *)
Lemma checkout_gating_counterexample :
  let w := set_checkoutData (Examples.checkout 0)
             (Examples.signed_in [Examples.line "wig-1" 2 (Some 5)] []) in
  cart w <> [] /\
  trace (snd (validateCart w)) = [] /\
  fst (validateCart w) = Ok (true, []) /\
  exists orderData,
    hd_error (trace (snd (createOrder APIService.api Examples.lenient APP_CONFIG w)))
    = Some (Fetch (Req.mk "POST" ENDPOINTS.orders (Some "Bearer tok")
                          (OrderBody orderData))).
Proof.
  vm_compute. split; [discriminate |]. split; [reflexivity |].
  split; [reflexivity |]. eexists. reflexivity.
Qed.


(** S = 1000, D = 100, T = 1500, C = 150: the total is 1185. *)
Lemma totals_estimate_witness :
  let w := set_checkoutData (Examples.checkout (100 # 1))
             (Examples.world [Examples.priced "wig-1" (500 # 1) 2] []) in
  exists t,
    calculateTotals APP_CONFIG w = (Ok t, w) /\
    (vat t == 135 # 1)%Q /\ shipping t = (150 # 1)%Q /\
    (total t == 1185 # 1)%Q.
Proof.
  intros w.
  destruct (totals_estimate APP_CONFIG w) as (t & Hr & Hs & Hv & Hsh & Ht).
  - reflexivity.
  - reflexivity.
  - exists t. split; [exact Hr |].
    split; [rewrite Hv; reflexivity |].
    split; [rewrite Hsh; reflexivity |].
    rewrite Ht. reflexivity.
Defined.

(** The specification makes shipping free when the discounted subtotal
    reaches the threshold.  With S = 1600, D = 200, T = 1500, C = 150 the
    discounted subtotal, 1400, is below the threshold, yet the code charges
    no shipping because the cart subtotal is above it: the total is 1610,
    not 1760. *)
Lemma totals_estimate_counterexample :
  let w := set_checkoutData (Examples.checkout (200 # 1))
             (Examples.world [Examples.priced "wig-1" (1600 # 1) 1] []) in
  let S := getCartSubtotal (cart w) in
  let D := discount (checkoutData w) in
  let T := FREE_THRESHOLD APP_CONFIG in
  let C := STANDARD_COST APP_CONFIG in
  exists t,
    calculateTotals APP_CONFIG w = (Ok t, w) /\
    (total t == 1610 # 1)%Q /\
    ~ (total t == (S - D) * (115 # 100)
                  + (if Qle_bool T (S - D) then 0 else C))%Q.
Proof.
  eexists. split; [cbv; reflexivity |]. split; [reflexivity |].
  vm_compute. discriminate.
Qed.

End CheckoutClaims.

(** ** Payment handoff *)

Module PaymentClaims.
Import APIService RequestSpec RequestFacts CheckoutPage PaymentSpec.

Lemma get_member (o : JS.Obj) k v :
  NoDup (keys o) -> In (k, v) o -> JS.get o k = Some v.
Proof.
  induction o as [| [k' v'] o IH]; simpl; [tauto |].
  intros Hn [Heq | Hin].
  - inversion Heq; subst. rewrite String.eqb_refl. reflexivity.
  - apply NoDup_cons in Hn as [Hnot Hn].
    destruct (String.eqb k' k) eqn:E.
    + apply String.eqb_eq in E. subst k'. exfalso. apply Hnot.
      apply list_elem_of_In. change k with (fst (k, v)). now apply in_map.
    + now apply IH.
Qed.

(** The inputs are exactly the pairs of the object other than [sandbox],
    each as a hidden input named by the key and valued [String(value)]. *)
Lemma payfast_inputs_exact (paymentData : JS.Obj) (i : Html.input) :
  NoDup (keys paymentData) ->
  In i (payfast_inputs paymentData) <->
  exists k v, In (k, v) paymentData /\ k <> "sandbox" /\
              i = Html.mkInput "hidden" k (to_string v).
Proof.
  intros Hn. unfold payfast_inputs. rewrite in_flat_map. split.
  - intros (key & Hkey & Hi).
    destruct (String.eqb key "sandbox") eqn:E; simpl in Hi; [destruct Hi |].
    destruct Hi as [<- | []].
    unfold keys in Hkey. apply in_map_iff in Hkey as ([k v] & <- & Hin).
    exists k, v. split; [exact Hin |].
    split; [now apply String.eqb_neq |].
    simpl. unfold prop_string. rewrite (get_member _ _ _ Hn Hin). reflexivity.
  - intros (k & v & Hin & Hne & ->). exists k. split.
    + unfold keys. change k with (fst (k, v)). now apply in_map.
    + rewrite (proj2 (String.eqb_neq _ _) Hne). simpl. left.
      unfold prop_string. rewrite (get_member _ _ _ Hn Hin). reflexivity.
Qed.

Lemma or_default_twice (a : option string) (d x : string) :
  d <> "" -> or_default (Some (or_default a d)) x = or_default a d.
Proof.
  intros Hd. unfold or_default.
  destruct a as [s |].
  - destruct (String.eqb s "") eqn:E.
    + rewrite (proj2 (String.eqb_neq _ _) Hd). reflexivity.
    + rewrite E. reflexivity.
  - rewrite (proj2 (String.eqb_neq _ _) Hd). reflexivity.
Qed.

Section Claims.
Context (api : APIService.t) (emailRegex_test : string -> bool).

(** A form that passes the checks, and the body [createOrder] returns for
    it: the world after the handler, before the timers run. *)
Lemma handleCheckoutSubmit_answered w formData currentUser termsCheckbox d w1 :
  submittable emailRegex_test formData currentUser termsCheckbox = true ->
  createOrder api (CheckoutBody formData) (set_trace (trace w ++ [Loading true]) w)
  = (Ok d, w1) ->
  handleCheckoutSubmit api emailRegex_test formData currentUser termsCheckbox w
  = (Ok tt,
     if Resp.success d || bool_decide (is_Some (Resp.data d))
     then
       match response_paymentData d with
       | Some paymentData =>
           set_trace (trace w1 ++
                      [Notify "Order created! Redirecting to payment..." "success";
                       Loading false])
             (set_timers (timers w1 ++ [(RedirectToPayFast paymentData, 1000)]) w1)
       | None =>
           set_trace (trace w1 ++
                      [Notify "Order created successfully!" "success";
                       Loading false])
             (set_timers (timers w1 ++ [(ShowOrderDetails (response_order d), 1500)]) w1)
       end
     else
       set_trace (trace w1 ++
                  [ConsoleError "Error creating order:";
                   Notify (or_default (Resp.message d) "Failed to create order") "error";
                   Loading false]) w1).
Proof.
  intros Hsub Hrun.
  unfold submittable in Hsub.
  repeat (apply andb_prop in Hsub as [Hsub ?]).
  unfold handleCheckoutSubmit.
  repeat match goal with
         | H : truthy_str ?x = true |- _ => rewrite H; clear H
         end.
  cbn [negb].
  assert (Hguest :
    (negb currentUser && negb (truthy_str (FormData.guestEmail formData)) = false) /\
    (negb currentUser && truthy_str (FormData.guestEmail formData)
     && negb (emailRegex_test (show_opt (FormData.guestEmail formData))) = false)).
  { destruct currentUser; simpl in *; [split; reflexivity |].
    match goal with
    | H : _ && _ = true |- _ => apply andb_prop in H as [-> ->]
    end. split; reflexivity. }
  destruct Hguest as [-> ->].
  assert (Hterms : match termsCheckbox with
                   | Some checked => negb checked
                   | None => false
                   end = false).
  { destruct termsCheckbox as [[] |]; simpl in *; congruence. }
  rewrite Hterms.
  unfold finally, try_catch. unfold bind at 1. unfold emit at 1, modify. cbn [fst snd].
  unfold bind at 1. rewrite Hrun.
  destruct (Resp.success d || bool_decide (is_Some (Resp.data d))).
  - destruct (response_paymentData d) as [paymentData |]; simpl;
      rewrite <- !app_assoc; reflexivity.
  - cbn -[or_default]. rewrite or_default_twice by discriminate.
    rewrite <- !app_assoc. reflexivity.
Qed.

(** C9 (payment handoff), as the code has it.  The form passes the page's
    checks, no other timer is pending, and [createOrder] returns the body
    [d], leaving the world [w1].  Once the queued timer has run:
    - when [d.success] or [d.data] is truthy and [d] carries a payment
      object, the page has shown its success message and submitted one
      form: the method is [POST], the action is the sandbox gateway when the
      object's [sandbox] member is truthy and the live gateway otherwise,
      and the fields are the hidden inputs of [payfast_inputs]; for an
      object (no key twice) these are exactly the members other than
      [sandbox], each with the member's key as name and, as value, the
      string the input holds once the member's value is assigned to it.
      Nothing is navigated to;
    - when [d.success] or [d.data] is truthy, [d] carries no payment object
      and carries an order, no form is submitted and the page navigates to
      the details of the order;
    - when [d.success] is truthy and [d] carries neither a payment object
      nor an order, the timer's callback throws: no form is submitted and
      nothing is navigated to;
    - when neither [d.success] nor [d.data] is truthy, whether [d] carries a
      payment object or not, the page shows an error, submits no form and
      navigates nowhere. *)
Theorem payment_handoff (w : World) (formData : FormData.t) (currentUser : bool)
        (termsCheckbox : option bool) (d : Resp.t) (w1 : World) :
  submittable emailRegex_test formData currentUser termsCheckbox = true ->
  timers w = [] ->
  createOrder api (CheckoutBody formData) (set_trace (trace w ++ [Loading true]) w)
  = (Ok d, w1) ->
  let accepted := Resp.success d || bool_decide (is_Some (Resp.data d)) in
  let settled :=
    snd (submit_and_settle api emailRegex_test formData currentUser termsCheckbox w) in
  (forall paymentData,
      accepted = true -> response_paymentData d = Some paymentData ->
      trace settled
      = trace w1 ++
        [Notify "Order created! Redirecting to payment..." "success";
         Loading false;
         FormSubmit
           (Html.mkForm "POST"
              (if truthy_prop paymentData "sandbox" then sandbox_url else live_url)
              (payfast_inputs paymentData))] /\
      (NoDup (keys paymentData) ->
       forall i, In i (payfast_inputs paymentData) <->
                 exists k v, In (k, v) paymentData /\ k <> "sandbox" /\
                             i = Html.mkInput "hidden" k (to_string v))) /\
  (accepted = true -> response_paymentData d = None ->
   forall id _id,
     response_order d = Some (id, _id) ->
     trace settled
     = trace w1 ++
       [Notify "Order created successfully!" "success";
        Loading false;
        Navigate ("/order-details.html?id=" +:+ show_opt (or_str id _id))]) /\
  (accepted = true -> response_paymentData d = None -> response_order d = None ->
   trace settled
   = trace w1 ++
     [Notify "Order created successfully!" "success";
      Loading false;
      ConsoleError "Uncaught"]) /\
  (accepted = false ->
   trace settled
   = trace w1 ++
     [ConsoleError "Error creating order:";
      Notify (or_default (Resp.message d) "Failed to create order") "error";
      Loading false]).
Proof.
  intros Hsub Htimers Hrun accepted settled.
  assert (Ht1 : timers w1 = []).
  { pose proof (keeps_post timers (fun _ _ => eq_refl) (fun _ _ => eq_refl)
                  (fun _ _ => eq_refl) api ENDPOINTS.orders (CheckoutBody formData)
                  true (set_trace (trace w ++ [Loading true]) w)) as Hk.
    unfold createOrder in Hrun. rewrite Hrun in Hk. simpl in Hk.
    rewrite Hk. exact Htimers. }
  pose proof (handleCheckoutSubmit_answered _ _ _ _ _ _ Hsub Hrun) as Hh.
  unfold settled, submit_and_settle, accepted.
  split; [| split; [| split]].
  - intros paymentData Hacc Hpd. unfold bind at 1. rewrite Hh, Hacc, Hpd.
    split; [| intros Hn i; apply (payfast_inputs_exact paymentData i Hn)].
    unfold run_timers, bind, gets, modify. simpl. rewrite Ht1. simpl.
    rewrite <- !app_assoc. reflexivity.
  - intros Hacc Hpd id _id Hord. unfold bind at 1. rewrite Hh, Hacc, Hpd, Hord.
    unfold run_timers, bind, gets, modify. simpl. rewrite Ht1. simpl.
    rewrite <- !app_assoc. reflexivity.
  - intros Hacc Hpd Hord. unfold bind at 1. rewrite Hh, Hacc, Hpd, Hord.
    unfold run_timers, bind, gets, modify. simpl. rewrite Ht1. simpl.
    rewrite <- !app_assoc. reflexivity.
  - intros Hacc. unfold bind at 1. rewrite Hh, Hacc.
    unfold run_timers, bind, gets, modify. simpl. rewrite Ht1. simpl.
    reflexivity.
Qed.

End Claims.

(** The theorem at work on the sample form, for five answers of the
    backend: a sandbox payment object (with a number, a boolean and a
    [null] among its values), a live one, an order without payment object,
    a bare [success], and a payment object in a body that has neither
    [success] nor [data]. *)
Lemma payment_handoff_witness :
  let order := Some (Order.mk (Some "1042") None) in
  last (Examples.settle (Examples.order_answer true order (Some Examples.payfast_sandbox)))
  = Some (FormSubmit
            (Html.mkForm "POST" "https://sandbox.payfast.co.za/eng/process"
               [Html.mkInput "hidden" "merchant_id" "10000100";
                Html.mkInput "hidden" "amount" "1185";
                Html.mkInput "hidden" "item_name" "Order 1042";
                Html.mkInput "hidden" "email_confirmation" "false";
                Html.mkInput "hidden" "custom_str1" ""])) /\
  last (Examples.settle (Examples.order_answer true order (Some Examples.payfast_live)))
  = Some (FormSubmit
            (Html.mkForm "POST" "https://www.payfast.co.za/eng/process"
               [Html.mkInput "hidden" "merchant_id" "10000100";
                Html.mkInput "hidden" "amount" "1185.00"])) /\
  last (Examples.settle (Examples.order_answer true order None))
  = Some (Navigate "/order-details.html?id=1042") /\
  last (Examples.settle (Examples.order_answer true None None))
  = Some (ConsoleError "Uncaught") /\
  last (Examples.settle (Examples.order_answer false order (Some Examples.payfast_sandbox)))
  = Some (Loading false).
Proof.
  intros order. unfold Examples.settle.
  split; [| split; [| split; [| split]]].
  - destruct (payment_handoff APIService.api (fun _ => true)
                (Examples.ordering (Examples.order_answer true order
                                      (Some Examples.payfast_sandbox)))
                Examples.checkout_form true (Some true) _ _
                eq_refl eq_refl eq_refl) as (Hpay & _).
    destruct (Hpay Examples.payfast_sandbox eq_refl eq_refl) as [-> _]. reflexivity.
  - destruct (payment_handoff APIService.api (fun _ => true)
                (Examples.ordering (Examples.order_answer true order
                                      (Some Examples.payfast_live)))
                Examples.checkout_form true (Some true) _ _
                eq_refl eq_refl eq_refl) as (Hpay & _).
    destruct (Hpay Examples.payfast_live eq_refl eq_refl) as [-> _]. reflexivity.
  - destruct (payment_handoff APIService.api (fun _ => true)
                (Examples.ordering (Examples.order_answer true order None))
                Examples.checkout_form true (Some true) _ _
                eq_refl eq_refl eq_refl) as (_ & Hnav & _).
    rewrite (Hnav eq_refl eq_refl (Some "1042") None eq_refl). reflexivity.
  - destruct (payment_handoff APIService.api (fun _ => true)
                (Examples.ordering (Examples.order_answer true None None))
                Examples.checkout_form true (Some true) _ _
                eq_refl eq_refl eq_refl) as (_ & _ & Hnone & _).
    rewrite (Hnone eq_refl eq_refl eq_refl). reflexivity.
  - destruct (payment_handoff APIService.api (fun _ => true)
                (Examples.ordering (Examples.order_answer false order
                                      (Some Examples.payfast_sandbox)))
                Examples.checkout_form true (Some true) _ _
                eq_refl eq_refl eq_refl) as (_ & _ & _ & Hrej).
    rewrite (Hrej eq_refl). reflexivity.
Defined.

(** Two answers for which the specification's sentence fails.  A body
    that carries a payment object and neither [success] nor [data] is
    treated as a failure: an error is shown and no form is submitted.  A
    body that has [success] and carries neither payment object nor order
    leads nowhere: the callback that should navigate throws. *)
Lemma payment_handoff_counterexample :
  let unaccepted := Examples.order_answer false None (Some Examples.payfast_sandbox) in
  let bare := Examples.order_answer true None None in
  response_paymentData unaccepted = Some Examples.payfast_sandbox /\
  handoffs (Examples.settle unaccepted) = [] /\
  TraceSpec.notifications (Examples.settle unaccepted)
  = [("Failed to create order", "error")] /\
  response_paymentData bare = None /\
  handoffs (Examples.settle bare) = [] /\
  last (Examples.settle bare) = Some (ConsoleError "Uncaught").
Proof. vm_compute. repeat split. Qed.

End PaymentClaims.

(** ** The request layer: attempts, waits and credentials *)

Module RequestProps.
Import APIService RequestSpec TraceSpec RequestFacts.

Lemma set_trace_nil w : set_trace (trace w ++ []) w = w.
Proof. destruct w. unfold set_trace. simpl. rewrite app_nil_r. reflexivity. Qed.

(** One attempt, whatever the network answers. *)
Lemma attempt_unfold method url data includeAuth w :
  attempt method url data includeAuth w
  = let req := Req.mk method url (header includeAuth w) data in
    let w1 := set_trace (trace w ++ [Fetch req]) w in
    match network w with
    | [] => (Throw (Error "Failed to fetch"), w1)
    | Responded r :: rest => handleResponse (Some r) (set_network rest w1)
    | Aborted :: rest =>
        (Throw (Error "Request timeout. Please try again."), set_network rest w1)
    | Failed m :: rest => (Throw (Error m), set_network rest w1)
    end.
Proof.
  unfold attempt, getHeaders, fetchWithTimeout, fetch, bind, gets, emit, modify, header.
  simpl. destruct (network w) as [| [r | | m] rest]; reflexivity.
Qed.

Lemma attempt_trace method url data includeAuth w :
  trace (snd (attempt method url data includeAuth w))
  = trace w ++ [Fetch (Req.mk method url (header includeAuth w) data)].
Proof.
  rewrite attempt_unfold. cbv zeta.
  destruct (network w) as [| [r | | m] rest]; try reflexivity.
  rewrite (keeps_handleResponse trace (fun _ _ => eq_refl)). reflexivity.
Qed.

Lemma attempt_token method url data includeAuth :
  keeps token (attempt method url data includeAuth).
Proof.
  intros w. rewrite attempt_unfold. cbv zeta.
  destruct (network w) as [| [r | | m] rest]; try reflexivity.
  rewrite (keeps_handleResponse token (fun _ _ => eq_refl)). reflexivity.
Qed.

Lemma attempt_network method url data includeAuth w :
  network (snd (attempt method url data includeAuth w)) = tail (network w).
Proof.
  rewrite attempt_unfold. cbv zeta.
  destruct (network w) as [| [r | | m] rest] eqn:E.
  - simpl. exact E.
  - rewrite (keeps_handleResponse network (fun _ _ => eq_refl)). reflexivity.
  - reflexivity.
  - reflexivity.
Qed.

Lemma header_token includeAuth w w' :
  token w' = token w -> header includeAuth w' = header includeAuth w.
Proof. unfold header. intros ->. reflexivity. Qed.

Section Loop.
Context (this : t) (method url : string) (data : Body) (includeAuth : bool).

(** The events of a retry loop: the same request again and again, with
    waits in between; never more requests than iterations. *)
Lemma retryLoop_trace attempts n :
  forall i lastError w,
    let req := Req.mk method url (header includeAuth w) data in
    exists evs,
      trace (snd (retryLoop this (attempt method url data includeAuth) attempts i n lastError w))
      = trace w ++ evs /\
      Forall (fun e => e = Fetch req \/ exists ms, e = Sleep ms) evs /\
      (Nat.min 1 n <= fetches evs <= n)%nat /\
      (n <> O -> head evs = Some (Fetch req)).
Proof.
  induction n as [| n IH]; intros i lastError w req; simpl retryLoop.
  - exists []. split; [simpl; rewrite app_nil_r; reflexivity |].
    split; [constructor |].
    split; [unfold fetches; simpl; lia |].
    intros H. congruence.
  - unfold try_catch.
    pose proof (attempt_trace method url data includeAuth w) as Ht.
    pose proof (attempt_token method url data includeAuth w) as Hk.
    fold req in Ht.
    assert (One : Forall (fun e => e = Fetch req \/ exists ms, e = Sleep ms)
                    [Fetch req] /\
                  (Nat.min 1 (S n) <= fetches [Fetch req] <= S n)%nat /\
                  (S n <> O -> head [Fetch req] = Some (Fetch req))).
    { split; [constructor; [left; reflexivity | constructor] |].
      split; [unfold fetches; simpl; lia | reflexivity]. }
    destruct ((attempt method url data includeAuth) w) as [[a | e] w1]; simpl in Ht, Hk.
    + exists [Fetch req]. split; [exact Ht | exact One].
    + destruct (no_retry e).
      * exists [Fetch req]. split; [exact Ht | exact One].
      * unfold bind.
        destruct (i <? attempts - 1); simpl.
        -- destruct (IH (i + 1) e (set_trace (trace w1 ++ [Sleep (retryDelay this * 2 ^ i)]) w1))
             as (evs & He & Hf & Hc & _).
           simpl in He.
           rewrite (header_token includeAuth w
                      (set_trace (trace w1 ++ [Sleep (retryDelay this * 2 ^ i)]) w1)
                      Hk) in Hf.
           exists (Fetch req :: Sleep (retryDelay this * 2 ^ i) :: evs).
           rewrite He, Ht. rewrite <- !app_assoc. simpl.
           split; [reflexivity |]. split; [| split; [| reflexivity]].
           ++ constructor; [left; reflexivity |].
              constructor; [right; eexists; reflexivity | exact Hf].
           ++ unfold fetches in *. simpl. lia.
        -- destruct (IH (i + 1) e w1) as (evs & He & Hf & Hc & _).
           rewrite (header_token includeAuth w _ Hk) in Hf.
           exists (Fetch req :: evs).
           rewrite He, Ht. rewrite <- !app_assoc. simpl.
           split; [reflexivity |]. split; [| split; [| reflexivity]].
           ++ constructor; [left; reflexivity | exact Hf].
           ++ unfold fetches in *. simpl. lia.
Qed.

(** With the network down every attempt fails and is retried. *)
Lemma retryLoop_offline attempts n :
  forall i lastError w,
    network w = [] ->
    retryLoop this (attempt method url data includeAuth) attempts i n lastError w
    = (Throw (match n with O => lastError | S _ => Error "Failed to fetch" end),
       set_trace
         (trace w ++ backoff (Req.mk method url (header includeAuth w) data)
                       (retryDelay this) attempts i n) w).
Proof.
  induction n as [| n IH]; intros i lastError w Hnet; simpl retryLoop.
  - simpl. rewrite set_trace_nil. reflexivity.
  - unfold try_catch. rewrite attempt_unfold. cbv zeta. rewrite Hnet.
    change (no_retry (Error "Failed to fetch")) with false. cbv iota.
    unfold bind. destruct (i <? attempts - 1) eqn:Hi; simpl.
    + rewrite IH by (simpl; exact Hnet). simpl. rewrite ?Hi.
      destruct n; simpl; rewrite <- ?app_assoc; reflexivity.
    + rewrite IH by (simpl; exact Hnet). simpl. rewrite ?Hi.
      destruct n; simpl; rewrite <- ?app_assoc; reflexivity.
Qed.
End Loop.

Lemma fetches_backoff req delay attempts k :
  forall i, fetches (backoff req delay attempts i k) = k.
Proof.
  unfold fetches. induction k as [| k IH]; intros i; simpl; [reflexivity |].
  rewrite List.filter_app, length_app, IH.
  destruct (i <? attempts - 1); simpl; lia.
Qed.

Lemma sleeps_backoff req delay attempts k :
  forall i,
    i + Z.of_nat k = attempts ->
    sleeps (backoff req delay attempts i k)
    = List.map (fun j => delay * 2 ^ (i + Z.of_nat j)) (seq 0 (k - 1)).
Proof.
  unfold sleeps. induction k as [| k IH]; intros i Hik; [reflexivity |].
  cbn [backoff flat_map]. rewrite flat_map_app.
  rewrite IH by lia.
  destruct k as [| k].
  - simpl. replace (i <? attempts - 1) with false by (symmetry; apply Z.ltb_ge; lia).
    reflexivity.
  - replace (i <? attempts - 1) with true by (symmetry; apply Z.ltb_lt; lia).
    replace (S (S k) - 1)%nat with (S k) by lia.
    replace (S k - 1)%nat with k by lia.
    cbn [flat_map app seq List.map].
    rewrite Z.add_0_r. f_equal.
    rewrite <- seq_shift, List.map_map.
    apply List.map_ext. intros j. f_equal. f_equal. lia.
Qed.

Lemma total_geometric delay k :
  total (List.map (fun j => delay * 2 ^ Z.of_nat j) (seq 0 k))
  = delay * (2 ^ Z.of_nat k - 1).
Proof.
  induction k as [| k IH].
  - simpl. lia.
  - rewrite seq_S, List.map_app. unfold total in *.
    rewrite fold_right_app. simpl.
    assert (G : forall l a, fold_right Z.add a l = fold_right Z.add 0 l + a).
    { induction l as [| x l IHl]; intros a; simpl; [lia | rewrite IHl; lia]. }
    rewrite G, IH. rewrite Nat2Z.inj_succ, Z.pow_succ_r by lia. lia.
Qed.


(** The request layer removes nothing from the store but the
    credentials. *)
Lemma handleResponse_storage response k w :
  k <> "authToken" -> k <> "user" ->
  localStorage (snd (handleResponse response w)) !! k = localStorage w !! k.
Proof.
  intros Ha Hu. unfold handleResponse.
  destruct response as [response |]; [| reflexivity].
  destruct (json response); [| destruct (ok response); reflexivity].
  destruct (negb (ok response)); [| reflexivity].
  repeat match goal with
         | |- context [if ?b then _ else _] => destruct b
         end; try reflexivity.
  simpl. rewrite !lookup_delete_ne by congruence. reflexivity.
Qed.

Lemma attempt_storage method url data includeAuth k :
  k <> "authToken" -> k <> "user" ->
  keeps (fun w => localStorage w !! k) (attempt method url data includeAuth).
Proof.
  intros Ha Hu w. rewrite attempt_unfold. cbv zeta.
  destruct (network w) as [| [r | | m] rest]; try reflexivity.
  rewrite handleResponse_storage by assumption. reflexivity.
Qed.

Lemma post_storage this url data includeAuth k :
  k <> "authToken" -> k <> "user" ->
  keeps (fun w => localStorage w !! k) (post this url data includeAuth).
Proof.
  intros Ha Hu. rewrite post_unfold. unfold retryRequest.
  apply keeps_retryLoop; [intros x w; reflexivity |].
  now apply attempt_storage.
Qed.

Lemma get_storage this url includeAuth k :
  k <> "authToken" -> k <> "user" ->
  keeps (fun w => localStorage w !! k) (get this url includeAuth).
Proof.
  intros Ha Hu. rewrite get_unfold. unfold retryRequest.
  apply keeps_retryLoop; [intros x w; reflexivity |].
  now apply attempt_storage.
Qed.

Lemma request_trace this method url data includeAuth w :
  let n := Z.to_nat (retryAttempts this) in
  let req := Req.mk method url (header includeAuth w) data in
  exists evs,
    trace (snd (retryRequest this (attempt method url data includeAuth)
                  (retryAttempts this) w)) = trace w ++ evs /\
    Forall (fun e => e = Fetch req \/ exists ms, e = Sleep ms) evs /\
    (Nat.min 1 n <= fetches evs <= n)%nat /\
    (1 <= retryAttempts this -> head evs = Some (Fetch req)).
Proof.
  intros n req. unfold retryRequest.
  destruct (retryLoop_trace this method url data includeAuth
              (retryAttempts this) n 0 Undefined w) as (evs & He & Hf & Hc & Hh).
  exists evs. split; [exact He |]. split; [exact Hf |]. split; [exact Hc |].
  intros Hn. apply Hh. unfold n. lia.
Qed.

(** X1 (bounded attempts).  Whatever the network answers, a [get] or a
    [post] adds to the trace nothing but one and the same request, sent
    again and again, and the waits between two attempts.  With [n] the
    number of attempts the service was built with, the request is sent at
    most [n] times, and at least once when [n] is positive. *)
Theorem attempts_bounded this url data includeAuth w :
  let n := Z.to_nat (retryAttempts this) in
  (exists evs,
      trace (snd (get this url includeAuth w)) = trace w ++ evs /\
      Forall (fun e => e = Fetch (Req.mk "GET" url (header includeAuth w) NoBody)
                       \/ exists ms, e = Sleep ms) evs /\
      (Nat.min 1 n <= fetches evs <= n)%nat) /\
  (exists evs,
      trace (snd (post this url data includeAuth w)) = trace w ++ evs /\
      Forall (fun e => e = Fetch (Req.mk "POST" url (header includeAuth w) data)
                       \/ exists ms, e = Sleep ms) evs /\
      (Nat.min 1 n <= fetches evs <= n)%nat).
Proof.
  intros n. split.
  - rewrite get_unfold.
    destruct (request_trace this "GET" url NoBody includeAuth w)
      as (evs & He & Hf & Hc & _).
    exists evs. auto.
  - rewrite post_unfold.
    destruct (request_trace this "POST" url data includeAuth w)
      as (evs & He & Hf & Hc & _).
    exists evs. auto.
Qed.

Lemma offline_loop this method url data includeAuth w :
  network w = [] ->
  1 <= retryAttempts this ->
  exists evs,
    retryRequest this (attempt method url data includeAuth) (retryAttempts this) w
    = (Throw (Error "Failed to fetch"), set_trace (trace w ++ evs) w) /\
    fetches evs = Z.to_nat (retryAttempts this) /\
    sleeps evs = List.map (fun j => retryDelay this * 2 ^ Z.of_nat j)
                   (seq 0 (Z.to_nat (retryAttempts this) - 1)) /\
    total (sleeps evs) = retryDelay this * (2 ^ (retryAttempts this - 1) - 1).
Proof.
  intros Hnet Hn. unfold retryRequest.
  rewrite retryLoop_offline by exact Hnet.
  exists (backoff (Req.mk method url (header includeAuth w) data)
            (retryDelay this) (retryAttempts this) 0
            (Z.to_nat (retryAttempts this))).
  split; [| split; [| split]].
  - destruct (Z.to_nat (retryAttempts this)) eqn:E; [lia | reflexivity].
  - apply fetches_backoff.
  - rewrite sleeps_backoff by lia. reflexivity.
  - rewrite sleeps_backoff by lia. simpl Z.add.
    rewrite total_geometric. f_equal. f_equal. f_equal. lia.
Qed.

(** X2 (giving up when offline).  With the network down and at least one
    attempt configured, [get] and [post] make exactly [retryAttempts]
    attempts, wait [retryDelay * 2^j] after attempt [j] for every attempt
    but the last, and throw the error of the last attempt, the trace being
    all that changed.  The waits add up to
    [retryDelay * (2^(retryAttempts - 1) - 1)]. *)
Theorem offline_request_gives_up this url data includeAuth w :
  network w = [] ->
  1 <= retryAttempts this ->
  let n := Z.to_nat (retryAttempts this) in
  let waits := List.map (fun j => retryDelay this * 2 ^ Z.of_nat j) (seq 0 (n - 1)) in
  (exists evs,
      get this url includeAuth w
      = (Throw (Error "Failed to fetch"), set_trace (trace w ++ evs) w) /\
      fetches evs = n /\ sleeps evs = waits) /\
  (exists evs,
      post this url data includeAuth w
      = (Throw (Error "Failed to fetch"), set_trace (trace w ++ evs) w) /\
      fetches evs = n /\ sleeps evs = waits) /\
  total waits = retryDelay this * (2 ^ (retryAttempts this - 1) - 1).
Proof.
  intros Hnet Hn n waits. split; [| split].
  - destruct (offline_loop this "GET" url NoBody includeAuth w Hnet Hn)
      as (evs & Hr & Hf & Hs & _).
    exists evs. auto.
  - destruct (offline_loop this "POST" url data includeAuth w Hnet Hn)
      as (evs & Hr & Hf & Hs & _).
    exists evs. auto.
  - destruct (offline_loop this "GET" url NoBody includeAuth w Hnet Hn)
      as (evs & _ & _ & Hs & Ht).
    rewrite Hs in Ht. exact Ht.
Qed.

(** What a failed [fetch] turns into, and whether it is tried again. *)
Lemma retry_after_failure this method url data includeAuth w f r d rest :
  network w = f :: Responded r :: rest ->
  match f with
  | Responded _ => False
  | Aborted => True
  | Failed m => no_retry (Error m) = false
  end ->
  json r = Some d ->
  ok r = true ->
  2 <= retryAttempts this ->
  let req := Req.mk method url (header includeAuth w) data in
  retryRequest this (attempt method url data includeAuth) (retryAttempts this) w
  = (Ok d,
     set_network rest
       (set_trace (trace w ++ [Fetch req; Sleep (retryDelay this); Fetch req]) w)).
Proof.
  intros Hnet Hf Hjson Hok Hn req. unfold retryRequest.
  destruct (Z.to_nat (retryAttempts this)) as [| [| n]] eqn:E; [lia | lia |].
  simpl retryLoop. unfold try_catch at 1.
  rewrite attempt_unfold. cbv zeta. rewrite Hnet.
  assert (Hlt : (0 <? retryAttempts this - 1) = true) by (apply Z.ltb_lt; lia).
  assert (Hone : retryDelay this * 2 ^ 0 = retryDelay this) by (simpl; lia).
  destruct f as [r0 | | m]; [contradiction | |].
  - change (no_retry (Error "Request timeout. Please try again.")) with false.
    cbv iota. rewrite Hlt. unfold bind at 1. simpl emit. unfold emit, modify.
    rewrite Hone. unfold try_catch.
    erewrite attempt_ok; [| reflexivity | exact Hjson | exact Hok].
    unfold sent. simpl. rewrite <- !app_assoc. reflexivity.
  - rewrite Hf. rewrite Hlt. unfold bind at 1. unfold emit, modify.
    rewrite Hone. unfold try_catch.
    erewrite attempt_ok; [| reflexivity | exact Hjson | exact Hok].
    unfold sent. simpl. rewrite <- !app_assoc. reflexivity.
Qed.

(** X3 (a failed fetch is tried again).  With at least two attempts
    configured: when the first [fetch] times out, or is rejected with a
    message the retry loop does not take for a client error, and the second
    one is answered by a 2xx response with a JSON body, [get] returns that
    body: it has sent the request twice, with one wait of [retryDelay] in
    between. *)
Theorem failed_fetch_is_retried this url includeAuth w f r d rest :
  network w = f :: Responded r :: rest ->
  match f with
  | Responded _ => False
  | Aborted => True
  | Failed m => no_retry (Error m) = false
  end ->
  json r = Some d ->
  ok r = true ->
  2 <= retryAttempts this ->
  let req := Req.mk "GET" url (header includeAuth w) NoBody in
  get this url includeAuth w
  = (Ok d,
     set_network rest
       (set_trace (trace w ++ [Fetch req; Sleep (retryDelay this); Fetch req]) w)).
Proof.
  intros Hnet Hf Hjson Hok Hn req. rewrite get_unfold.
  now apply (retry_after_failure this "GET" url NoBody includeAuth w f r d rest).
Qed.

(** X4 (session expiry).  With at least one attempt configured, a 401
    answer with a JSON body is not tried again: [get] throws
    [Session expired. Please login again.] after a single request.  The entries [authToken] and [user] are removed from the
    store and the rest of it is kept; the token the service holds in memory
    is kept too. *)
Theorem unauthorized_drops_credentials this url includeAuth w r d rest :
  network w = Responded r :: rest ->
  status r = 401 ->
  json r = Some d ->
  1 <= retryAttempts this ->
  exists w',
    get this url includeAuth w
    = (Throw (Error "Session expired. Please login again."), w') /\
    trace w' = trace w ++ [Fetch (Req.mk "GET" url (header includeAuth w) NoBody)] /\
    network w' = rest /\
    localStorage w' = delete "user" (delete "authToken" (localStorage w)) /\
    token w' = token w.
Proof.
  intros Hnet Hst Hjson Hn. rewrite get_unfold. unfold retryRequest.
  destruct (Z.to_nat (retryAttempts this)) as [| n] eqn:E; [lia |].
  simpl retryLoop. unfold try_catch.
  rewrite attempt_unfold. cbv zeta. rewrite Hnet.
  unfold handleResponse. rewrite Hjson.
  unfold ok. rewrite Hst. simpl.
  eexists. split; [reflexivity |]. simpl. auto.
Qed.

Lemma session_prefix s : String.eqb ("session_" +:+ s) "" = false.
Proof. reflexivity. Qed.

(** X5 (one session id).  [getOrCreateSessionId] returns a non-empty id
    that is in the store afterwards, and a second call returns the same id
    and changes nothing.  A truthy id found in the store is returned with
    the world untouched; otherwise the new id is added to the store and
    nothing else changes. *)
Theorem session_id_stable w :
  exists s w1,
    getOrCreateSessionId w = (Ok s, w1) /\
    s <> "" /\
    localStorage w1 !! "sessionId" = Some s /\
    getOrCreateSessionId w1 = (Ok s, w1) /\
    w1 = (if truthy_str (localStorage w !! "sessionId") then w
          else set_localStorage (<["sessionId" := s]> (localStorage w)) w).
Proof.
  unfold getOrCreateSessionId, getItem, bind, gets. simpl.
  destruct (localStorage w !! "sessionId") as [s |] eqn:Hs; simpl.
  - destruct (String.eqb s "") eqn:He; simpl.
    + eexists. eexists. split; [reflexivity |]. simpl.
      rewrite lookup_insert. rewrite decide_True by reflexivity. simpl.
      split; [intros H; discriminate |]. auto.
    + exists s, w. rewrite Hs. simpl. rewrite He. simpl.
      split; [reflexivity |]. split; [apply String.eqb_neq; exact He |]. auto.
  - eexists. eexists. split; [reflexivity |]. simpl.
    rewrite lookup_insert. rewrite decide_True by reflexivity. simpl.
    split; [intros H; discriminate |]. auto.
Qed.

(** X6 (logout).  [logout] forgets the token held in memory and removes
    [authToken], [user] and [sessionId] from the store, so that the next
    request carries no [Authorization] header, and sends the browser to the
    sign-in page.  The cart is kept, in memory and in storage, and the next
    [getOrCreateSessionId] makes a new session id. *)
Theorem logout_forgets_session w :
  exists w',
    logout w = (Ok tt, w') /\
    token w' = None /\
    localStorage w' !! "authToken" = None /\
    localStorage w' !! "user" = None /\
    localStorage w' !! "sessionId" = None /\
    header true w' = None /\
    cart w' = cart w /\
    storedCart w' = storedCart w /\
    trace w' = trace w ++ [Navigate "/login.html"] /\
    fst (getOrCreateSessionId w')
    = Ok ("session_" +:+ show_Z (clock w) +:+ "_" +:+ entropy w).
Proof.
  eexists. split; [reflexivity |]. simpl.
  unfold getOrCreateSessionId, getItem, bind, gets. simpl.
  assert (Hs : forall m : gmap string string,
             delete "sessionId" (delete "user" (delete "authToken" m))
             !! "sessionId" = None)
    by (intros m; apply lookup_delete_eq).
  assert (Hu : forall m : gmap string string,
             delete "sessionId" (delete "user" (delete "authToken" m))
             !! "user" = None).
  { intros m. rewrite lookup_delete_ne by discriminate. apply lookup_delete_eq. }
  assert (Ha : forall m : gmap string string,
             delete "sessionId" (delete "user" (delete "authToken" m))
             !! "authToken" = None).
  { intros m. rewrite !lookup_delete_ne by discriminate. apply lookup_delete_eq. }
  rewrite Hs, Hu, Ha. simpl. repeat split; reflexivity.
Qed.

(** X7 (a failed merge keeps the guest session).  With a guest session id
    in the store and a token held: when the merge request of [mergeCart]
    throws, [mergeCart] still returns normally, having logged the failure,
    and the guest session id is still in the store. *)
Theorem failed_merge_keeps_session this w e w1 :
  truthy_str (localStorage w !! "sessionId") = true ->
  truthy_str (token w) = true ->
  post this (ENDPOINTS.cart +:+ "/merge")
       (MergeBody (show_opt (localStorage w !! "sessionId"))) true w
  = (Throw e, w1) ->
  mergeCart this w
  = (Ok tt, set_trace (trace w1 ++ [ConsoleError "Cart merge failed:"]) w1) /\
  localStorage w1 !! "sessionId" = localStorage w !! "sessionId".
Proof.
  intros Hs Ht Hp. split.
  - unfold mergeCart, getItem, bind, gets. simpl. rewrite Hs, Ht. simpl.
    unfold try_catch, bind. rewrite Hp. reflexivity.
  - pose proof (post_storage this (ENDPOINTS.cart +:+ "/merge")
                  (MergeBody (show_opt (localStorage w !! "sessionId"))) true
                  "sessionId" ltac:(discriminate) ltac:(discriminate) w) as H.
    rewrite Hp in H. exact H.
Qed.

(** *** On sample data *)

Lemma offline_request_gives_up_witness :
  exists evs,
    post api ENDPOINTS.cart (CartBody []) true (Examples.world [] [])
    = (Throw (Error "Failed to fetch"),
       set_trace (trace (Examples.world [] []) ++ evs) (Examples.world [] [])) /\
    fetches evs = 3%nat /\
    sleeps evs = [1000; 2000].
Proof.
  destruct (offline_request_gives_up api ENDPOINTS.cart (CartBody []) true
              (Examples.world [] []) eq_refl ltac:(vm_compute; discriminate))
    as (_ & (evs & Hr & Hf & Hs) & _).
  exists evs. split; [exact Hr |]. split; [exact Hf | exact Hs].
Defined.

Lemma failed_fetch_is_retried_witness :
  let w := Examples.world [] [Aborted; Examples.answer 200 (Examples.body true None)] in
  let req := Req.mk "GET" ENDPOINTS.cart None NoBody in
  get api ENDPOINTS.cart false w
  = (Ok (Examples.body true None),
     set_network []
       (set_trace (trace w ++ [Fetch req; Sleep 1000; Fetch req]) w)).
Proof.
  intros w req.
  exact (failed_fetch_is_retried api ENDPOINTS.cart false w Aborted
           (mkResponse 200 (Some (Examples.body true None)))
           (Examples.body true None) [] eq_refl I eq_refl eq_refl
           ltac:(vm_compute; discriminate)).
Defined.

Lemma unauthorized_drops_credentials_witness :
  let w := Examples.signed_in [] [Examples.answer 401 (Examples.body false None)] in
  exists w',
    get api ENDPOINTS.cart true w
    = (Throw (Error "Session expired. Please login again."), w') /\
    localStorage w' !! "authToken" = None /\
    token w' = Some "tok".
Proof.
  intros w.
  destruct (unauthorized_drops_credentials api ENDPOINTS.cart true w
              (mkResponse 401 (Some (Examples.body false None)))
              (Examples.body false None) [] eq_refl eq_refl eq_refl
              ltac:(vm_compute; discriminate))
    as (w' & Hr & _ & _ & Hl & Ht).
  exists w'. split; [exact Hr |]. split; [rewrite Hl; reflexivity | exact Ht].
Defined.

Lemma failed_merge_keeps_session_witness :
  let w := Samples.returning [] in
  fst (mergeCart api w) = Ok tt /\
  localStorage (snd (mergeCart api w)) !! "sessionId" = Some "S1".
Proof.
  intros w.
  destruct (failed_merge_keeps_session api w (Error "Failed to fetch")
              (snd (post api (ENDPOINTS.cart +:+ "/merge") (MergeBody "S1") true w))
              eq_refl eq_refl eq_refl)
    as [Hr Hs].
  rewrite Hr. split; [reflexivity |]. simpl. exact Hs.
Defined.

End RequestProps.

(** ** Signing in: the guest cart merge *)

Module MergeClaims.
Import APIService RequestSpec RequestFacts MergeSpec TraceSpec.

Section Runs.
Context (api : APIService.t).
Context (attempts_positive : 1 <= retryAttempts api).

Lemma header_signed_in w t :
  token w = Some t -> truthy_str (Some t) = true ->
  header true w = Some ("Bearer " +:+ t).
Proof. intros Ht Htr. unfold header. rewrite Ht, Htr. reflexivity. Qed.

(** A login answered with a token stores the token. *)
Lemma login_run w email password r d t rest :
  network w = Responded r :: rest -> json r = Some d -> ok r = true ->
  Resp.token d = Some t -> truthy_str (Some t) = true ->
  login api email password w
  = (Ok d,
     set_localStorage (<["authToken" := t]> (localStorage w))
       (set_token (Some t)
          (sent (Req.mk "POST" ENDPOINTS.login None (LoginBody email password))
                rest w))).
Proof.
  intros Hnet Hjson Hok Ht Htr. unfold login. unfold bind at 1.
  rewrite (post_ok api _ _ _ _ _ _ _ attempts_positive Hnet Hjson Hok).
  unfold store_token, response_token. rewrite Ht, Htr. reflexivity.
Qed.

Lemma register_run w name email password r d t rest :
  network w = Responded r :: rest -> json r = Some d -> ok r = true ->
  Resp.token d = Some t -> truthy_str (Some t) = true ->
  register api name email password w
  = (Ok d,
     set_localStorage (<["authToken" := t]> (localStorage w))
       (set_token (Some t)
          (sent (Req.mk "POST" ENDPOINTS.register None
                        (RegisterBody name email password))
                rest w))).
Proof.
  intros Hnet Hjson Hok Ht Htr. unfold register. unfold bind at 1.
  rewrite (post_ok api _ _ _ _ _ _ _ attempts_positive Hnet Hjson Hok).
  unfold store_token, response_token. rewrite Ht, Htr. reflexivity.
Qed.

(** A merge that the backend accepts drops the session id from storage. *)
Lemma mergeCart_run w s t r d rest :
  localStorage w !! "sessionId" = Some s -> truthy_str (Some s) = true ->
  token w = Some t -> truthy_str (Some t) = true ->
  network w = Responded r :: rest -> json r = Some d -> ok r = true ->
  mergeCart api w
  = (Ok tt,
     set_localStorage (delete "sessionId" (localStorage w))
       (sent (Req.mk "POST" (ENDPOINTS.cart +:+ "/merge")
                     (Some ("Bearer " +:+ t)) (MergeBody s))
             rest w)).
Proof.
  intros Hs Hstr Ht Htr Hnet Hjson Hok.
  unfold mergeCart, getItem, bind at 1 2, gets. simpl.
  rewrite Hs, Ht, Hstr, Htr. simpl.
  unfold try_catch, bind.
  rewrite (post_ok api _ _ _ _ _ _ _ attempts_positive Hnet Hjson Hok).
  rewrite (header_signed_in _ _ Ht Htr). reflexivity.
Qed.

(** Without a session id in storage [getCart] makes one up, stores it and
    sends it along. *)
Lemma getCart_run w t r d rest :
  localStorage w !! "sessionId" = None ->
  token w = Some t -> truthy_str (Some t) = true ->
  network w = Responded r :: rest -> json r = Some d -> ok r = true ->
  let sessionId := "session_" +:+ show_Z (clock w) +:+ "_" +:+ entropy w in
  getCart api w
  = (Ok d,
     sent (Req.mk "GET" (ENDPOINTS.cart +:+ "?sessionId=" +:+ sessionId)
                  (Some ("Bearer " +:+ t)) NoBody)
          rest
          (set_localStorage (<["sessionId" := sessionId]> (localStorage w)) w)).
Proof.
  intros Hs Ht Htr Hnet Hjson Hok sessionId.
  unfold getCart, getOrCreateSessionId, getItem, setItem.
  unfold bind at 1 2, gets. simpl. rewrite Hs. simpl.
  unfold bind at 1. simpl. rewrite Ht, Htr.
  erewrite get_ok; [| exact attempts_positive | exact Hnet | exact Hjson | exact Hok].
  unfold header. simpl. rewrite Ht, Htr. reflexivity.
Qed.

(** A login the backend answers without [success], [data] or [token] is a
    failed login: no merge request follows and the session id stays. *)
Lemma failed_login_no_merge (w : World) (email password : string)
      (redirect : option string) (r1 : Response) (d1 : Resp.t)
      (rest : list FetchResult) :
  trim email <> "" -> password <> "" ->
  network w = Responded r1 :: rest -> json r1 = Some d1 -> ok r1 = true ->
  Resp.success d1 = false -> Resp.data d1 = None -> Resp.token d1 = None ->
  exists w1,
    LoginPage.handleLogin api (Some email) (Some password) redirect w = (Ok tt, w1) /\
    trace w1 = trace w ++
               [Loading true;
                Fetch (Req.mk "POST" ENDPOINTS.login None
                              (LoginBody (trim email) password));
                ConsoleError "Login error:";
                Notify (or_default
                          (Some (or_default (Resp.message d1) "Login failed"))
                          "Login failed. Please check your credentials.") "error";
                Loading false] /\
    localStorage w1 = localStorage w.
Proof.
  intros He Hp Hnet Hj1 Hok1 Hsucc Hdata Htok.
  unfold LoginPage.handleLogin.
  rewrite (proj2 (String.eqb_neq _ _) He), (proj2 (String.eqb_neq _ _) Hp).
  unfold finally, try_catch. unfold bind at 1. unfold emit at 1, modify. cbn [fst snd].
  unfold bind at 1. unfold login. unfold bind at 1.
  erewrite post_ok;
    [| exact attempts_positive | simpl; exact Hnet | exact Hj1 | exact Hok1].
  unfold store_token, response_token. rewrite Htok, Hdata. simpl.
  unfold bind at 1 2. simpl. rewrite Htok, Hdata, Hsucc. simpl.
  eexists. split; [reflexivity |].
  split; [simpl; rewrite <- !app_assoc; reflexivity | reflexivity].
Qed.

End Runs.

Section Claims.
Context (api : APIService.t) (emailRegex_test : string -> bool).

(** What one call of [mergeCart] does. *)
Lemma mergeCart_total w : fst (mergeCart api w) = Ok tt.
Proof.
  unfold mergeCart, getItem. unfold bind at 1. unfold gets at 1.
  unfold bind at 1. unfold gets at 1.
  destruct (truthy_str (localStorage w !! "sessionId") && truthy_str (token w));
    [| reflexivity].
  unfold try_catch. unfold bind at 1.
  destruct (post api _ _ _ w) as [[r | e] w1]; reflexivity.
Qed.

Lemma mergeCart_idle w :
  truthy_str (localStorage w !! "sessionId") && truthy_str (token w) = false ->
  mergeCart api w = (Ok tt, w).
Proof.
  intros H. unfold mergeCart, getItem. unfold bind at 1. unfold gets at 1.
  unfold bind at 1. unfold gets at 1. rewrite H. reflexivity.
Qed.

Lemma mergeCart_accepted w d2 w2 :
  truthy_str (localStorage w !! "sessionId") = true ->
  truthy_str (token w) = true ->
  post api (ENDPOINTS.cart +:+ "/merge")
       (MergeBody (show_opt (localStorage w !! "sessionId"))) true w
  = (Ok d2, w2) ->
  mergeCart api w
  = (Ok tt, set_localStorage (delete "sessionId" (localStorage w2)) w2).
Proof.
  intros Hs Ht Hp. unfold mergeCart, getItem. unfold bind at 1. unfold gets at 1.
  unfold bind at 1. unfold gets at 1. rewrite Hs, Ht. cbn [andb].
  unfold try_catch. unfold bind at 1. rewrite Hp. reflexivity.
Qed.

Lemma mergeCart_trace w :
  let mergeReq :=
    Req.mk "POST" (ENDPOINTS.cart +:+ "/merge") (header true w)
           (MergeBody (show_opt (localStorage w !! "sessionId"))) in
  exists evs,
    trace (snd (mergeCart api w)) = trace w ++ evs /\
    Forall (fun e => e = Fetch mergeReq \/ (exists ms, e = Sleep ms) \/
                     e = ConsoleError "Cart merge failed:") evs /\
    (fetches evs <= Z.to_nat (retryAttempts api))%nat.
Proof.
  intros mergeReq.
  unfold mergeCart, getItem. unfold bind at 1. unfold gets at 1.
  unfold bind at 1. unfold gets at 1.
  destruct (truthy_str (localStorage w !! "sessionId") && truthy_str (token w)).
  2: { exists []. simpl. rewrite app_nil_r.
       split; [reflexivity |]. split; [constructor | unfold fetches; simpl; lia]. }
  unfold try_catch. unfold bind at 1.
  destruct (RequestProps.request_trace api "POST" (ENDPOINTS.cart +:+ "/merge")
              (MergeBody (show_opt (localStorage w !! "sessionId"))) true w)
    as (evs & He & Hf & Hc & _).
  rewrite <- post_unfold in He. fold mergeReq in Hf.
  assert (Hf' : Forall (fun e => e = Fetch mergeReq \/ (exists ms, e = Sleep ms) \/
                                 e = ConsoleError "Cart merge failed:") evs).
  { eapply List.Forall_impl; [| exact Hf]. intros a [Ha | Ha]; auto. }
  destruct (post api _ _ _ w) as [[r | e] w1]; simpl in He |- *.
  - exists evs. split; [exact He |]. split; [exact Hf' | lia].
  - exists (evs ++ [ConsoleError "Cart merge failed:"]).
    rewrite He, app_assoc. split; [reflexivity |].
    split.
    + apply Forall_app. split; [exact Hf' |]. constructor; [auto | constructor].
    + unfold fetches in *. rewrite List.filter_app, length_app. simpl. lia.
Qed.

(** The handlers, once the sign-in request has returned a body the page
    takes for a success. *)
Lemma handleLogin_merges w email password redirect d w1 :
  trim email <> "" -> password <> "" ->
  Resp.success d || bool_decide (is_Some (Resp.data d)) || truthy_str (Resp.token d)
  = true ->
  login api (trim email) password (set_trace (trace w ++ [Loading true]) w)
  = (Ok d, w1) ->
  LoginPage.handleLogin api (Some email) (Some password) redirect w
  = (Ok tt,
     let merged := snd (mergeCart api w1) in
     set_trace (trace merged ++
                [Notify "Login successful! Redirecting..." "success"; Loading false])
       (set_timers
          (timers merged ++ [(Redirect (or_default redirect "/index.html"), 1000)])
          merged)).
Proof.
  intros He Hp Hsucc Hrun.
  unfold LoginPage.handleLogin.
  rewrite (proj2 (String.eqb_neq _ _) He), (proj2 (String.eqb_neq _ _) Hp).
  unfold finally, try_catch. unfold bind at 1. unfold emit at 1, modify. cbn [fst snd].
  unfold bind at 1. rewrite Hrun, Hsucc. unfold bind at 1.
  pose proof (mergeCart_total w1) as Hm.
  destruct (mergeCart api w1) as [[[] | e] w2]; simpl in Hm; [| discriminate].
  simpl. rewrite <- !app_assoc. reflexivity.
Qed.

Lemma handleRegister_merges w name email password confirmPassword d w1 :
  registrable emailRegex_test name email password confirmPassword = true ->
  Resp.success d || bool_decide (is_Some (Resp.data d)) || truthy_str (Resp.token d)
  = true ->
  register api (trim name) (trim email) password
           (set_trace (trace w ++ [Loading true]) w)
  = (Ok d, w1) ->
  LoginPage.handleRegister api emailRegex_test (Some name) (Some email)
                           (Some password) confirmPassword w
  = (Ok tt,
     let merged := snd (mergeCart api w1) in
     set_trace (trace merged ++
                [Notify "Account created successfully! Redirecting..." "success";
                 Loading false])
       (set_timers (timers merged ++ [(Redirect "/index.html", 1000)]) merged)).
Proof.
  intros Hreg Hsucc Hrun.
  unfold registrable in Hreg.
  repeat (apply andb_prop in Hreg as [Hreg ?]).
  unfold LoginPage.handleRegister.
  repeat match goal with
         | H : negb ?b = true |- _ => apply negb_true_iff in H; rewrite H; clear H
         end.
  match goal with
  | H : emailRegex_test _ = true |- _ => rewrite H; clear H
  end.
  cbn [negb].
  assert (Hconfirm : match confirmPassword with
                     | Some confirm => negb (String.eqb password confirm)
                     | None => false
                     end = false).
  { destruct confirmPassword as [c |]; [| reflexivity].
    match goal with
    | H : String.eqb password c = true |- _ => rewrite H
    end. reflexivity. }
  rewrite Hconfirm.
  unfold finally, try_catch. unfold bind at 1. unfold emit at 1, modify. cbn [fst snd].
  unfold bind at 1. rewrite Hrun, Hsucc. unfold bind at 1.
  pose proof (mergeCart_total w1) as Hm.
  destruct (mergeCart api w1) as [[[] | e] w2]; simpl in Hm; [| discriminate].
  simpl. rewrite <- !app_assoc. reflexivity.
Qed.

(** Without a session id in storage [getCart] makes one up and stores it
    before it sends its request. *)
Lemma getCart_fresh v :
  truthy_str (localStorage v !! "sessionId") = false ->
  let fresh := "session_" +:+ show_Z (clock v) +:+ "_" +:+ entropy v in
  getCart api v
  = get api (ENDPOINTS.cart +:+ "?sessionId=" +:+ fresh) (truthy_str (token v))
        (set_localStorage (<["sessionId" := fresh]> (localStorage v)) v) /\
  localStorage (snd (getCart api v)) !! "sessionId" = Some fresh.
Proof.
  intros Hs fresh.
  assert (Hg : getCart api v
               = get api (ENDPOINTS.cart +:+ "?sessionId=" +:+ fresh)
                     (truthy_str (token v))
                     (set_localStorage (<["sessionId" := fresh]> (localStorage v)) v)).
  { unfold getCart, getOrCreateSessionId, getItem, setItem.
    unfold bind at 1 2, gets. simpl. rewrite Hs. simpl.
    unfold bind at 1. reflexivity. }
  split; [exact Hg |]. rewrite Hg.
  rewrite (RequestProps.get_storage api _ _ "sessionId") by discriminate.
  simpl. apply lookup_insert_eq.
Qed.

(** C8 (merge on login), as the code has it.
    - Every sign-in the page takes for a success ([success], [data] or
      [token] is truthy in the body [login] or [register] returns) is
      followed by one call of [mergeCart], made in the world [w1] the
      request left, and then by the success message and the redirect timer:
      the handler ends in the world [mergeCart] leaves, with these two
      added.
    - [mergeCart] never throws.  All it adds to the trace is the merge
      request, carrying the stored session id and the token, sent at most
      as many times as the service has attempts, the waits in between and,
      when the request fails, the log of the failure.  When the session id
      or the token is missing it does nothing.  When the request returns a
      body, the session id is removed from storage.
    - A [getCart] in a world without session id, as after an accepted
      merge, makes up a session id from the clock and the random source,
      stores it, sends its request with it and returns what the request
      returns: storage holds a session id again. *)
Theorem guest_cart_merge (w : World) (name email password : string)
        (confirmPassword redirect : option string) (d : Resp.t) (w1 : World) :
  let loading := set_trace (trace w ++ [Loading true]) w in
  let success :=
    Resp.success d || bool_decide (is_Some (Resp.data d))
    || truthy_str (Resp.token d) in
  let sessionId := localStorage w1 !! "sessionId" in
  let mergeReq :=
    Req.mk "POST" (ENDPOINTS.cart +:+ "/merge") (header true w1)
           (MergeBody (show_opt sessionId)) in
  let merged := snd (mergeCart api w1) in
  let finished message callback :=
    set_trace (trace merged ++ [Notify message "success"; Loading false])
      (set_timers (timers merged ++ [(callback, 1000)]) merged) in
  (trim email <> "" -> password <> "" -> success = true ->
   login api (trim email) password loading = (Ok d, w1) ->
   LoginPage.handleLogin api (Some email) (Some password) redirect w
   = (Ok tt, finished "Login successful! Redirecting..."
                      (Redirect (or_default redirect "/index.html")))) /\
  (registrable emailRegex_test name email password confirmPassword = true ->
   success = true ->
   register api (trim name) (trim email) password loading = (Ok d, w1) ->
   LoginPage.handleRegister api emailRegex_test (Some name) (Some email)
                            (Some password) confirmPassword w
   = (Ok tt, finished "Account created successfully! Redirecting..."
                      (Redirect "/index.html"))) /\
  fst (mergeCart api w1) = Ok tt /\
  (exists evs,
      trace merged = trace w1 ++ evs /\
      Forall (fun e => e = Fetch mergeReq \/ (exists ms, e = Sleep ms) \/
                       e = ConsoleError "Cart merge failed:") evs /\
      (fetches evs <= Z.to_nat (retryAttempts api))%nat) /\
  (truthy_str sessionId && truthy_str (token w1) = false -> merged = w1) /\
  (forall d2 w2,
      truthy_str sessionId = true -> truthy_str (token w1) = true ->
      post api (ENDPOINTS.cart +:+ "/merge") (MergeBody (show_opt sessionId)) true w1
      = (Ok d2, w2) ->
      merged = set_localStorage (delete "sessionId" (localStorage w2)) w2 /\
      localStorage merged !! "sessionId" = None) /\
  (forall v,
      truthy_str (localStorage v !! "sessionId") = false ->
      let fresh := "session_" +:+ show_Z (clock v) +:+ "_" +:+ entropy v in
      getCart api v
      = get api (ENDPOINTS.cart +:+ "?sessionId=" +:+ fresh) (truthy_str (token v))
            (set_localStorage (<["sessionId" := fresh]> (localStorage v)) v) /\
      localStorage (snd (getCart api v)) !! "sessionId" = Some fresh).
Proof.
  intros loading success sessionId mergeReq merged finished.
  split; [| split; [| split; [| split; [| split; [| split]]]]].
  - intros He Hp Hsucc Hrun.
    exact (handleLogin_merges w email password redirect d w1 He Hp Hsucc Hrun).
  - intros Hreg Hsucc Hrun.
    exact (handleRegister_merges w name email password confirmPassword d w1
             Hreg Hsucc Hrun).
  - apply mergeCart_total.
  - apply mergeCart_trace.
  - intros Hidle. unfold merged. rewrite mergeCart_idle by exact Hidle. reflexivity.
  - intros d2 w2 Hs Ht Hp. unfold merged.
    rewrite (mergeCart_accepted _ _ _ Hs Ht Hp). simpl.
    split; [reflexivity | apply lookup_delete_eq].
  - intros v Hv. now apply getCart_fresh.
Qed.

End Claims.

(** The specification's scenario: the guest of session ["S1"] signs in,
    or registers.  The handler sends its request and then one merge
    request, with the guest's session id and the new token; storage then
    holds the token and no session id.  The cart fetched afterwards is the
    one the backend answers, and storage holds a new session id.  The
    accepted merge is what removes the guest's session id; without session
    id and token the merge does nothing. *)
Lemma guest_cart_merge_witness :
  let w := Examples.guest Examples.merged_answers in
  let mergeReq :=
    Req.mk "POST" (ENDPOINTS.cart +:+ "/merge") (Some "Bearer tok") (MergeBody "S1") in
  let w1 := snd (LoginPage.handleLogin APIService.api (Some "thandi@example.com")
                   (Some "secret-password") None w) in
  let w1' := snd (LoginPage.handleRegister APIService.api (fun _ => true)
                    (Some "Thandi") (Some "thandi@example.com")
                    (Some "secret-password") None w) in
  let u := snd (register APIService.api "Thandi" "thandi@example.com"
                  "secret-password" (set_trace (trace w ++ [Loading true]) w)) in
  (List.filter is_fetch (trace w1)
   = [Fetch (Req.mk "POST" ENDPOINTS.login None
                    (LoginBody "thandi@example.com" "secret-password"));
      Fetch mergeReq] /\
   localStorage w1 !! "sessionId" = None /\
   localStorage w1 !! "authToken" = Some "tok" /\
   fst (getCart APIService.api w1) = Ok Examples.cart_of_V /\
   localStorage (snd (getCart APIService.api w1)) !! "sessionId"
   = Some "session_0_k3x9q2m1z") /\
  (List.filter is_fetch (trace w1')
   = [Fetch (Req.mk "POST" ENDPOINTS.register None
                    (RegisterBody "Thandi" "thandi@example.com" "secret-password"));
      Fetch mergeReq] /\
   localStorage w1' !! "sessionId" = None /\
   localStorage w1' !! "authToken" = Some "tok" /\
   fst (getCart APIService.api w1') = Ok Examples.cart_of_V /\
   localStorage (snd (getCart APIService.api w1')) !! "sessionId"
   = Some "session_0_k3x9q2m1z") /\
  (localStorage u !! "sessionId" = Some "S1" /\
   localStorage (snd (mergeCart APIService.api u)) !! "sessionId" = None) /\
  snd (mergeCart APIService.api (Examples.world [] [])) = Examples.world [] [].
Proof.
  intros w mergeReq w1 w1' u.
  set (d := Resp.mk true None (Some "tok") None None None None).
  split; [| split; [| split]].
  - destruct (guest_cart_merge APIService.api (fun _ => true) w
                "Thandi" "thandi@example.com" "secret-password" None None d
                (snd (login APIService.api "thandi@example.com" "secret-password"
                        (set_trace (trace w ++ [Loading true]) w))))
      as (Hlogin & _ & _ & _ & _ & _ & Hcart).
    assert (Hw1 : localStorage w1 !! "sessionId" = None).
    { unfold w1. rewrite Hlogin;
        [vm_compute; reflexivity | vm_compute; discriminate | discriminate
        | reflexivity | vm_compute; reflexivity]. }
    destruct (Hcart w1) as [_ Hfresh]; [rewrite Hw1; reflexivity |].
    split; [vm_compute; reflexivity |].
    split; [exact Hw1 |].
    split; [vm_compute; reflexivity |].
    split; [vm_compute; reflexivity |].
    rewrite Hfresh. vm_compute. reflexivity.
  - destruct (guest_cart_merge APIService.api (fun _ => true) w
                "Thandi" "thandi@example.com" "secret-password" None None d u)
      as (_ & Hregister & _ & _ & _ & _ & Hcart).
    assert (Hw1 : localStorage w1' !! "sessionId" = None).
    { unfold w1'. rewrite Hregister;
        [vm_compute; reflexivity | reflexivity | reflexivity
        | vm_compute; reflexivity]. }
    destruct (Hcart w1') as [_ Hfresh]; [rewrite Hw1; reflexivity |].
    split; [vm_compute; reflexivity |].
    split; [exact Hw1 |].
    split; [vm_compute; reflexivity |].
    split; [vm_compute; reflexivity |].
    rewrite Hfresh. vm_compute. reflexivity.
  - destruct (guest_cart_merge APIService.api (fun _ => true) w
                "Thandi" "thandi@example.com" "secret-password" None None d u)
      as (_ & _ & _ & _ & _ & Haccepted & _).
    split; [vm_compute; reflexivity |].
    match type of Haccepted with
    | forall d2 w2, _ -> _ -> ?p = _ -> _ =>
        assert (Hp : p = (Ok (Examples.body true None), snd p))
          by (vm_compute; reflexivity)
    end.
    apply (Haccepted _ _ ltac:(vm_compute; reflexivity)
                     ltac:(vm_compute; reflexivity) Hp).
  - destruct (guest_cart_merge APIService.api (fun _ => true) w
                "Thandi" "thandi@example.com" "secret-password" None None d
                (Examples.world [] []))
      as (_ & _ & _ & _ & Hidle & _).
    apply Hidle. reflexivity.
Defined.

(** The specification's scenario: the guest of session ["S1"] registers, the
    merge runs once, and the cart is fetched.  The backend's cart comes
    back, but storage does not stay without a session id: fetching the cart
    has stored a new one. *)
Lemma guest_cart_merge_counterexample :
  let w := Examples.guest Examples.merged_answers in
  let w1 := snd (LoginPage.handleRegister APIService.api (fun _ => true)
                   (Some "Thandi") (Some "thandi@example.com")
                   (Some "secret-password") None w) in
  let w2 := snd (getCart APIService.api w1) in
  localStorage w !! "sessionId" = Some "S1" /\
  localStorage w1 !! "sessionId" = None /\
  fst (getCart APIService.api w1)
  = Ok Examples.cart_of_V /\
  localStorage w2 !! "sessionId" <> None.
Proof. vm_compute. repeat split; discriminate. Qed.

End MergeClaims.

(** ** The cart service: saving, synchronising, counting, merging *)

Module CartProps.
Import CartService CartSpec CartRun TraceSpec CartFacts.

Section Runs.
Context (api : APIService.t).

Lemma sync_then (w : World) :
  syncWithBackend api w = (Ok tt, synced api w).
Proof.
  unfold synced. destruct (sync_safe api w) as [[] Ha].
  destruct (syncWithBackend api w) as [r w']. simpl in *. subst r. reflexivity.
Qed.

(** A mutation that goes through assigns the cart, saves it, synchronises
    and announces the success; one that does not only shows an error. *)
Lemma removeFromCart_world productId w :
  exists msg,
    removeFromCart api productId w
    = (Ok (fst (removed productId (cart w))),
       if fst (removed productId (cart w))
       then notified msg "success"
              (synced api (saved (snd (removed productId (cart w))) w))
       else notified msg "error" w).
Proof.
  unfold removeFromCart, removed, try_catch, bind, gets. simpl.
  destruct (findIndex (cart w) productId) as [index |] eqn:Hi; simpl.
  - destruct (findIndex_lookup _ _ _ Hi) as (item & Hl & _).
    rewrite Hl. unfold saveCart, modify. simpl.
    rewrite sync_then. eexists. reflexivity.
  - eexists. reflexivity.
Qed.

Lemma updateQuantity_world productId q w :
  exists msg,
    updateQuantity api productId q w
    = (Ok (fst (updated productId q (cart w))),
       if fst (updated productId q (cart w))
       then notified msg "success"
              (synced api (saved (snd (updated productId q (cart w))) w))
       else notified msg "error" w).
Proof.
  unfold updateQuantity, updated, try_catch.
  destruct (q <? 1).
  - destruct (removeFromCart_world productId w) as (msg & Hr).
    rewrite Hr. exists msg. reflexivity.
  - unfold bind, gets. simpl.
    destruct (findCartItem (cart w) productId) as [item |]; simpl.
    + unfold exceeds. destruct (CartItem.stock item) as [s |]; simpl.
      * destruct (s <? q); simpl.
        -- eexists. reflexivity.
        -- unfold saveCart, modify. simpl. rewrite sync_then.
           eexists. reflexivity.
      * unfold saveCart, modify. simpl. rewrite sync_then.
        eexists. reflexivity.
    + eexists. reflexivity.
Qed.

Lemma addToCart_world product q w :
  exists msg,
    addToCart api product q w
    = (Ok (fst (added product q (cart w))),
       if fst (added product q (cart w))
       then notified msg "success"
              (synced api (saved (snd (added product q (cart w))) w))
       else notified msg "error" w).
Proof.
  unfold addToCart, added, try_catch, bind, gets, exceeds.
  destruct (q <? 1); simpl; [eexists; reflexivity |].
  destruct (Product.stock product) as [s |]; simpl.
  - destruct (s <? q); simpl; [eexists; reflexivity |].
    destruct (findCartItem (cart w) _) as [e |]; simpl.
    + destruct (s <? CartItem.quantity e + q); simpl; [eexists; reflexivity |].
      destruct (updateQuantity_world
                  (or_str (CartItem.productId e) (CartItem.id e))
                  (CartItem.quantity e + q) w) as (msg & Hr).
      rewrite Hr. exists msg. reflexivity.
    + unfold saveCart, modify. simpl. rewrite sync_then.
      eexists. reflexivity.
  - destruct (findCartItem (cart w) _) as [e |]; simpl.
    + destruct (updateQuantity_world
                  (or_str (CartItem.productId e) (CartItem.id e))
                  (CartItem.quantity e + q) w) as (msg & Hr).
      rewrite Hr. exists msg. reflexivity.
    + unfold saveCart, modify. simpl. rewrite sync_then.
      eexists. reflexivity.
Qed.

Lemma perform_world m w :
  exists msg,
    perform api m w
    = (Ok (fst (effect m (cart w))),
       if fst (effect m (cart w))
       then notified msg "success" (synced api (saved (snd (effect m (cart w))) w))
       else notified msg "error" w).
Proof.
  destruct m as [product q | productId q | productId]; simpl.
  - apply addToCart_world.
  - apply updateQuantity_world.
  - apply removeFromCart_world.
Qed.


Lemma synced_cart w : cart (synced api w) = cart w.
Proof.
  unfold synced.
  apply (sync_keeps api cart (fun _ _ => eq_refl) (fun _ _ => eq_refl)
           (fun _ _ => eq_refl) (fun _ _ => eq_refl) w).
Qed.

Lemma synced_storedCart w : storedCart (synced api w) = storedCart w.
Proof.
  unfold synced.
  apply (sync_keeps api storedCart (fun _ _ => eq_refl) (fun _ _ => eq_refl)
           (fun _ _ => eq_refl) (fun _ _ => eq_refl) w).
Qed.

(** Without a stored token, or with a synchronisation under way, nothing
    is sent. *)
Lemma sync_idle w :
  truthy_str (localStorage w !! "authToken") = false \/ syncInProgress w = true ->
  synced api w = w.
Proof.
  intros H. unfold synced, syncWithBackend, getItem, bind, gets. simpl.
  destruct H as [H | H]; rewrite H; simpl; [reflexivity |].
  rewrite orb_true_r. reflexivity.
Qed.

Lemma request_events_quiet req evs :
  Forall (fun e => e = Fetch req \/ exists ms, e = Sleep ms) evs ->
  notifications evs = [].
Proof.
  unfold notifications. induction 1 as [| e evs He _ IH]; [reflexivity |].
  simpl. rewrite IH. destruct He as [-> | [ms ->]]; reflexivity.
Qed.

(** What a synchronisation adds to the trace. *)
Lemma sync_trace w :
  exists evs,
    trace (synced api w) = trace w ++ evs /\
    notifications evs = [] /\
    syncInProgress (synced api w) = syncInProgress w /\
    (truthy_str (localStorage w !! "authToken") = true ->
     syncInProgress w = false ->
     1 <= APIService.retryAttempts api ->
     head evs = Some (Fetch (Req.mk "POST" ENDPOINTS.cart
                               (RequestSpec.header true w) (CartBody (cart w))))).
Proof.
  unfold synced, syncWithBackend, getItem, bind, gets. simpl.
  destruct (truthy_str (localStorage w !! "authToken")) eqn:Ha; simpl.
  2: { exists []. rewrite app_nil_r. repeat split. intros H; discriminate. }
  destruct (syncInProgress w) eqn:Hb; simpl.
  1: { exists []. rewrite app_nil_r. repeat split; [exact Hb |].
       intros _ H; discriminate. }
  unfold modify, finally, try_catch, bind, gets. simpl.
  destruct (RequestProps.request_trace api "POST" ENDPOINTS.cart
              (CartBody (cart w)) true (set_syncInProgress true w))
    as (evs & He & Hf & _ & Hh).
  rewrite <- RequestFacts.post_unfold in He.
  destruct (APIService.post api ENDPOINTS.cart (CartBody (cart w)) true
              (set_syncInProgress true w)) as [[d | e] w1]; simpl in *.
  - exists evs. split; [exact He |].
    split; [eapply request_events_quiet; exact Hf |].
    split; [reflexivity |]. intros _ _ Hn. apply Hh. exact Hn.
  - exists (evs ++ [ConsoleError "Cart sync failed:"]).
    rewrite He, app_assoc. split; [reflexivity |].
    split.
    + unfold notifications. rewrite flat_map_app. simpl. rewrite app_nil_r.
      eapply request_events_quiet; exact Hf.
    + split; [reflexivity |]. intros _ _ Hn.
      specialize (Hh Hn). destruct evs; [discriminate | exact Hh].
Qed.

(** X8 (mutations are saved).  [addToCart], [updateQuantity] and
    [removeFromCart] never throw.  When one returns [true], the cart written
    to storage is the cart in memory; when it returns [false], neither of
    the two has changed. *)
Theorem mutations_persist m w :
  let w' := snd (perform api m w) in
  match fst (perform api m w) with
  | Ok true => storedCart w' = Some (cart w')
  | Ok false => storedCart w' = storedCart w /\ cart w' = cart w
  | Throw _ => False
  end.
Proof.
  intros w'. unfold w'. destruct (perform_world m w) as (msg & Hr).
  rewrite Hr. simpl. destruct (fst (effect m (cart w))); simpl.
  - rewrite synced_storedCart, synced_cart. reflexivity.
  - split; reflexivity.
Qed.

(** X9 (local mutations).  For a visitor with no stored token, and also
    while a synchronisation is under way, a mutation sends nothing: all it
    adds to the trace is one notification, and the network is left as it
    was.  Of [localStorage] it writes the [cart] entry only, and only when
    it returns [true] (the cart as the mutation leaves it); every other
    entry is left as it was. *)
Theorem local_mutations_stay_local m w :
  truthy_str (localStorage w !! "authToken") = false \/ syncInProgress w = true ->
  let w' := snd (perform api m w) in
  (exists msg kind, trace w' = trace w ++ [Notify msg kind]) /\
  network w' = network w /\
  localStorage w' = localStorage w /\
  storedCart w' = (if fst (effect m (cart w)) then Some (cart w') else storedCart w) /\
  fst (perform api m w) = Ok (fst (effect m (cart w))).
Proof.
  intros H w'. unfold w'. destruct (perform_world m w) as (msg & Hr).
  rewrite Hr. simpl. destruct (fst (effect m (cart w))); simpl.
  - rewrite sync_idle by exact H. simpl.
    split; [exists msg, "success"; reflexivity | repeat split; reflexivity].
  - split; [exists msg, "error"; reflexivity | repeat split; reflexivity].
Qed.

(** X10 (what a signed-in mutation sends).  With a token in the store, no
    synchronisation under way and at least one attempt configured, the
    first effect of a mutation that returns [true] is the POST, to the cart
    endpoint, of the cart as the mutation leaves it. *)
Theorem signed_in_mutation_sends_cart m w :
  truthy_str (localStorage w !! "authToken") = true ->
  syncInProgress w = false ->
  1 <= APIService.retryAttempts api ->
  fst (perform api m w) = Ok true ->
  let w' := snd (perform api m w) in
  exists evs,
    trace w' = trace w ++
      Fetch (Req.mk "POST" ENDPOINTS.cart (RequestSpec.header true w)
               (CartBody (cart w'))) :: evs.
Proof.
  intros Ha Hb Hn Hok w'. unfold w'. destruct (perform_world m w) as (msg & Hr).
  rewrite Hr in Hok |- *. simpl in Hok |- *. inversion Hok as [Hb']. rewrite Hb'.
  simpl. rewrite synced_cart. simpl.
  destruct (sync_trace (saved (snd (effect m (cart w))) w))
    as (evs & He & _ & _ & Hh).
  specialize (Hh Ha Hb Hn). rewrite He.
  destruct evs as [| e evs]; [discriminate |]. simpl in Hh. inversion Hh; subst e.
  exists (evs ++ [Notify msg "success"]). simpl. rewrite <- app_assoc. reflexivity.
Qed.

(** X11 (one notification).  Each mutation shows exactly one
    notification, which is the last of its effects: of kind [success] when
    it returns [true], of kind [error] otherwise. *)
Theorem mutation_notifies_once m w :
  exists evs msg,
    trace (snd (perform api m w)) = trace w ++ evs ++ [Notify msg
      (match fst (perform api m w) with Ok true => "success" | _ => "error" end)] /\
    notifications evs = [].
Proof.
  destruct (perform_world m w) as (msg & Hr). rewrite Hr. simpl.
  destruct (fst (effect m (cart w))); simpl.
  - destruct (sync_trace (saved (snd (effect m (cart w))) w))
      as (evs & He & Hq & _).
    exists evs, msg. rewrite He. simpl. rewrite <- app_assoc. split; [reflexivity | exact Hq].
  - exists [], msg. split; reflexivity.
Qed.

(** X12 (the synchronisation flag).  [syncInProgress] is the same after a
    mutation, and after [syncWithBackend], as before: the flag raised for
    the request is lowered again whether the request succeeds or fails. *)
Theorem sync_flag_restored m w :
  syncInProgress (snd (perform api m w)) = syncInProgress w /\
  syncInProgress (snd (syncWithBackend api w)) = syncInProgress w.
Proof.
  split.
  - destruct (perform_world m w) as (msg & Hr). rewrite Hr. simpl.
    destruct (fst (effect m (cart w))); simpl; [| reflexivity].
    destruct (sync_trace (saved (snd (effect m (cart w))) w))
      as (evs & _ & _ & Hf & _).
    rewrite Hf. reflexivity.
  - destruct (sync_trace w) as (evs & _ & _ & Hf & _). exact Hf.
Qed.


End Runs.

(** *** Counting *)

Lemma count_acc c a :
  fold_left (fun total item => total + quantity_or_1 item) c a
  = a + getCartCount c.
Proof.
  unfold getCartCount. revert a.
  induction c as [| x c IH]; intros a; simpl; [lia |].
  rewrite IH, (IH (0 + quantity_or_1 x)). lia.
Qed.

Lemma count_cons x c : getCartCount (x :: c) = quantity_or_1 x + getCartCount c.
Proof. unfold getCartCount at 1. simpl. rewrite count_acc. lia. Qed.

Lemma count_app c x : getCartCount (c ++ [x]) = getCartCount c + quantity_or_1 x.
Proof.
  induction c as [| y c IH]; simpl.
  - rewrite count_cons. unfold getCartCount. simpl. lia.
  - rewrite !count_cons, IH. lia.
Qed.

Lemma count_assign k q c item :
  findCartItem c k = Some item ->
  getCartCount (assign_quantity k q c)
  = getCartCount c - quantity_or_1 item + (if q =? 0 then 1 else q).
Proof.
  unfold findCartItem. induction c as [| x c IH]; simpl; [discriminate |].
  destruct (matches k x) eqn:Hm; intros H.
  - inversion H; subst. rewrite !count_cons. unfold quantity_or_1 at 1. simpl. lia.
  - rewrite !count_cons, (IH H). lia.
Qed.

Lemma findCartItem_assign_some k k' q c :
  is_Some (findCartItem c k) ->
  is_Some (findCartItem (assign_quantity k' q c) k).
Proof.
  unfold findCartItem. induction c as [| x c IH]; simpl; [intros H; exact H |].
  destruct (matches k' x) eqn:Hk'; simpl.
  - rewrite matches_set_quantity. destruct (matches k x); [eauto | intros H; exact H].
  - destruct (matches k x); [eauto | exact IH].
Qed.

Lemma added_count product q c :
  let k := or_str (Product.id product) (Product._id product) in
  Forall (fun item => well_keyed item = true) c ->
  positive c ->
  truthy_str k = true ->
  fst (added product q c) = true ->
  getCartCount (snd (added product q c)) = getCartCount c + q /\
  is_Some (findCartItem (snd (added product q c)) k).
Proof.
  intros k Hkeyed Hpos Hk. unfold added. fold k.
  destruct (q <? 1) eqn:Hq; [discriminate |]. apply Z.ltb_ge in Hq.
  destruct (exceeds (Product.stock product) q); [discriminate |].
  destruct (findCartItem c k) as [e |] eqn:Hf.
  - destruct (exceeds (Product.stock product) (CartItem.quantity e + q));
      [discriminate |].
    destruct (findCartItem_matches _ _ _ Hf) as [Hin Hm].
    assert (He : well_keyed e = true).
    { rewrite List.Forall_forall in Hkeyed. now apply Hkeyed. }
    assert (Hqe : 1 <= CartItem.quantity e).
    { unfold positive in Hpos. rewrite List.Forall_forall in Hpos. now apply Hpos. }
    destruct (truthy_str_some _ Hk) as [ks Hks].
    assert (Hkey : or_str (CartItem.productId e) (CartItem.id e) = k).
    { rewrite Hks in Hm. rewrite (matches_well_keyed _ _ He) in Hm.
      apply bool_decide_eq_true_1 in Hm. unfold or_str.
      rewrite Hm, <- Hks, Hk. reflexivity. }
    rewrite Hkey. unfold updated.
    rewrite (proj2 (Z.ltb_ge (CartItem.quantity e + q) 1)) by lia.
    rewrite Hf.
    destruct (exceeds (CartItem.stock e) (CartItem.quantity e + q));
      [discriminate |].
    intros _. simpl. split.
    + rewrite (count_assign _ _ _ _ Hf). unfold quantity_or_1.
      rewrite (proj2 (Z.eqb_neq (CartItem.quantity e) 0)) by lia.
      rewrite (proj2 (Z.eqb_neq (CartItem.quantity e + q) 0)) by lia. lia.
    + apply findCartItem_assign_some. rewrite Hf. eauto.
  - intros _. simpl. split.
    + rewrite count_app. unfold quantity_or_1, new_item. simpl.
      rewrite (proj2 (Z.eqb_neq q 0)) by lia. reflexivity.
    + rewrite (findCartItem_app_r _ _ _ Hf). unfold findCartItem. simpl.
      assert (Hnew : matches k (new_item product q) = true).
      { unfold matches, new_item, strict_eq. simpl. fold k.
        rewrite bool_decide_eq_true_2 by reflexivity. reflexivity. }
      rewrite Hnew. eauto.
Qed.

(** X13 (counting).  In a cart whose lines all carry a product id, no [id]
    that differs from it, and a quantity of at least one, an [addToCart] of
    [q] units of a product with a non-empty id, when it returns [true],
    raises [getCartCount] by [q], and [isInCart] then holds for the
    product. *)
Theorem add_raises_count api product q w :
  let k := or_str (Product.id product) (Product._id product) in
  let w' := snd (addToCart api product q w) in
  Forall (fun item => well_keyed item = true) (cart w) ->
  positive (cart w) ->
  truthy_str k = true ->
  fst (addToCart api product q w) = Ok true ->
  getCartCount (cart w') = getCartCount (cart w) + q /\
  isInCart k w' = (Ok true, w').
Proof.
  intros k w' Hkeyed Hpos Hk Hok. unfold w'.
  destruct (addToCart_run api product q w) as (w1 & Hr & Hc).
  rewrite Hr in Hok |- *. simpl in Hok |- *. injection Hok as Hb.
  destruct (added_count product q (cart w) Hkeyed Hpos Hk Hb) as [Hn [x Hx]].
  rewrite Hc. split; [exact Hn |].
  unfold isInCart, bind, gets, ret. cbv beta iota. rewrite Hc.
  unfold k in Hx |- *. rewrite Hx. reflexivity.
Qed.

(** X14 (a product without id).  A product that has neither [id] nor [_id]
    is not given a line of its own when the first line of the cart has no
    [id] member: [undefined === undefined] makes that line match, and it is
    the quantity of that line that is raised (for a quantity of at least
    one, added to a line of at least one unit, that neither the stock of the
    product nor that of the line refuses). *)
Theorem product_without_id_joins_first_line api product q e rest w :
  or_str (Product.id product) (Product._id product) = None ->
  cart w = e :: rest ->
  CartItem.id e = None ->
  1 <= q ->
  1 <= CartItem.quantity e ->
  exceeds (Product.stock product) (CartItem.quantity e + q) = false ->
  exceeds (CartItem.stock e) (CartItem.quantity e + q) = false ->
  fst (addToCart api product q w) = Ok true /\
  cart (snd (addToCart api product q w))
  = CartItem.set_quantity (CartItem.quantity e + q) e :: rest.
Proof.
  intros Hk Hc Hid Hq He Hp Hs.
  destruct (addToCart_run api product q w) as (w1 & Hr & Hcart).
  rewrite Hr. simpl. rewrite Hcart. clear Hr Hcart.
  unfold added. rewrite Hk, Hc.
  rewrite (proj2 (Z.ltb_ge q 1)) by lia.
  rewrite (exceeds_le (Product.stock product) q (CartItem.quantity e + q)
             ltac:(lia) Hp).
  assert (Hm : forall key, key = None \/ key = CartItem.productId e ->
                           matches key e = true).
  { intros key [-> | ->]; unfold matches, strict_eq.
    - rewrite Hid. rewrite (bool_decide_eq_true_2 (None = None)) by reflexivity.
      apply orb_true_r.
    - rewrite (bool_decide_eq_true_2 (CartItem.productId e = CartItem.productId e))
        by reflexivity. reflexivity. }
  unfold findCartItem at 1. simpl. rewrite (Hm None) by (left; reflexivity).
  rewrite Hp. unfold updated.
  rewrite (proj2 (Z.ltb_ge (CartItem.quantity e + q) 1)) by lia.
  assert (Hkey : or_str (CartItem.productId e) (CartItem.id e) = None \/
                 or_str (CartItem.productId e) (CartItem.id e) = CartItem.productId e).
  { unfold or_str. rewrite Hid.
    destruct (truthy_str (CartItem.productId e)); [right | left]; reflexivity. }
  unfold findCartItem. simpl. rewrite (Hm _ Hkey). rewrite Hs. simpl.
  rewrite ?(Hm _ Hkey). split; reflexivity.
Qed.

(** *** Carts that pass [validateCart] *)

Lemma item_errors_nil item :
  item_errors item = [] <->
  1 <= CartItem.quantity item /\
  exceeds (CartItem.stock item) (CartItem.quantity item) = false.
Proof.
  unfold item_errors, exceeds.
  destruct (CartItem.quantity item <? 1) eqn:Hq.
  - apply Z.ltb_lt in Hq. split; [discriminate | intros [H _]; lia].
  - apply Z.ltb_ge in Hq. simpl.
    destruct (CartItem.stock item) as [s |].
    + destruct (s <? CartItem.quantity item).
      * split; [discriminate | intros [_ H]; discriminate].
      * split; auto.
    + split; auto.
Qed.

Lemma flat_map_nil_iff c :
  flat_map item_errors c = [] <-> acceptable c.
Proof.
  unfold acceptable. induction c as [| x c IH]; simpl.
  - split; [constructor | reflexivity].
  - split.
    + intros H. apply app_eq_nil in H as [Hx Hc].
      constructor; [apply item_errors_nil; exact Hx | apply IH; exact Hc].
    + intros H. inversion H as [| ? ? Hx Hc]; subst.
      apply item_errors_nil in Hx. apply IH in Hc. rewrite Hx, Hc. reflexivity.
Qed.

(** X15 (what [validateCart] accepts).  [validateCart] never throws and
    leaves the world alone; it reports no error exactly when the cart is
    not empty and every line has a quantity of at least one that the stock
    recorded on the line covers. *)
Theorem validateCart_accepts_iff w :
  exists errors,
    validateCart w = (Ok (bool_decide (errors = []), errors), w) /\
    (errors = [] <-> cart w <> [] /\ acceptable (cart w)).
Proof.
  rewrite CheckoutClaims.validateCart_run.
  destruct (cart w) as [| x c] eqn:Hc.
  - exists ["Your cart is empty"]. split; [reflexivity |].
    split; [discriminate | intros [H _]; congruence].
  - exists (flat_map item_errors (x :: c)). split; [reflexivity |].
    rewrite flat_map_nil_iff. split; [intros H; split; [discriminate | exact H] | tauto].
Qed.

Lemma acceptable_assign k q c item :
  findCartItem c k = Some item ->
  1 <= q ->
  exceeds (CartItem.stock item) q = false ->
  acceptable c ->
  acceptable (assign_quantity k q c).
Proof.
  unfold findCartItem, acceptable. induction c as [| x c IH]; simpl; [discriminate |].
  destruct (matches k x) eqn:Hm; intros H Hq Hs Ha;
    inversion Ha as [| ? ? Hx Hc]; subst.
  - inversion H; subst. constructor; [| exact Hc]. simpl. split; assumption.
  - constructor; [exact Hx | now apply IH].
Qed.

Lemma acceptable_removed productId c :
  acceptable c -> acceptable (snd (removed productId c)).
Proof.
  unfold removed. intros H. destruct (findIndex c productId); simpl; [| exact H].
  now apply Forall_delete.
Qed.

Lemma acceptable_updated productId q c :
  acceptable c -> acceptable (snd (updated productId q c)).
Proof.
  unfold updated. intros H. destruct (q <? 1) eqn:Hq.
  - now apply acceptable_removed.
  - apply Z.ltb_ge in Hq.
    destruct (findCartItem c productId) as [item |] eqn:Hf; [| exact H].
    destruct (exceeds (CartItem.stock item) q) eqn:Hs; [exact H |]. simpl.
    now apply (acceptable_assign _ _ _ item).
Qed.

Lemma acceptable_added product q c :
  acceptable c -> acceptable (snd (added product q c)).
Proof.
  unfold added. intros H. destruct (q <? 1) eqn:Hq; [exact H |].
  apply Z.ltb_ge in Hq.
  destruct (exceeds (Product.stock product) q) eqn:Hs; [exact H |].
  destruct (findCartItem c _) as [e |].
  - destruct (exceeds (Product.stock product) (CartItem.quantity e + q));
      [exact H |].
    now apply acceptable_updated.
  - simpl. apply Forall_app. split; [exact H |].
    constructor; [| constructor]. simpl. split; assumption.
Qed.

(** X16 (mutations keep the cart valid).  If every line of the cart has a
    quantity of at least one within the stock recorded on it, this is still
    so after any mutation, whether it goes through or not. *)
Theorem mutations_keep_cart_acceptable api m w :
  acceptable (cart w) ->
  acceptable (cart (snd (perform api m w))).
Proof.
  intros H. destruct m as [product q | productId q | productId]; simpl.
  - destruct (addToCart_run api product q w) as (w' & Hr & Hc).
    rewrite Hr. simpl. rewrite Hc. now apply acceptable_added.
  - destruct (updateQuantity_run api productId q w) as (w' & Hr & Hc).
    rewrite Hr. simpl. rewrite Hc. now apply acceptable_updated.
  - destruct (removeFromCart_run api productId w) as (w' & Hr & Hc).
    rewrite Hr. simpl. rewrite Hc. now apply acceptable_removed.
Qed.

(** *** Merging the backend's cart *)

Lemma assign_same_quantity k q c item :
  findCartItem c k = Some item ->
  CartItem.quantity item = q ->
  assign_quantity k q c = c.
Proof.
  unfold findCartItem. induction c as [| x c IH]; simpl; [reflexivity |].
  destruct (matches k x) eqn:Hm; intros H Hq.
  - inversion H; subst. destruct item. reflexivity.
  - rewrite (IH H Hq). reflexivity.
Qed.

Lemma merge_fixed backendCart c :
  (forall b, In b backendCart ->
             exists x, findCartItem c (CartItem.productId b) = Some x /\
                       CartItem.quantity x = CartItem.quantity b) ->
  merge_backend backendCart c = c.
Proof.
  unfold merge_backend. induction backendCart as [| b l IH]; intros H; simpl;
    [reflexivity |].
  destruct (H b (or_introl eq_refl)) as (x & Hf & Hq).
  unfold merge_item at 2. rewrite Hf.
  rewrite (assign_same_quantity _ _ _ x Hf Hq).
  apply IH. intros b' Hb'. apply H. right. exact Hb'.
Qed.

Lemma merge_backend_idempotent backendCart c :
  wf_cart backendCart ->
  Forall (fun item => well_keyed item = true) c ->
  merge_backend backendCart (merge_backend backendCart c)
  = merge_backend backendCart c.
Proof.
  intros Hb Hc. apply merge_fixed. intros b Hin.
  rewrite (merge_backend_line backendCart c b Hb Hc Hin).
  eexists. split; [reflexivity |].
  destruct (findCartItem c (CartItem.productId b)); reflexivity.
Qed.

(** Apart from the quantities, merging keeps the lines there are, in their
    order, and appends the new ones. *)
Lemma merge_item_extends c b :
  exists extra,
    CartItem.set_quantity 0 <$> merge_item c b
    = (CartItem.set_quantity 0 <$> c) ++ extra.
Proof.
  unfold merge_item. destruct (findCartItem c (CartItem.productId b)).
  - exists []. rewrite app_nil_r.
    generalize (CartItem.quantity b) as q. intros q.
    induction c as [| x c IH]; simpl; [reflexivity |].
    destruct (matches (CartItem.productId b) x); simpl.
    + reflexivity.
    + f_equal. exact IH.
  - exists [CartItem.set_quantity 0 b]. rewrite fmap_app. reflexivity.
Qed.

Lemma merge_backend_extends backendCart c :
  exists extra,
    CartItem.set_quantity 0 <$> merge_backend backendCart c
    = (CartItem.set_quantity 0 <$> c) ++ extra.
Proof.
  unfold merge_backend. revert c.
  induction backendCart as [| b l IH]; intros c; simpl.
  - exists []. rewrite app_nil_r. reflexivity.
  - destruct (IH (merge_item c b)) as (e1 & H1).
    destruct (merge_item_extends c b) as (e2 & H2).
    exists (e2 ++ e1). rewrite H1, H2, app_assoc. reflexivity.
Qed.

Section Loads.
Context (api : APIService.t).

(** X17 (loading never drops a line).  [loadFromBackend] never throws,
    and, quantities apart, the cart it leaves starts with the lines it
    found, in their order: lines are only ever added, at the end. *)
Theorem load_never_drops_lines w :
  exists w' extra,
    loadFromBackend api w = (Ok tt, w') /\
    CartItem.set_quantity 0 <$> cart w'
    = (CartItem.set_quantity 0 <$> cart w) ++ extra.
Proof.
  pose proof (loadFromBackend_cart api w) as Hc.
  assert (Hs : exists w', loadFromBackend api w = (Ok tt, w')).
  { unfold loadFromBackend, try_catch.
    destruct (bind _ _ w) as [[[] | e] w1]; eexists; reflexivity. }
  destruct Hs as (w' & Hr). rewrite Hr in Hc. simpl in Hc.
  exists w'.
  assert (He : cart w' = cart w \/
               exists R, cart w' = merge_backend R (cart w)).
  { destruct (fst (APIService.get api ENDPOINTS.cart true w)) as [d | e];
      [| left; exact Hc].
    destruct (Resp.success d); [| left; exact Hc].
    destruct (Resp.cart d) as [payload |]; [| left; exact Hc].
    right. eexists. exact Hc. }
  destruct He as [Heq | [R Heq]].
  - exists []. rewrite app_nil_r, Heq. split; [exact Hr | reflexivity].
  - destruct (merge_backend_extends R (cart w)) as (extra & Hx).
    exists extra. rewrite Heq. split; [exact Hr | exact Hx].
Qed.

Lemma loadFromBackend_run w r d rest backendCart :
  1 <= APIService.retryAttempts api ->
  network w = Responded r :: rest ->
  json r = Some d ->
  ok r = true ->
  Resp.success d = true ->
  Resp.cart d = Some (Some backendCart) ->
  loadFromBackend api w
  = (Ok tt,
     saved (merge_backend backendCart (cart w))
       (RequestSpec.sent
          (Req.mk "GET" ENDPOINTS.cart (RequestSpec.header true w) NoBody)
          rest w)).
Proof.
  intros Hn Hnet Hjson Hok Hs Hc.
  unfold loadFromBackend, try_catch, bind.
  rewrite (RequestFacts.get_ok api ENDPOINTS.cart true w r d rest Hn Hnet Hjson Hok).
  rewrite Hs, Hc. reflexivity.
Qed.

(** X18 (loading twice).  For a backend cart whose lines carry distinct
    product ids, and a local cart whose lines carry one: loading the same
    backend cart twice is the same as loading it once.  The second load
    leaves the cart as the first one made it, and saves it. *)
Theorem reload_changes_nothing w r d rest backendCart :
  1 <= APIService.retryAttempts api ->
  network w = Responded r :: Responded r :: rest ->
  json r = Some d ->
  ok r = true ->
  Resp.success d = true ->
  Resp.cart d = Some (Some backendCart) ->
  wf_cart backendCart ->
  Forall (fun item => well_keyed item = true) (cart w) ->
  let w1 := snd (loadFromBackend api w) in
  let w2 := snd (loadFromBackend api w1) in
  cart w1 = merge_backend backendCart (cart w) /\
  cart w2 = cart w1 /\
  storedCart w2 = Some (cart w1).
Proof.
  intros Hn Hnet Hjson Hok Hs Hc Hwf Hkeyed w1 w2. unfold w2, w1.
  rewrite (loadFromBackend_run w r d (Responded r :: rest) backendCart
             Hn Hnet Hjson Hok Hs Hc).
  cbn [snd].
  erewrite (loadFromBackend_run _ r d rest backendCart Hn);
    [| reflexivity | exact Hjson | exact Hok | exact Hs | exact Hc].
  simpl. rewrite merge_backend_idempotent by assumption.
  repeat split; reflexivity.
Qed.

End Loads.

(** *** On sample data *)

Lemma local_mutations_stay_local_witness :
  let w := Examples.world [] [Examples.answer 200 (Examples.body true None)] in
  let w' := snd (perform APIService.api (Add (Examples.product "A" None) 1) w) in
  (exists msg kind, trace w' = trace w ++ [Notify msg kind]) /\
  network w' = network w /\
  localStorage w' = localStorage w /\
  storedCart w' = Some [Examples.line "A" 1 None] /\
  fst (perform APIService.api (Add (Examples.product "A" None) 1) w) = Ok true.
Proof.
  intros w w'.
  exact (local_mutations_stay_local APIService.api
           (Add (Examples.product "A" None) 1) w (or_introl eq_refl)).
Defined.

Lemma signed_in_mutation_sends_cart_witness :
  let w := Examples.signed_in [] [Examples.answer 200 (Examples.body true None)] in
  let w' := snd (perform APIService.api (Add (Examples.product "A" None) 1) w) in
  exists evs,
    trace w' = trace w ++
      Fetch (Req.mk "POST" ENDPOINTS.cart (Some "Bearer tok")
               (CartBody (cart w'))) :: evs.
Proof.
  intros w w'.
  exact (signed_in_mutation_sends_cart APIService.api
           (Add (Examples.product "A" None) 1) w eq_refl eq_refl
           ltac:(vm_compute; discriminate) eq_refl).
Defined.

Lemma add_raises_count_witness :
  let w := Examples.world [Examples.line "A" 2 None] [] in
  let w' := snd (addToCart APIService.api (Examples.product "A" None) 3 w) in
  getCartCount (cart w') = getCartCount (cart w) + 3 /\
  isInCart (Some "A") w' = (Ok true, w').
Proof.
  intros w w'.
  apply (add_raises_count APIService.api (Examples.product "A" None) 3 w).
  - repeat (constructor; [reflexivity |]). constructor.
  - repeat (constructor; [vm_compute; discriminate |]). constructor.
  - reflexivity.
  - reflexivity.
Defined.

Lemma product_without_id_joins_first_line_witness :
  let w := Examples.world [Examples.line "A" 2 None; Examples.line "B" 1 None] [] in
  fst (addToCart APIService.api Samples.nameless 1 w) = Ok true /\
  cart (snd (addToCart APIService.api Samples.nameless 1 w))
  = [Examples.line "A" 3 None; Examples.line "B" 1 None].
Proof.
  intros w.
  exact (product_without_id_joins_first_line APIService.api Samples.nameless 1
           (Examples.line "A" 2 None) [Examples.line "B" 1 None] w
           eq_refl eq_refl eq_refl ltac:(lia) ltac:(simpl; lia) eq_refl eq_refl).
Defined.

Lemma validateCart_accepts_iff_witness :
  let w := Examples.world [Examples.line "A" 2 (Some 5)] [] in
  fst (validateCart w) = Ok (true, []).
Proof.
  intros w.
  destruct (validateCart_accepts_iff w) as (errors & Hr & Hiff).
  assert (He : errors = []).
  { apply Hiff. split; [discriminate |].
    constructor; [split; [simpl; lia | reflexivity] | constructor]. }
  rewrite Hr, He. reflexivity.
Defined.

Lemma mutations_keep_cart_acceptable_witness :
  let w := Examples.world [Examples.line "A" 2 (Some 5)] [] in
  acceptable (cart (snd (perform APIService.api (Update (Some "A") 4) w))).
Proof.
  intros w.
  apply (mutations_keep_cart_acceptable APIService.api (Update (Some "A") 4) w).
  constructor; [split; [simpl; lia | reflexivity] | constructor].
Defined.

Lemma reload_changes_nothing_witness :
  let w := Examples.signed_in [Examples.line "A" 3 None; Examples.line "B" 1 None]
             [Responded (mkResponse 200 (Some Samples.cart_answer));
              Responded (mkResponse 200 (Some Samples.cart_answer))] in
  let w1 := snd (loadFromBackend APIService.api w) in
  let w2 := snd (loadFromBackend APIService.api w1) in
  cart w1 = merge_backend Samples.backend_cart (cart w) /\
  cart w2 = cart w1 /\
  storedCart w2 = Some (cart w1).
Proof.
  intros w w1 w2.
  apply (reload_changes_nothing APIService.api w
           (mkResponse 200 (Some Samples.cart_answer)) Samples.cart_answer []
           Samples.backend_cart).
  - vm_compute. discriminate.
  - reflexivity.
  - reflexivity.
  - reflexivity.
  - reflexivity.
  - reflexivity.
  - split.
    + repeat (constructor; [reflexivity |]). constructor.
    + apply (bool_decide_unpack _). vm_compute. exact I.
  - repeat (constructor; [reflexivity |]). constructor.
Defined.

End CartProps.

(** ** The two computations of the totals *)

Module TotalsProps.

Lemma Qlt_bool_Qle_bool a b : CartService.Qlt_bool a b = negb (Qle_bool b a).
Proof. unfold CartService.Qlt_bool, Qle_bool. apply Z.ltb_antisym. Qed.

(** X19 (cart page and checkout agree).  With no discount and a shipping
    method other than [express] and [pickup], the totals of the cart
    ([CartService.calculateTotals]) and those of the checkout
    ([CheckoutService.calculateTotals]) agree on the subtotal, the VAT, the
    shipping and the total, and neither computation changes the world. *)
Theorem cart_and_checkout_totals_agree config w :
  (discount (checkoutData w) == 0)%Q ->
  shippingMethod (checkoutData w) <> "express" ->
  shippingMethod (checkoutData w) <> "pickup" ->
  exists t t',
    CartService.calculateTotals config w = (Ok t, w) /\
    CheckoutService.calculateTotals config w = (Ok t', w) /\
    CartService.CartTotals.subtotal t = subtotal t' /\
    (CartService.CartTotals.vat t == vat t')%Q /\
    CartService.CartTotals.shipping t = shipping t' /\
    (CartService.CartTotals.total t == total t')%Q.
Proof.
  intros HD He Hp.
  unfold CartService.calculateTotals, CheckoutService.calculateTotals,
    CheckoutService.calculateShipping, bind, gets. simpl.
  rewrite Qlt_bool_Qle_bool.
  apply String.eqb_neq in He, Hp. rewrite He, Hp.
  destruct (Qle_bool (FREE_THRESHOLD config) (CartService.getCartSubtotal (cart w)));
    simpl.
  - eexists. eexists. split; [reflexivity |]. split; [reflexivity |]. simpl.
    split; [reflexivity |]. split; [rewrite HD; ring |].
    split; [reflexivity |]. rewrite HD. ring.
  - destruct (String.eqb (shippingMethod (checkoutData w)) "standard");
      (eexists; eexists; split; [reflexivity |]; split; [reflexivity |]; simpl;
       split; [reflexivity |]; split; [rewrite HD; ring |];
       split; [reflexivity |]; rewrite HD; ring).
Qed.

(** *** On sample data *)

Lemma cart_and_checkout_totals_agree_witness :
  let w := Examples.world [Examples.priced "A" (100 # 1) 2] [] in
  exists t t',
    CartService.calculateTotals APP_CONFIG w = (Ok t, w) /\
    CheckoutService.calculateTotals APP_CONFIG w = (Ok t', w) /\
    CartService.CartTotals.subtotal t = subtotal t' /\
    (CartService.CartTotals.vat t == vat t')%Q /\
    CartService.CartTotals.shipping t = shipping t' /\
    (CartService.CartTotals.total t == total t')%Q.
Proof.
  intros w.
  apply (cart_and_checkout_totals_agree APP_CONFIG w).
  - reflexivity.
  - discriminate.
  - discriminate.
Defined.

End TotalsProps.

(** ** The checkout service: orders and the steps of a session *)

Module CheckoutProps.
Import CheckoutService CheckoutSpec CheckoutRun TraceSpec.

Section Orders.
Context (api : APIService.t) (V : Validators) (config : AppConfig).

Lemma calculateTotals_pure w :
  exists totals, calculateTotals config w = (Ok totals, w).
Proof.
  unfold calculateTotals, calculateShipping, bind, gets. simpl.
  repeat match goal with
         | |- context [if ?b then _ else _] => destruct b
         end; eexists; reflexivity.
Qed.

Section Kept.
Context {B : Type} (f : World -> B).
Context (f_trace : forall x w, f (set_trace x w) = f w).
Context (f_network : forall x w, f (set_network x w) = f w).
Context (f_storage : forall x w, f (set_localStorage x w) = f w).

Lemma createOrder_throw_keeps w e w' :
  createOrder api V config w = (Throw e, w') -> f w' = f w.
Proof.
  unfold createOrder, try_catch. unfold bind at 1.
  rewrite CheckoutClaims.validateCheckout_run. cbn [fst snd].
  destruct (bool_decide (checkout_errors V w = [])).
  - unfold bind at 1. unfold ret at 1. unfold bind at 1.
    destruct (calculateTotals_pure w) as (totals & Ht). rewrite Ht.
    unfold bind at 1. unfold CartService.getCart, gets at 1.
    unfold bind at 1. unfold gets at 1. unfold bind at 1. unfold gets at 1.
    unfold bind at 1.
    match goal with
    | |- context [APIService.post api ?u ?d ?a w] =>
        pose proof (keeps_post f f_trace f_network f_storage api u d a w) as Hk;
        destruct (APIService.post api u d a w) as [[r | e1] w1]
    end; simpl in Hk.
    + destruct (Resp.success r), (Resp.order r) as [o |].
      * destruct (CartFacts.clearCart_run api w1) as (w2 & Hc & _).
        unfold bind at 1. rewrite Hc. simpl. discriminate.
      * simpl. intros H. inversion H; subst. rewrite f_trace. exact Hk.
      * simpl. intros H. inversion H; subst. rewrite f_trace. exact Hk.
      * simpl. intros H. inversion H; subst. rewrite f_trace. exact Hk.
    + destruct e1 as [m |]; simpl; intros H; inversion H; subst.
      * rewrite f_trace. exact Hk.
      * exact Hk.
  - simpl. intros H. inversion H; subst. apply f_trace.
Qed.
End Kept.

(** X20 (a failed order loses nothing).  Whenever [createOrder] throws,
    because the checkout is not valid, the request fails or the backend
    refuses the order, the cart and the checkout data are what they were,
    in memory and in storage. *)
Theorem failed_order_keeps_checkout w e w' :
  createOrder api V config w = (Throw e, w') ->
  cart w' = cart w /\
  storedCart w' = storedCart w /\
  checkoutData w' = checkoutData w /\
  storedCheckout w' = storedCheckout w.
Proof.
  intros H. repeat split.
  - apply (createOrder_throw_keeps cart (fun _ _ => eq_refl) (fun _ _ => eq_refl)
             (fun _ _ => eq_refl) w e w' H).
  - apply (createOrder_throw_keeps storedCart (fun _ _ => eq_refl)
             (fun _ _ => eq_refl) (fun _ _ => eq_refl) w e w' H).
  - apply (createOrder_throw_keeps checkoutData (fun _ _ => eq_refl)
             (fun _ _ => eq_refl) (fun _ _ => eq_refl) w e w' H).
  - apply (createOrder_throw_keeps storedCheckout (fun _ _ => eq_refl)
             (fun _ _ => eq_refl) (fun _ _ => eq_refl) w e w' H).
Qed.


Lemma clearCart_world w :
  CartService.clearCart api w
  = (Ok tt, notified "Cart cleared" "success"
              (CartRun.synced api (CartRun.saved [] w))).
Proof.
  unfold CartService.clearCart, CartService.saveCart, bind, modify. simpl.
  change (set_storedCart (Some []) (set_cart [] w)) with (CartRun.saved [] w).
  rewrite CartProps.sync_then. reflexivity.
Qed.

(** X21 (a placed order).  With at least one attempt configured: when the
    checkout is valid and the backend answers the order request with a
    successful body that carries an order, [createOrder] returns that
    order.  Its first effect is the POST of the
    order, built from the cart, the checkout data, the totals of
    [calculateTotals] and the clock; afterwards the cart is empty, in
    memory and in storage, the checkout data are the default ones, their
    entry in session storage is gone, and the user has seen two
    notifications, that the cart was cleared and that the order was
    placed. *)
Theorem placed_order_clears_checkout w r d o rest :
  1 <= APIService.retryAttempts api ->
  checkout_errors V w = [] ->
  network w = Responded r :: rest ->
  json r = Some d ->
  ok r = true ->
  Resp.success d = true ->
  Resp.order d = Some o ->
  exists w' totals evs,
    createOrder api V config w = (Ok o, w') /\
    cart w' = [] /\
    storedCart w' = Some [] /\
    checkoutData w' = getDefaultCheckoutData /\
    storedCheckout w' = None /\
    calculateTotals config w = (Ok totals, w) /\
    trace w' = trace w ++
      Fetch (Req.mk "POST" ENDPOINTS.orders (RequestSpec.header true w)
               (OrderBody
                  (OrderData.mk (cart w) (shippingInfo (checkoutData w))
                     (shippingMethod (checkoutData w))
                     (paymentMethod (checkoutData w))
                     (orderNotes (checkoutData w))
                     (couponCode (checkoutData w))
                     (discount (checkoutData w)) totals (clock w)))) :: evs /\
    notifications evs
    = [("Cart cleared", "success"); ("Order placed successfully!", "success")].
Proof.
  intros Hn Herr Hnet Hjson Hok Hs Ho.
  destruct (calculateTotals_pure w) as (totals & Ht).
  unfold createOrder, try_catch. unfold bind at 1.
  rewrite CheckoutClaims.validateCheckout_run. cbn [fst snd]. rewrite Herr.
  rewrite bool_decide_eq_true_2 by reflexivity.
  unfold bind at 1. unfold ret at 1. unfold bind at 1. rewrite Ht.
  unfold bind at 1. unfold CartService.getCart, gets at 1.
  unfold bind at 1. unfold gets at 1. unfold bind at 1. unfold gets at 1.
  unfold bind at 1.
  rewrite (RequestFacts.post_ok api _ _ true w r d rest Hn Hnet Hjson Hok).
  rewrite Hs, Ho. unfold bind at 1. rewrite clearCart_world.
  match goal with
  | |- context [CartRun.synced api ?x] =>
      destruct (CartProps.sync_trace api x) as (evs & He & Hq & _);
      pose proof (CartProps.synced_cart api x) as Hc;
      pose proof (CartProps.synced_storedCart api x) as Hsc
  end.
  eexists. exists totals.
  exists (evs ++ [Notify "Cart cleared" "success";
                  Notify "Order placed successfully!" "success"]).
  split; [reflexivity |]. cbn -[CartRun.synced CartRun.saved].
  rewrite Hc, Hsc, He. cbn.
  repeat split.
  - rewrite <- !app_assoc. reflexivity.
  - unfold notifications in *. rewrite flat_map_app, Hq. reflexivity.
Qed.

End Orders.

(** *** The checkout session *)

Section Session.
Context (V : Validators).

Lemma existsb_eqb_In s l : existsb (String.eqb s) l = true <-> In s l.
Proof.
  rewrite existsb_exists. split.
  - intros (x & Hin & Heq). apply String.eqb_eq in Heq. subst. exact Hin.
  - intros Hin. exists s. split; [exact Hin | apply String.eqb_refl].
Qed.

(** X22 (checkout steps are saved or refused).  Each step of a checkout
    session either throws and leaves the world as it was, or returns with
    the checkout data written to session storage (for [clearCheckoutData],
    with the entry removed). *)
Theorem checkout_changes_persist_or_abort a w :
  let w' := snd (act V a w) in
  match fst (act V a w) with
  | Ok _ =>
      storedCheckout w'
      = match a with
        | ClearCheckoutData => None
        | _ => Some (checkoutData w')
        end
  | Throw _ => w' = w
  end.
Proof.
  destruct a; simpl; try reflexivity.
  - unfold saveShippingInfo, bind.
    destruct (fst (validateShippingInfo V info)); reflexivity.
  - unfold saveShippingMethod, bind.
    destruct (existsb (String.eqb method) shipping_methods); reflexivity.
  - unfold savePaymentMethod, bind.
    destruct (existsb (String.eqb method) payment_methods); reflexivity.
Qed.

(** X23 (only known methods).  If the shipping method of the checkout
    data is one the service knows, and the payment method is unset or one
    it knows, this is still so after any step of the session: an unknown
    method never gets into the checkout data. *)
Theorem checkout_methods_stay_known a w :
  known_methods (checkoutData w) ->
  known_methods (checkoutData (snd (act V a w))).
Proof.
  intros [Hs Hp]. destruct a; simpl; try (split; assumption).
  - unfold saveShippingInfo, bind.
    destruct (fst (validateShippingInfo V info)); simpl; split; assumption.
  - unfold saveShippingMethod, bind.
    destruct (existsb (String.eqb method) shipping_methods) eqn:E; simpl.
    + split; [apply existsb_eqb_In; exact E | exact Hp].
    + split; assumption.
  - unfold savePaymentMethod, bind.
    destruct (existsb (String.eqb method) payment_methods) eqn:E; simpl.
    + split; [exact Hs | right; apply existsb_eqb_In; exact E].
    + split; assumption.
  - split; [simpl; auto | left; reflexivity].
Qed.

End Session.

(** *** On sample data *)

Lemma failed_order_keeps_checkout_witness :
  let w := Examples.world [] [] in
  let w' := snd (createOrder APIService.api Examples.lenient APP_CONFIG w) in
  cart w' = cart w /\
  storedCart w' = storedCart w /\
  checkoutData w' = checkoutData w /\
  storedCheckout w' = storedCheckout w.
Proof.
  intros w w'.
  apply (failed_order_keeps_checkout APIService.api Examples.lenient APP_CONFIG w
           (Error "Your cart is empty. Please select a payment method. Please agree to the terms and conditions")
           w').
  reflexivity.
Defined.

Lemma placed_order_clears_checkout_witness :
  let w := Samples.ready [Responded (mkResponse 200 (Some Samples.placed))] in
  exists w',
    createOrder APIService.api Examples.lenient APP_CONFIG w
    = (Ok (Order.mk (Some "1042") None), w') /\
    cart w' = [] /\
    checkoutData w' = getDefaultCheckoutData.
Proof.
  intros w.
  destruct (placed_order_clears_checkout APIService.api Examples.lenient APP_CONFIG
              w (mkResponse 200 (Some Samples.placed)) Samples.placed
              (Order.mk (Some "1042") None) []
              ltac:(vm_compute; discriminate) eq_refl eq_refl eq_refl eq_refl
              eq_refl eq_refl)
    as (w' & totals & evs & Hr & Hc & _ & Hd & _).
  exists w'. split; [exact Hr |]. split; [exact Hc | exact Hd].
Defined.

Lemma checkout_methods_stay_known_witness :
  let w := Examples.world [] [] in
  known_methods
    (checkoutData (snd (act Examples.lenient (SaveShippingMethod "express") w))).
Proof.
  intros w.
  apply (checkout_methods_stay_known Examples.lenient (SaveShippingMethod "express") w).
  split; [left; reflexivity | left; reflexivity].
Defined.

End CheckoutProps.

(** ** The validators of the shipping details *)

Module ValidationProps.
Import Security.

Lemma validatePostalCode_ok code :
  fst (Validation.validatePostalCode code) = true ->
  Validation.length (trim code) = 4 /\
  Validation.all_chars Validation.is_digit (trim code) = true.
Proof.
  unfold Validation.validatePostalCode, Validation.postalCode_pattern.
  destruct (String.eqb code ""); [discriminate |].
  destruct (Validation.length (trim code) =? 4) eqn:Hl; simpl; [| discriminate].
  destruct (Validation.all_chars Validation.is_digit (trim code)); simpl;
    [| discriminate].
  intros _. split; [apply Z.eqb_eq; exact Hl | reflexivity].
Qed.

Lemma validateName_ok name fieldName :
  fst (Validation.validateName name fieldName) = true ->
  2 <= Validation.length (trim name) <= 50 /\
  Validation.all_chars Validation.name_char (trim name) = true.
Proof.
  unfold Validation.validateName, Validation.name_pattern.
  destruct (String.eqb name ""); [discriminate |].
  destruct (Validation.length (trim name) <? 2) eqn:H2; [discriminate |].
  destruct (50 <? Validation.length (trim name)) eqn:H50; [discriminate |].
  apply Z.ltb_ge in H2, H50.
  rewrite (proj2 (Z.leb_le 2 _) H2), (proj2 (Z.leb_le _ 50) H50). simpl.
  destruct (Validation.all_chars Validation.name_char (trim name)); simpl;
    [| discriminate].
  intros _. split; [lia | reflexivity].
Qed.

Lemma in_range_digit a : in_range "6" "8" a = true -> Validation.is_digit a = true.
Proof.
  unfold Validation.is_digit, in_range. intros H.
  apply andb_true_iff in H as [H1 H2]. apply Z.leb_le in H1, H2.
  apply andb_true_iff. split; apply Z.leb_le.
  - change (code "0") with 48. change (code "6") with 54 in H1. lia.
  - change (code "9") with 57. change (code "8") with 56 in H2. lia.
Qed.

Lemma mobile_tail_ok s :
  Validation.mobile_tail s = true ->
  Validation.length s = 9 /\ Validation.all_chars Validation.is_digit s = true.
Proof.
  destruct s as [| a rest]; simpl; [discriminate |].
  intros H. apply andb_true_iff in H as [H Hd].
  apply andb_true_iff in H as [Ha Hl]. apply Z.eqb_eq in Hl.
  split.
  - unfold Validation.length in *. simpl String.length. lia.
  - rewrite (in_range_digit a Ha), Hd. reflexivity.
Qed.

Lemma validatePhone_ok phone :
  fst (Validation.validatePhone phone) = true ->
  exists prefix tail,
    Validation.strip phone = prefix +:+ tail /\
    (prefix = "0" \/ prefix = "+27") /\
    Validation.length tail = 9 /\
    Validation.all_chars Validation.is_digit tail = true.
Proof.
  unfold Validation.validatePhone.
  destruct (String.eqb phone ""); [discriminate |].
  destruct (Validation.phone_pattern (Validation.strip phone)) eqn:Hp; simpl;
    [| discriminate].
  intros _. unfold Validation.phone_pattern in Hp.
  destruct (Validation.strip phone) as [| a s]; [discriminate |].
  destruct (Ascii.eqb a "0") eqn:H0.
  - apply Ascii.eqb_eq in H0. subst a.
    exists "0", s. split; [reflexivity |]. split; [left; reflexivity |].
    now apply mobile_tail_ok.
  - destruct (Ascii.eqb a "+") eqn:Hplus.
    + apply Ascii.eqb_eq in Hplus. subst a.
      destruct s as [| b s]; [discriminate |].
      destruct (Ascii.eqb b "2") eqn:Hb;
        [apply Ascii.eqb_eq in Hb; subst b |
         apply Ascii.eqb_neq in Hb;
         destruct b as [[] [] [] [] [] [] [] []]; try discriminate; congruence].
      destruct s as [| c s]; [discriminate |].
      destruct (Ascii.eqb c "7") eqn:Hc;
        [apply Ascii.eqb_eq in Hc; subst c |
         apply Ascii.eqb_neq in Hc;
         destruct c as [[] [] [] [] [] [] [] []]; try discriminate; congruence].
      exists "+27", s. split; [reflexivity |]. split; [right; reflexivity |].
      now apply mobile_tail_ok.
    + apply Ascii.eqb_neq in H0, Hplus.
      destruct a as [[] [] [] [] [] [] [] []]; try discriminate; congruence.
Qed.


Lemma email_from_ok s :
  forall seen,
    Validation.email_from seen s = true ->
    exists l d,
      s = l +:+ "@" +:+ d /\
      (seen = true \/ l <> "") /\
      Validation.all_chars Validation.email_char l = true /\
      Validation.domain_pattern d = true.
Proof.
  induction s as [| a s IH]; intros seen; simpl; [discriminate |].
  destruct (Ascii.eqb a "@") eqn:Ha.
  - apply Ascii.eqb_eq in Ha. subst a. intros H.
    apply andb_true_iff in H as [Hs Hd].
    exists "", s. split; [reflexivity |]. split; [left; exact Hs |].
    split; [reflexivity | exact Hd].
  - intros H. apply andb_true_iff in H as [Hc Hr].
    destruct (IH true Hr) as (l & d & -> & _ & Hl & Hd).
    exists (String a l), d. split; [reflexivity |].
    split; [right; discriminate |].
    split; [simpl; rewrite Hc, Hl; reflexivity | exact Hd].
Qed.

Lemma validateEmail_ok email :
  fst (Validation.validateEmail email) = true ->
  exists l d,
    trim email = l +:+ "@" +:+ d /\
    l <> "" /\ d <> "" /\
    Validation.all_chars Validation.email_char l = true /\
    Validation.all_chars Validation.email_char d = true /\
    Validation.length (trim email) <= 254.
Proof.
  unfold Validation.validateEmail.
  destruct (String.eqb email ""); [discriminate |].
  destruct (Validation.length (trim email) =? 0); [discriminate |].
  destruct (254 <? Validation.length (trim email)) eqn:Hlen; [discriminate |].
  apply Z.ltb_ge in Hlen.
  destruct (Validation.email_pattern (trim email)) eqn:Hp; simpl; [| discriminate].
  intros _. unfold Validation.email_pattern in Hp.
  destruct (email_from_ok _ _ Hp) as (l & d & Heq & Hl & Hcl & Hd).
  exists l, d. split; [exact Heq |].
  split; [destruct Hl as [Hl | Hl]; [discriminate | exact Hl] |].
  unfold Validation.domain_pattern in Hd. apply andb_true_iff in Hd as [Hcd Hdot].
  split; [intros ->; discriminate |].
  split; [exact Hcl |]. split; [exact Hcd | exact Hlen].
Qed.

Lemma singleton_if_nil {A} (b : bool) (x : A) :
  (if b then [] else [x]) = [] -> b = true.
Proof. destruct b; [reflexivity | discriminate]. Qed.

Lemma pair_errors (errs : list string) :
  (if bool_decide (errs = []) then [] else errs) = [] ->
  bool_decide (errs = []) = true.
Proof.
  destruct (decide (errs = [])) as [-> | Hne]; [reflexivity |].
  rewrite bool_decide_eq_false_2 by exact Hne. intros H. contradiction.
Qed.

Lemma validateAddress_ok street city province postalCode :
  fst (Validation.validateAddress street city province postalCode) = true ->
  5 <= Validation.length (trim street) /\
  2 <= Validation.length (trim city) /\
  2 <= Validation.length (trim province) /\
  Validation.length (trim postalCode) = 4 /\
  Validation.all_chars Validation.is_digit (trim postalCode) = true.
Proof.
  unfold Validation.validateAddress. cbv zeta. cbn [fst].
  intros H. apply bool_decide_eq_true_1 in H.
  apply app_eq_nil in H as [H1 H]. apply app_eq_nil in H as [H2 H].
  apply app_eq_nil in H as [H3 H4].
  apply singleton_if_nil in H4.
  destruct (validatePostalCode_ok _ H4) as [Hp1 Hp2].
  assert (F : forall s n,
             String.eqb s "" || (Validation.length (trim s) <? n) = false ->
             n <= Validation.length (trim s)).
  { intros s n E. apply orb_false_iff in E as [_ E]. apply Z.ltb_ge. exact E. }
  destruct (String.eqb street "" || _) eqn:E1 in H1; [discriminate |].
  destruct (String.eqb city "" || _) eqn:E2 in H2; [discriminate |].
  destruct (String.eqb province "" || _) eqn:E3 in H3; [discriminate |].
  apply F in E1, E2, E3. auto.
Qed.

(** X24 (shipping details that are accepted).  When [saveShippingInfo]
    accepts shipping details, with the validators of the site, they are
    stored and saved, and: the trimmed full name has 2 to 50 characters;
    the trimmed email is a non-empty local part, an [@] and a non-empty
    domain, with no white space and no other [@]; the phone number, spaces
    and dashes removed, is [0] or [+27] followed by nine digits; the
    trimmed street has at least 5 characters, the city and the province at
    least 2; and the trimmed postal code is four digits. *)
Theorem accepted_shipping_info info w w' :
  CheckoutService.saveShippingInfo Validation.validators info w = (Ok true, w') ->
  shippingInfo (checkoutData w') = info /\
  storedCheckout w' = Some (checkoutData w') /\
  2 <= Validation.length (trim (fullName info)) <= 50 /\
  (exists l d, trim (email info) = l +:+ "@" +:+ d /\ l <> "" /\ d <> "" /\
               Validation.all_chars Validation.email_char l = true /\
               Validation.all_chars Validation.email_char d = true) /\
  (exists prefix tail,
      Validation.strip (phone info) = prefix +:+ tail /\
      (prefix = "0" \/ prefix = "+27") /\
      Validation.length tail = 9 /\
      Validation.all_chars Validation.is_digit tail = true) /\
  5 <= Validation.length (trim (street info)) /\
  2 <= Validation.length (trim (city info)) /\
  2 <= Validation.length (trim (province info)) /\
  Validation.length (trim (postalCode info)) = 4 /\
  Validation.all_chars Validation.is_digit (trim (postalCode info)) = true.
Proof.
  unfold CheckoutService.saveShippingInfo, bind.
  destruct (fst (CheckoutService.validateShippingInfo Validation.validators info))
    eqn:Hv; [| discriminate].
  simpl. intros H. inversion H; subst. clear H. simpl.
  unfold CheckoutService.validateShippingInfo in Hv. cbv zeta in Hv. cbn [fst] in Hv.
  apply bool_decide_eq_true_1 in Hv.
  apply app_eq_nil in Hv as [H1 Hv]. apply app_eq_nil in Hv as [H2 Hv].
  apply app_eq_nil in Hv as [H3 H4].
  apply singleton_if_nil in H1, H2, H3.
  assert (H4' : fst (Validation.validateAddress (street info) (city info)
                       (province info) (postalCode info)) = true).
  { apply pair_errors. exact H4. }
  simpl in H1, H2, H3.
  destruct (validateName_ok _ _ H1) as [Hn _].
  destruct (validateEmail_ok _ H2) as (l & d & He & Hl & Hd & Hcl & Hcd & _).
  destruct (validatePhone_ok _ H3) as (prefix & tail & Hp).
  destruct (validateAddress_ok _ _ _ _ H4') as (Hs & Hc & Hpr & Hz1 & Hz2).
  split; [reflexivity |]. split; [reflexivity |]. split; [exact Hn |].
  split; [exists l, d; auto |]. split; [exists prefix, tail; exact Hp |].
  auto.
Qed.

(** *** On sample data *)

Lemma accepted_shipping_info_witness :
  let info := shippingInfo (Examples.checkout 0) in
  let w := Examples.world [] [] in
  Validation.length (trim (postalCode info)) = 4 /\
  Validation.all_chars Validation.is_digit (trim (postalCode info)) = true.
Proof.
  intros info w.
  destruct (accepted_shipping_info info w
              (snd (CheckoutService.saveShippingInfo Validation.validators info w)) eq_refl)
    as (_ & _ & _ & _ & _ & _ & _ & _ & H).
  exact H.
Defined.

End ValidationProps.

(** ** The pages: refused forms, answers without JSON, sign-in *)

Module PageProps.
Import TraceSpec.

Section Pages.
Context (api : APIService.t) (emailRegex_test : string -> bool).

(** X25 (refused forms send nothing).  A sign-in form with a blank email
    or an empty password, a registration form that does not pass the page's
    checks, and a checkout form that does not pass them, each end in one
    error notification and nothing else: no request is sent and nothing is
    stored or scheduled. *)
Theorem rejected_forms_send_nothing w :
  (forall email password redirect,
      trim email = "" \/ password = "" ->
      exists m,
        LoginPage.handleLogin api (Some email) (Some password) redirect w
        = (Ok tt, notified m "error" w)) /\
  (forall name email password confirm,
      MergeSpec.registrable emailRegex_test name email password confirm = false ->
      exists m,
        LoginPage.handleRegister api emailRegex_test (Some name) (Some email)
          (Some password) confirm w
        = (Ok tt, notified m "error" w)) /\
  (forall formData currentUser termsCheckbox,
      PaymentSpec.submittable emailRegex_test formData currentUser termsCheckbox
      = false ->
      exists m,
        CheckoutPage.handleCheckoutSubmit api emailRegex_test formData
          currentUser termsCheckbox w
        = (Ok tt, notified m "error" w)).
Proof.
  split; [| split].
  - intros email password redirect H. unfold LoginPage.handleLogin.
    destruct (String.eqb (trim email) "") eqn:He; [eexists; reflexivity |].
    destruct (String.eqb password "") eqn:Hp; [eexists; reflexivity |].
    apply String.eqb_neq in He, Hp. destruct H; contradiction.
  - intros name email password confirm H.
    unfold LoginPage.handleRegister, MergeSpec.registrable in *.
    destruct (String.eqb (trim name) ""); [eexists; reflexivity |].
    destruct (String.length (trim name) <? 2)%nat; [eexists; reflexivity |].
    destruct (String.eqb (trim email) ""); [eexists; reflexivity |].
    destruct (emailRegex_test (trim email)); [| eexists; reflexivity].
    destruct (String.eqb password ""); [eexists; reflexivity |].
    destruct (String.length password <? 8)%nat; [eexists; reflexivity |].
    destruct confirm as [c |]; simpl in H; [| discriminate].
    rewrite H. eexists. reflexivity.
  - intros formData currentUser termsCheckbox H.
    unfold CheckoutPage.handleCheckoutSubmit, PaymentSpec.submittable in *.
    destruct (truthy_str (FormData.name formData)); [| eexists; reflexivity].
    destruct (truthy_str (FormData.phone formData)); [| eexists; reflexivity].
    destruct (truthy_str (FormData.line1 formData)); [| eexists; reflexivity].
    destruct (truthy_str (FormData.city formData)); [| eexists; reflexivity].
    destruct (truthy_str (FormData.province formData)); [| eexists; reflexivity].
    destruct (truthy_str (FormData.postalCode formData)); [| eexists; reflexivity].
    destruct currentUser; simpl in *.
    + destruct termsCheckbox as [[|] |]; try discriminate. eexists. reflexivity.
    + destruct (truthy_str (FormData.guestEmail formData)); simpl in *;
        [| eexists; reflexivity].
      destruct (emailRegex_test _); simpl in *; [| eexists; reflexivity].
      destruct termsCheckbox as [[|] |]; try discriminate. eexists. reflexivity.
Qed.

Lemma attempt_ok_plain method url data includeAuth w r rest :
  network w = Responded r :: rest ->
  json r = None ->
  ok r = true ->
  RequestSpec.attempt method url data includeAuth w
  = (Ok Resp.success_only,
     RequestSpec.sent (Req.mk method url (RequestSpec.header includeAuth w) data)
       rest w).
Proof.
  intros Hnet Hjson Hok. rewrite RequestProps.attempt_unfold. cbv zeta.
  rewrite Hnet. unfold APIService.handleResponse. rewrite Hjson, Hok. reflexivity.
Qed.

(** The request part of [handleCheckoutSubmit], reached once the form
    passes the checks. *)
Lemma handleCheckoutSubmit_body formData currentUser termsCheckbox w :
  PaymentSpec.submittable emailRegex_test formData currentUser termsCheckbox = true ->
  CheckoutPage.handleCheckoutSubmit api emailRegex_test formData currentUser
    termsCheckbox w
  = finally
      (try_catch
         (emit (Loading true) ;;;
          response <- APIService.createOrder api (CheckoutBody formData) ;;
          if Resp.success response || bool_decide (is_Some (Resp.data response))
          then
            match CheckoutPage.response_paymentData response with
            | Some paymentData =>
                showSuccess "Order created! Redirecting to payment..." ;;;
                setTimeout (RedirectToPayFast paymentData) 1000
            | None =>
                showSuccess "Order created successfully!" ;;;
                setTimeout (ShowOrderDetails (CheckoutPage.response_order response)) 1500
            end
          else
            throw (Error (or_default (Resp.message response)
                            "Failed to create order")))
         (fun error =>
            console_error "Error creating order:" ;;;
            m <- message_of error ;;
            showError (or_default (Some m)
                         "Failed to create order. Please try again.")))
      (emit (Loading false)) w.
Proof.
  intros Hsub.
  unfold CheckoutPage.handleCheckoutSubmit, PaymentSpec.submittable in *.
  destruct (truthy_str (FormData.name formData)); [| discriminate].
  destruct (truthy_str (FormData.phone formData)); [| discriminate].
  destruct (truthy_str (FormData.line1 formData)); [| discriminate].
  destruct (truthy_str (FormData.city formData)); [| discriminate].
  destruct (truthy_str (FormData.province formData)); [| discriminate].
  destruct (truthy_str (FormData.postalCode formData)); [| discriminate].
  destruct currentUser.
  - destruct termsCheckbox as [[|] |]; try discriminate; reflexivity.
  - destruct (truthy_str (FormData.guestEmail formData)); [| discriminate].
    destruct (emailRegex_test _); [| discriminate].
    destruct termsCheckbox as [[|] |]; try discriminate; reflexivity.
Qed.

(** X26 (an order answered without JSON).  When the form passes the
    checks of the checkout page, no callback is pending, and the order
    request is answered by a 2xx response whose body is not JSON, the page
    announces that the order was created, but it neither submits a
    payment form nor navigates anywhere: the callback it scheduled fails
    when it runs. *)
Theorem order_without_json_body w formData currentUser termsCheckbox r rest :
  1 <= APIService.retryAttempts api ->
  PaymentSpec.submittable emailRegex_test formData currentUser termsCheckbox = true ->
  timers w = [] ->
  network w = Responded r :: rest ->
  ok r = true ->
  json r = None ->
  exists w',
    PaymentSpec.submit_and_settle api emailRegex_test formData currentUser
      termsCheckbox w = (Ok tt, w') /\
    trace w' = trace w ++
      [Loading true;
       Fetch (Req.mk "POST" ENDPOINTS.orders (RequestSpec.header true w)
                (CheckoutBody formData));
       Notify "Order created successfully!" "success";
       Loading false;
       ConsoleError "Uncaught"] /\
    timers w' = [].
Proof.
  intros Hn Hsub Ht Hnet Hok Hjson.
  unfold PaymentSpec.submit_and_settle. unfold bind at 1.
  rewrite (handleCheckoutSubmit_body _ _ _ _ Hsub).
  unfold finally, try_catch. unfold bind at 1. unfold emit at 1, modify at 1.
  unfold bind at 1. unfold APIService.createOrder.
  rewrite RequestFacts.post_unfold.
  erewrite RequestFacts.retryRequest_first;
    [| exact Hn
     | apply (attempt_ok_plain _ _ _ _ _ r rest);
       [simpl; exact Hnet | exact Hjson | exact Hok]].
  simpl. rewrite Ht. simpl.
  eexists. split; [reflexivity |]. simpl. rewrite <- !app_assoc.
  split; reflexivity.
Qed.


(** The cart merge never throws and shows nothing to the user. *)
Lemma mergeCart_quiet w :
  exists w' evs,
    APIService.mergeCart api w = (Ok tt, w') /\
    trace w' = trace w ++ evs /\
    notifications evs = [] /\
    timers w' = timers w /\
    token w' = token w.
Proof.
  unfold APIService.mergeCart, getItem. unfold bind at 1. unfold gets at 1.
  unfold bind at 1. unfold gets at 1.
  destruct (truthy_str (localStorage w !! "sessionId") && truthy_str (token w)).
  2: { exists w, []. rewrite app_nil_r. repeat split; reflexivity. }
  unfold try_catch. unfold bind at 1.
  match goal with
  | |- context [APIService.post api ?u ?d ?a w] =>
      destruct (RequestProps.request_trace api "POST" u d a w)
        as (evs & He & Hf & _);
      rewrite <- RequestFacts.post_unfold in He;
      pose proof (keeps_post timers (fun _ _ => eq_refl) (fun _ _ => eq_refl)
                    (fun _ _ => eq_refl) api u d a w) as Ht;
      pose proof (keeps_post token (fun _ _ => eq_refl) (fun _ _ => eq_refl)
                    (fun _ _ => eq_refl) api u d a w) as Hk;
      destruct (APIService.post api u d a w) as [[r | e] w1]
  end; simpl in He, Ht, Hk.
  - eexists. exists evs. split; [reflexivity |]. simpl.
    split; [exact He |].
    split; [eapply CartProps.request_events_quiet; exact Hf |].
    split; assumption.
  - eexists. exists (evs ++ [ConsoleError "Cart merge failed:"]).
    split; [reflexivity |]. simpl. rewrite He, app_assoc.
    split; [reflexivity |].
    split.
    + unfold notifications. rewrite flat_map_app. simpl. rewrite app_nil_r.
      eapply CartProps.request_events_quiet; exact Hf.
    + split; assumption.
Qed.

(** X27 (sign-in does not wait for the merge).  For a non-blank email and
    a non-empty password: once the backend has answered the login request
    with a token, [handleLogin] ends well
    whatever happens to the cart merge: it shows the success message last,
    the merge shows nothing, the redirection to the [redirect] parameter
    (or to the home page) is scheduled, and the token is held. *)
Theorem sign_in_survives_merge w email password redirect r d t rest :
  1 <= APIService.retryAttempts api ->
  trim email <> "" ->
  password <> "" ->
  network w = Responded r :: rest ->
  json r = Some d ->
  ok r = true ->
  Resp.token d = Some t ->
  truthy_str (Some t) = true ->
  exists w' evs,
    LoginPage.handleLogin api (Some email) (Some password) redirect w
    = (Ok tt, w') /\
    trace w' = trace w ++
      Loading true ::
      Fetch (Req.mk "POST" ENDPOINTS.login None (LoginBody (trim email) password)) ::
      evs ++ [Notify "Login successful! Redirecting..." "success"; Loading false] /\
    notifications evs = [] /\
    timers w' = timers w ++ [(Redirect (or_default redirect "/index.html"), 1000)] /\
    token w' = Some t.
Proof.
  intros Hn He Hp Hnet Hjson Hok Htok Ht.
  unfold LoginPage.handleLogin.
  apply String.eqb_neq in He, Hp. rewrite He, Hp.
  unfold finally, try_catch. unfold bind at 1. unfold emit at 1, modify at 1.
  unfold bind at 1.
  erewrite (MergeClaims.login_run api Hn _ (trim email) password r d t rest);
    [| simpl; exact Hnet | exact Hjson | exact Hok | exact Htok | exact Ht].
  rewrite Htok, Ht, orb_true_r.
  unfold bind at 1.
  match goal with
  | |- context [APIService.mergeCart api ?x] =>
      destruct (mergeCart_quiet x) as (w1 & evs & Hm & Htr & Hq & Hti & Hk);
      rewrite Hm
  end.
  simpl in Htr, Hti, Hk.
  eexists. exists evs. split; [reflexivity |]. simpl.
  rewrite Htr, Hti, Hk. rewrite <- !app_assoc. simpl.
  repeat split; try reflexivity. exact Hq.
Qed.

End Pages.

(** *** On sample data *)

Lemma rejected_forms_send_nothing_witness :
  let w := Examples.world [] [] in
  (exists m,
      LoginPage.handleLogin APIService.api (Some "  ") (Some "secret") None w
      = (Ok tt, notified m "error" w)) /\
  (exists m,
      LoginPage.handleRegister APIService.api Validation.email_pattern
        (Some "Thandi") (Some "thandi@example") (Some "secret-password") None w
      = (Ok tt, notified m "error" w)) /\
  (exists m,
      CheckoutPage.handleCheckoutSubmit APIService.api Validation.email_pattern
        Examples.checkout_form false None w
      = (Ok tt, notified m "error" w)).
Proof.
  intros w.
  destruct (rejected_forms_send_nothing APIService.api Validation.email_pattern w)
    as (Hl & Hr & Hc).
  split; [| split].
  - apply Hl. left. reflexivity.
  - apply Hr. reflexivity.
  - apply Hc. reflexivity.
Defined.

Lemma order_without_json_body_witness :
  let w := Examples.world [] [Responded (mkResponse 200 None)] in
  exists w',
    PaymentSpec.submit_and_settle APIService.api Validation.email_pattern
      Examples.checkout_form true None w = (Ok tt, w') /\
    trace w' =
      [Loading true;
       Fetch (Req.mk "POST" ENDPOINTS.orders None
                (CheckoutBody Examples.checkout_form));
       Notify "Order created successfully!" "success";
       Loading false;
       ConsoleError "Uncaught"] /\
    timers w' = [].
Proof.
  intros w.
  exact (order_without_json_body APIService.api Validation.email_pattern w
           Examples.checkout_form true None (mkResponse 200 None) []
           ltac:(vm_compute; discriminate) eq_refl eq_refl eq_refl eq_refl eq_refl).
Defined.

Lemma sign_in_survives_merge_witness :
  let w := Examples.guest
             [Examples.answer 200 (Resp.mk true None (Some "tok") None None None None)] in
  exists w',
    LoginPage.handleLogin APIService.api (Some "thandi@example.com")
      (Some "secret-password") (Some "/checkout.html") w = (Ok tt, w') /\
    timers w' = [(Redirect "/checkout.html", 1000)] /\
    token w' = Some "tok".
Proof.
  intros w.
  destruct (sign_in_survives_merge APIService.api w "thandi@example.com"
              "secret-password" (Some "/checkout.html")
              (mkResponse 200 (Some (Resp.mk true None (Some "tok") None None None None)))
              (Resp.mk true None (Some "tok") None None None None) "tok" []
              ltac:(vm_compute; discriminate) ltac:(vm_compute; discriminate)
              ltac:(discriminate) eq_refl eq_refl eq_refl eq_refl eq_refl)
    as (w' & evs & Hr & _ & _ & Ht & Hk).
  exists w'. split; [exact Hr |]. split; [exact Ht | exact Hk].
Defined.

End PageProps.

(** ** Sanitised text, passwords and card numbers *)

Module SecurityProps.
Import Security SecuritySpec.

Lemma all_chars_app P s1 s2 :
  Validation.all_chars P (s1 +:+ s2)
  = Validation.all_chars P s1 && Validation.all_chars P s2.
Proof.
  induction s1 as [| a s1 IH]; [reflexivity |].
  change (String a s1 +:+ s2) with (String a (s1 +:+ s2)). simpl.
  rewrite IH. apply andb_assoc.
Qed.

Lemma avoids_replace c sub bad s :
  avoids (c :: bad) sub = true ->
  avoids bad s = true ->
  avoids (c :: bad) (replace_char c sub s) = true.
Proof.
  unfold avoids. intros Hsub.
  set (P := fun a => negb (existsb (Ascii.eqb a) (c :: bad))) in *.
  induction s as [| a s IH]; [reflexivity |].
  cbn [Validation.all_chars replace_char].
  intros H. apply andb_true_iff in H as [Ha Hs].
  destruct (Ascii.eqb a c) eqn:Hac.
  - rewrite all_chars_app, Hsub. apply IH. exact Hs.
  - cbn [Validation.all_chars]. rewrite (IH Hs), andb_true_r.
    unfold P. cbn [existsb]. rewrite Hac. exact Ha.
Qed.

Lemma avoids_weaken c bad s :
  avoids (c :: bad) s = true -> avoids bad s = true.
Proof.
  unfold avoids. induction s as [| a s IH]; simpl; [reflexivity |].
  intros H. apply andb_true_iff in H as [Ha Hs].
  rewrite (IH Hs). apply negb_true_iff in Ha. apply orb_false_iff in Ha as [_ Ha].
  rewrite Ha. reflexivity.
Qed.

Lemma replace_clean c sub bad s :
  In c bad -> avoids bad s = true -> replace_char c sub s = s.
Proof.
  unfold avoids. intros Hin. induction s as [| a s IH]; simpl; [reflexivity |].
  intros H. apply andb_true_iff in H as [Ha Hs].
  apply negb_true_iff in Ha.
  destruct (Ascii.eqb a c) eqn:Hac.
  - apply Ascii.eqb_eq in Hac. subst a.
    assert (existsb (Ascii.eqb c) bad = true).
    { apply existsb_exists. exists c. split; [exact Hin | apply Ascii.eqb_refl]. }
    congruence.
  - rewrite (IH Hs). reflexivity.
Qed.

Lemma avoids_perm bad bad' s :
  (forall a, In a bad' -> In a bad) ->
  avoids bad s = true -> avoids bad' s = true.
Proof.
  unfold avoids. intros Hsub. induction s as [| a s IH]; simpl; [reflexivity |].
  intros H. apply andb_true_iff in H as [Ha Hs]. rewrite (IH Hs).
  apply negb_true_iff in Ha.
  destruct (existsb (Ascii.eqb a) bad') eqn:E; [| reflexivity].
  apply existsb_exists in E as (x & Hx & Hax).
  assert (existsb (Ascii.eqb a) bad = true).
  { apply existsb_exists. exists x. split; [apply Hsub; exact Hx | exact Hax]. }
  congruence.
Qed.

Lemma sanitizeInput_clean s :
  avoids markup s = true -> sanitizeInput s = s.
Proof.
  intros H. unfold sanitizeInput.
  rewrite (replace_clean "<" _ markup s) by (cbv [markup In]; auto 10).
  rewrite (replace_clean ">" _ markup s) by (cbv [markup In]; auto 10).
  rewrite (replace_clean dquote _ markup s) by (cbv [markup In]; auto 10).
  rewrite (replace_clean "'" _ markup s) by (cbv [markup In]; auto 10).
  rewrite (replace_clean "/" _ markup s) by (cbv [markup In]; auto 10).
  reflexivity.
Qed.

(** X28 (sanitised text).  The result of [sanitizeInput] holds none of
    the characters [<], [>], the double quote, ['] and [/]; sanitising it
    again changes nothing; and a text without these characters is returned
    as it is. *)
Theorem sanitizeInput_removes_markup s :
  avoids markup (sanitizeInput s) = true /\
  sanitizeInput (sanitizeInput s) = sanitizeInput s /\
  (avoids markup s = true -> sanitizeInput s = s).
Proof.
  assert (H : avoids markup (sanitizeInput s) = true).
  { unfold sanitizeInput.
    apply (avoids_perm ["/"%char; "'"%char; dquote; ">"%char; "<"%char]).
    { intros a. simpl. tauto. }
    apply avoids_replace; [reflexivity |].
    apply avoids_replace; [reflexivity |].
    apply avoids_replace; [reflexivity |].
    apply avoids_replace; [reflexivity |].
    apply avoids_replace; [reflexivity |].
    unfold avoids. induction s; simpl; auto. }
  split; [exact H |]. split; [apply sanitizeInput_clean; exact H |].
  apply sanitizeInput_clean.
Qed.

(** *** Passwords *)

(** X30 (accepted passwords are strong).  A password that
    [validatePasswordStrength] accepts has at least 8 characters, and
    [getPasswordStrength] rates it [strong]. *)
Theorem accepted_password_is_strong password :
  fst (fst (validatePasswordStrength password)) = true ->
  getPasswordStrength password = "strong" /\
  8 <= Z.of_nat (String.length password).
Proof.
  unfold validatePasswordStrength, getPasswordStrength, PASSWORD_MIN_LENGTH.
  cbv zeta. cbn [fst].
  intros H. apply bool_decide_eq_true_1 in H.
  destruct (Z.of_nat (String.length password) <? 8) eqn:Hl; [discriminate |].
  destruct (test_class (in_range "A" "Z") password); [| discriminate].
  destruct (test_class (in_range "a" "z") password); [| discriminate].
  destruct (test_class (in_range "0" "9") password); [| discriminate].
  destruct (test_class is_special password); [| discriminate].
  apply Z.ltb_ge in Hl. rewrite (proj2 (Z.leb_le 8 _) Hl).
  split; [| exact Hl].
  destruct (12 <=? Z.of_nat (String.length password)); reflexivity.
Qed.


(** *** Card numbers *)

Lemma luhn_acc l :
  forall e s, Validation.luhn_loop l e s = s + Validation.luhn_loop l e 0.
Proof.
  induction l as [| a l IH]; intros e s; simpl; [lia |].
  rewrite IH. rewrite (IH (negb e) (0 + _)). lia.
Qed.

Lemma luhn_split X :
  forall e, exists e',
    forall a Y,
      Validation.luhn_loop (X ++ a :: Y) e 0
      = Validation.luhn_loop X e 0 + luhn_digit e' a
        + Validation.luhn_loop Y (negb e') 0.
Proof.
  induction X as [| x X IH]; intros e.
  - exists e. intros a Y. simpl. rewrite luhn_acc. unfold luhn_digit. lia.
  - destruct (IH (negb e)) as (e' & H). exists e'. intros a Y. simpl.
    rewrite luhn_acc, H. rewrite (luhn_acc X (negb e) (0 + _)). lia.
Qed.

Lemma digit_range a :
  Validation.is_digit a = true -> 0 <= Validation.digit_value a <= 9.
Proof.
  unfold Validation.is_digit, in_range, Validation.digit_value. intros H.
  apply andb_true_iff in H as [H1 H2]. apply Z.leb_le in H1, H2.
  change (code "0") with 48 in H1. change (code "9") with 57 in H2. lia.
Qed.

Lemma digit_value_inj a b :
  Validation.digit_value a = Validation.digit_value b -> a = b.
Proof.
  unfold Validation.digit_value, code. intros H.
  assert (Hn : nat_of_ascii a = nat_of_ascii b) by lia.
  rewrite <- (ascii_nat_embedding a), <- (ascii_nat_embedding b), Hn.
  reflexivity.
Qed.

Lemma luhn_digit_differs e a b :
  Validation.is_digit a = true ->
  Validation.is_digit b = true ->
  a <> b ->
  (luhn_digit e a - luhn_digit e b) mod 10 <> 0.
Proof.
  intros Ha Hb Hab.
  pose proof (digit_range a Ha) as Ra. pose proof (digit_range b Hb) as Rb.
  assert (Hd : Validation.digit_value a <> Validation.digit_value b).
  { intros H. apply Hab. now apply digit_value_inj. }
  unfold luhn_digit. cbv zeta.
  destruct e.
  - destruct (9 <? Validation.digit_value a * 2) eqn:Ea;
      destruct (9 <? Validation.digit_value b * 2) eqn:Eb;
      try apply Z.ltb_lt in Ea; try apply Z.ltb_ge in Ea;
      try apply Z.ltb_lt in Eb; try apply Z.ltb_ge in Eb;
      intros H; apply Z.mod_divide in H; try lia;
      destruct H as [k Hk]; lia.
  - intros H. apply Z.mod_divide in H; try lia. destruct H as [k Hk]. lia.
Qed.

Lemma strip_app s1 s2 :
  Validation.strip (s1 +:+ s2) = Validation.strip s1 +:+ Validation.strip s2.
Proof.
  induction s1 as [| a s1 IH]; [reflexivity |].
  change (String a s1 +:+ s2) with (String a (s1 +:+ s2)). simpl.
  rewrite IH. destruct (Ascii.is_space a || Ascii.eqb a "-"); reflexivity.
Qed.

Lemma digit_not_stripped a :
  Validation.is_digit a = true ->
  Ascii.is_space a || Ascii.eqb a "-" = false.
Proof.
  destruct a as [[] [] [] [] [] [] [] []]; vm_compute; congruence.
Qed.

Lemma strip_digit a s :
  Validation.is_digit a = true ->
  Validation.strip (String a s) = String a (Validation.strip s).
Proof. intros H. simpl. rewrite (digit_not_stripped a H). reflexivity. Qed.

Lemma list_ascii_app s1 s2 :
  list_ascii_of_string (s1 +:+ s2)
  = list_ascii_of_string s1 ++ list_ascii_of_string s2.
Proof.
  induction s1 as [| a s1 IH]; [reflexivity |].
  change (String a s1 +:+ s2) with (String a (s1 +:+ s2)). simpl.
  rewrite IH. reflexivity.
Qed.

Lemma length_app_string s1 s2 :
  Validation.length (s1 +:+ s2) = Validation.length s1 + Validation.length s2.
Proof.
  unfold Validation.length. induction s1 as [| a s1 IH]; [reflexivity |].
  change (String a s1 +:+ s2) with (String a (s1 +:+ s2)).
  simpl String.length. lia.
Qed.

Lemma app_not_empty s1 a s2 : String.eqb (s1 +:+ String a s2) "" = false.
Proof. destruct s1; reflexivity. Qed.

(** What [validateCreditCard] accepts. *)
Lemma validateCreditCard_accepts s :
  fst (Validation.validateCreditCard s) = true <->
  String.eqb s "" = false /\
  String.eqb (Validation.strip s) "" = false /\
  Validation.all_chars Validation.is_digit (Validation.strip s) = true /\
  13 <= Validation.length (Validation.strip s) <= 19 /\
  luhn_sum (Validation.strip s) mod 10 = 0.
Proof.
  unfold Validation.validateCreditCard, luhn_sum. cbv zeta.
  destruct (String.eqb s ""); [split; [discriminate | intros [H _]; discriminate] |].
  destruct (String.eqb (Validation.strip s) "");
    [split; [discriminate | intros (_ & H & _); discriminate] |].
  destruct (Validation.all_chars Validation.is_digit (Validation.strip s));
    [| split; [discriminate | intros (_ & _ & H & _); discriminate]].
  cbn [negb andb].
  destruct (Validation.length (Validation.strip s) <? 13) eqn:H13.
  { apply Z.ltb_lt in H13. cbn [orb].
    split; [discriminate | intros (_ & _ & _ & H & _); lia]. }
  destruct (19 <? Validation.length (Validation.strip s)) eqn:H19.
  { apply Z.ltb_lt in H19. cbn [orb].
    split; [discriminate | intros (_ & _ & _ & H & _); lia]. }
  apply Z.ltb_ge in H13, H19. cbn [orb fst].
  rewrite Z.eqb_eq. split; [intros H; repeat split; auto | intros (_ & _ & _ & _ & H); exact H].
Qed.

(** X29 (the check digit).  [validateCreditCard] detects every error in
    one digit: if it accepts a card number, it rejects, as an invalid card
    number, the number obtained by replacing any one of its digits by a
    different digit, wherever spaces and dashes stand. *)
Theorem luhn_detects_single_digit_error pre post a b :
  Validation.is_digit a = true ->
  Validation.is_digit b = true ->
  a <> b ->
  fst (Validation.validateCreditCard (pre +:+ String a post)) = true ->
  Validation.validateCreditCard (pre +:+ String b post)
  = (false, "Invalid card number").
Proof.
  intros Ha Hb Hab H.
  apply validateCreditCard_accepts in H as (_ & _ & Hd & Hl & Hs).
  rewrite strip_app, strip_digit in Hd, Hl, Hs by exact Ha.
  rewrite all_chars_app in Hd. apply andb_true_iff in Hd as [Hd1 Hd2].
  cbn [Validation.all_chars] in Hd2. apply andb_true_iff in Hd2 as [_ Hd2].
  rewrite length_app_string in Hl.
  unfold luhn_sum in Hs. rewrite list_ascii_app, rev_app_distr in Hs.
  cbn [list_ascii_of_string rev] in Hs. rewrite <- app_assoc in Hs.
  cbn [app] in Hs.
  destruct (luhn_split (rev (list_ascii_of_string (Validation.strip post))) false)
    as (e' & Hsplit).
  rewrite Hsplit in Hs.
  unfold Validation.validateCreditCard. cbv zeta.
  rewrite app_not_empty.
  rewrite strip_app, strip_digit by exact Hb.
  rewrite app_not_empty.
  rewrite all_chars_app. cbn [Validation.all_chars]. rewrite Hd1, Hb, Hd2.
  cbn [negb andb].
  rewrite length_app_string.
  assert (Hlen : forall c, Validation.length (String c (Validation.strip post))
                           = 1 + Validation.length (Validation.strip post)).
  { intros c. unfold Validation.length. simpl String.length. lia. }
  rewrite Hlen in Hl |- *.
  rewrite (proj2 (Z.ltb_ge _ 13)) by lia.
  rewrite (proj2 (Z.ltb_ge 19 _)) by lia.
  cbn [orb].
  rewrite list_ascii_app, rev_app_distr.
  cbn [list_ascii_of_string rev]. rewrite <- app_assoc. cbn [app].
  rewrite Hsplit.
  pose proof (luhn_digit_differs e' a b Ha Hb Hab) as Hne.
  match goal with
  | |- context [?x mod 10 =? 0] =>
      destruct (x mod 10 =? 0) eqn:E; [| reflexivity]
  end.
  exfalso. apply Z.eqb_eq in E. apply Hne.
  apply Z.mod_divide in Hs; [| lia]. apply Z.mod_divide in E; [| lia].
  apply Z.mod_divide; [lia |].
  destruct Hs as [k1 H1], E as [k2 H2]. exists (k1 - k2). lia.
Qed.

(** *** On sample data *)

Lemma sanitizeInput_removes_markup_witness :
  sanitizeInput "Leave at the gate" = "Leave at the gate" /\
  avoids markup (sanitizeInput "<b>5/7</b>") = true.
Proof.
  destruct (sanitizeInput_removes_markup "Leave at the gate") as (_ & _ & Hclean).
  destruct (sanitizeInput_removes_markup "<b>5/7</b>") as (Hinert & _).
  split; [apply Hclean; reflexivity | exact Hinert].
Defined.

Lemma luhn_detects_single_digit_error_witness :
  Validation.validateCreditCard "4111 1111 1111 1121"
  = (false, "Invalid card number").
Proof.
  exact (luhn_detects_single_digit_error "4111 1111 1111 11" "1" "1"%char "2"%char
           eq_refl eq_refl ltac:(discriminate) eq_refl).
Defined.

Lemma accepted_password_is_strong_witness :
  getPasswordStrength "Wigs4ever!" = "strong" /\
  8 <= Z.of_nat (String.length "Wigs4ever!").
Proof.
  exact (accepted_password_is_strong "Wigs4ever!" eq_refl).
Defined.

End SecurityProps.
